(** * The JSON-RPC exchange of the Alloy MCP examples

    A shallow embedding of the request/response exchange that the example
    clients repeat: [examples/basic-typescript/index.ts] (class
    [AlloyMCPClient]) and the two Next.js API routes
    ([app/api/mcp/connect/route.ts] and the tool-execution route), followed by
    the properties of the exchange.

    Conventions of the embedding.
    - A JavaScript value is a [jsval].  Numbers are the integer-valued ones
      (request ids, HTTP statuses, JSON-RPC error codes); number literals with
      a fraction or an exponent are outside the modelled fragment.
    - A string is a [string] whose characters stand for code units: the
      character of code [k] for the code unit [k], except the characters of
      codes 128 and 129, which stand for the line separator U+2028 and the
      paragraph separator U+2029 (the controls U+0080 and U+0081 and the code
      units from 256 on, these two apart, are outside the modelled fragment).
      The texts so hold every line terminator of ECMAScript.
    - [async] functions are run to completion one after the other: the code
      awaits every promise where it creates it.
    - The network is a script of pending replies, consumed one per [fetch],
      and every interaction with a reply is recorded in a trace.

    The file has five parts: the embedding of the code, the notions used to
    state its properties, the lemmas, the properties C1 to C10 of the
    exchange, and further properties of the examples, X1 to X22, with their
    lemmas. *)

From Stdlib Require Import ZArith List String Ascii Bool Lia.
From Stdlib Require Import DecimalString DecimalZ DecimalPos.
Import ListNotations.

Open Scope string_scope.
Open Scope Z_scope.

(** ** JavaScript values *)

#[local] Unset Elimination Schemes.
Inductive jsval : Type :=
| JUndefined
| JNull
| JBool (b : bool)
| JNum (n : Z)
| JStr (s : string)
| JArr (xs : list jsval)
| JObj (kvs : list (string * jsval)).
#[local] Set Elimination Schemes.

(** Errors a JavaScript computation can throw.  [Error] is what the examples
    raise themselves with [new Error(msg)]; the other two are raised by the
    engine, whose message texts ECMAScript leaves open (the model carries a
    representative text and nothing below depends on it). *)
Inductive js_error : Type :=
| Error (message : string)
| TypeError (message : string)
| SyntaxError (message : string).

Inductive result (A : Type) : Type :=
| Ok (a : A)
| Throw (e : js_error).
Arguments Ok {A} a.
Arguments Throw {A} e.

Module JS.

(** The double quote and the backslash, as one-character strings. *)
Definition dquote : ascii := "034"%char.
Definition backslash : ascii := "092"%char.
Definition newline : ascii := "010"%char.
Definition creturn : ascii := "013"%char.

(** The characters that stand for the line separator U+2028 and the
    paragraph separator U+2029. *)
Definition line_separator : ascii := "128"%char.
Definition paragraph_separator : ascii := "129"%char.

(** The code unit a character stands for, and the character of a code
    unit of the fragment. *)
Definition code_unit (c : ascii) : N :=
  if Ascii.eqb c line_separator then 8232%N
  else if Ascii.eqb c paragraph_separator then 8233%N
  else N_of_ascii c.

Definition of_code_unit (u : N) : option ascii :=
  if (u =? 8232)%N then Some line_separator
  else if (u =? 8233)%N then Some paragraph_separator
  else if (u <? 256)%N && negb (u =? 128)%N && negb (u =? 129)%N
       then Some (ascii_of_N u)
       else None.

Definition str1 (c : ascii) : string := String c EmptyString.

Definition is_empty (s : string) : bool :=
  match s with EmptyString => true | String _ _ => false end.

(** ToBoolean. *)
Definition truthy (v : jsval) : bool :=
  match v with
  | JUndefined | JNull => false
  | JBool b => b
  | JNum n => negb (n =? 0)
  | JStr s => negb (is_empty s)
  | JArr _ | JObj _ => true
  end.

(** [a || b] and [a && b] on values. *)
Definition or (a b : jsval) : jsval := if truthy a then a else b.
Definition and (a b : jsval) : jsval := if truthy a then b else a.

(** Number::toString for an integer. *)
Definition string_of_Z (n : Z) : string :=
  NilZero.string_of_int (Z.to_int n).

Fixpoint lookup (k : string) (kvs : list (string * jsval)) : option jsval :=
  match kvs with
  | [] => None
  | (k', v) :: rest => if String.eqb k k' then Some v else lookup k rest
  end.

Definition has_key (k : string) (kvs : list (string * jsval)) : bool :=
  match lookup k kvs with Some _ => true | None => false end.

(** Defining a property: an existing key keeps its place and takes the new
    value, a new key goes last. *)
Fixpoint set_prop (k : string) (v : jsval) (kvs : list (string * jsval))
  : list (string * jsval) :=
  match kvs with
  | [] => [(k, v)]
  | (k', v') :: rest =>
      if String.eqb k k' then (k, v) :: rest
      else (k', v') :: set_prop k v rest
  end.

(** The array index a property key denotes, if any, below [len]. *)
Fixpoint index_of_key (k : string) (start : Z) (len : nat) : option nat :=
  match len with
  | O => None
  | S len' =>
      if String.eqb k (string_of_Z start) then Some O
      else option_map S (index_of_key k (start + 1) len')
  end.

(** [v.k] (and [v[k]]) for the property names the examples read: own
    properties of objects, [length] and the elements of arrays and strings.
    Reading a property of [undefined] or [null] throws. *)
Definition get (v : jsval) (k : string) : result jsval :=
  match v with
  | JUndefined =>
      Throw (TypeError ("Cannot read properties of undefined (reading '" ++ k ++ "')"))
  | JNull =>
      Throw (TypeError ("Cannot read properties of null (reading '" ++ k ++ "')"))
  | JObj kvs =>
      Ok (match lookup k kvs with Some x => x | None => JUndefined end)
  | JArr xs =>
      if String.eqb k "length" then Ok (JNum (Z.of_nat (List.length xs)))
      else Ok (match index_of_key k 0 (List.length xs) with
               | Some i => nth i xs JUndefined
               | None => JUndefined
               end)
  | JStr s =>
      if String.eqb k "length" then Ok (JNum (Z.of_nat (String.length s)))
      else Ok (match index_of_key k 0 (String.length s) with
               | Some i => match String.get i s with
                           | Some c => JStr (str1 c)
                           | None => JUndefined
                           end
               | None => JUndefined
               end)
  | JBool _ | JNum _ => Ok JUndefined
  end.

(** [v?.k]: [undefined] when [v] is [undefined] or [null]. *)
Definition get_opt (v : jsval) (k : string) : result jsval :=
  match v with
  | JUndefined | JNull => Ok JUndefined
  | _ => get v k
  end.

Fixpoint join (sep : string) (parts : list string) : string :=
  match parts with
  | [] => EmptyString
  | [p] => p
  | p :: rest => p ++ sep ++ join sep rest
  end.

Fixpoint sequence {A : Type} (xs : list (option A)) : option (list A) :=
  match xs with
  | [] => Some []
  | Some x :: rest => option_map (cons x) (sequence rest)
  | None :: _ => None
  end.

(** ToString, as a template literal applies it; [None] stands for the
    TypeError of an object that cannot be converted to a primitive (an
    object of data whose own [toString] property hides the inherited
    method). *)
Fixpoint to_string (v : jsval) : option string :=
  match v with
  | JUndefined => Some "undefined"
  | JNull => Some "null"
  | JBool b => Some (if b then "true" else "false")
  | JNum n => Some (string_of_Z n)
  | JStr s => Some s
  | JArr xs =>
      option_map (join ",")
        (sequence (map (fun x => match x with
                                 | JUndefined | JNull => Some EmptyString
                                 | _ => to_string x
                                 end) xs))
  | JObj kvs =>
      if has_key "toString" kvs then None else Some "[object Object]"
  end.

(** *** Strings *)

Fixpoint strip_prefix (p s : string) : option string :=
  match p, s with
  | EmptyString, _ => Some s
  | String a p', String b s' => if Ascii.eqb a b then strip_prefix p' s' else None
  | String _ _, EmptyString => None
  end.

(** [s.includes(sub)]. *)
Fixpoint includes (s sub : string) : bool :=
  match strip_prefix sub s with
  | Some _ => true
  | None => match s with
            | EmptyString => false
            | String _ rest => includes rest sub
            end
  end.

(** The characters a regular expression's [.] does not match, the line
    terminators: line feed, carriage return, line separator and paragraph
    separator. *)
Definition is_line_terminator (c : ascii) : bool :=
  Ascii.eqb c newline || Ascii.eqb c creturn
  || Ascii.eqb c line_separator || Ascii.eqb c paragraph_separator.

(** The longest run of [.] at the head of a string. *)
Fixpoint dots (s : string) : string :=
  match s with
  | EmptyString => EmptyString
  | String c rest =>
      if is_line_terminator c then EmptyString else String c (dots rest)
  end.

(** [text.match(/data: (.+)/)], reduced to its capture group: the leftmost
    place where [data: ] is followed by at least one character matched by
    [.], and the greedy run of such characters from there. *)
Fixpoint match_data (text : string) : option string :=
  match text with
  | EmptyString => None
  | String _ rest =>
      match strip_prefix "data: " text with
      | Some after =>
          if is_empty (dots after) then match_data rest
          else Some (dots after)
      | None => match_data rest
      end
  end.

End JS.

(** ** JSON text *)

Module JSON.
Import JS.

Definition hex_digit (n : N) : ascii :=
  match String.get (N.to_nat n) "0123456789abcdef" with
  | Some c => c
  | None => "0"%char
  end.

(** QuoteJSONString, one character at a time. *)
Definition escape_char (c : ascii) : string :=
  if Ascii.eqb c dquote then String backslash (str1 dquote)
  else if Ascii.eqb c backslash then String backslash (str1 backslash)
  else if Ascii.eqb c "008"%char then String backslash "b"
  else if Ascii.eqb c "009"%char then String backslash "t"
  else if Ascii.eqb c "010"%char then String backslash "n"
  else if Ascii.eqb c "012"%char then String backslash "f"
  else if Ascii.eqb c "013"%char then String backslash "r"
  else if (code_unit c <? 32)%N then
    String backslash
      (String "u" (String "0" (String "0"
         (String (hex_digit (code_unit c / 16)%N)
            (str1 (hex_digit (code_unit c mod 16)%N))))))
  else str1 c.

Fixpoint escape (s : string) : string :=
  match s with
  | EmptyString => EmptyString
  | String c rest => escape_char c ++ escape rest
  end.

Definition quote (s : string) : string :=
  String dquote (escape s ++ str1 dquote).

(** SerializeJSONProperty: [None] is the [undefined] that [undefined] itself
    serializes to.  An object leaves out the properties whose value
    serializes to [undefined]; an array writes [null] for them. *)
Fixpoint serialize (v : jsval) : option string :=
  match v with
  | JUndefined => None
  | JNull => Some "null"
  | JBool b => Some (if b then "true" else "false")
  | JNum n => Some (string_of_Z n)
  | JStr s => Some (quote s)
  | JArr xs =>
      Some ("[" ++ join ","
                     (map (fun x => match serialize x with
                                    | Some t => t
                                    | None => "null"
                                    end) xs)
                ++ "]")
  | JObj kvs =>
      Some ("{" ++ join ","
                     ((fix members (kvs : list (string * jsval)) : list string :=
                         match kvs with
                         | [] => []
                         | (k, x) :: rest =>
                             match serialize x with
                             | Some t => (quote k ++ ":" ++ t) :: members rest
                             | None => members rest
                             end
                         end) kvs)
                ++ "}")
  end.

(** [JSON.stringify(v)] where the result is used as a string (a request
    body): always reached with an object in the examples. *)
Definition stringify (v : jsval) : string :=
  match serialize v with
  | Some t => t
  | None => "undefined"
  end.

(** *** Parsing *)

Definition is_ws (c : ascii) : bool :=
  Ascii.eqb c " "%char || Ascii.eqb c "009"%char
  || Ascii.eqb c "010"%char || Ascii.eqb c "013"%char.

Fixpoint skip_ws (s : string) : string :=
  match s with
  | String c rest => if is_ws c then skip_ws rest else s
  | EmptyString => s
  end.

Definition digit_val (c : ascii) : option Z :=
  let n := Z.of_N (N_of_ascii c) in
  if (48 <=? n) && (n <=? 57) then Some (n - 48) else None.

Definition hex_val (c : ascii) : option N :=
  let n := N_of_ascii c in
  if (48 <=? n)%N && (n <=? 57)%N then Some (n - 48)%N
  else if (97 <=? n)%N && (n <=? 102)%N then Some (n - 87)%N
  else if (65 <=? n)%N && (n <=? 70)%N then Some (n - 55)%N
  else None.

(** The character an escape letter stands for. *)
Definition unescape (c : ascii) : option ascii :=
  if Ascii.eqb c dquote then Some dquote
  else if Ascii.eqb c backslash then Some backslash
  else if Ascii.eqb c "/"%char then Some "/"%char
  else if Ascii.eqb c "b"%char then Some "008"%char
  else if Ascii.eqb c "t"%char then Some "009"%char
  else if Ascii.eqb c "n"%char then Some "010"%char
  else if Ascii.eqb c "f"%char then Some "012"%char
  else if Ascii.eqb c "r"%char then Some "013"%char
  else None.

Definition push (c : ascii) (r : option (string * string))
  : option (string * string) :=
  match r with
  | Some (s, rest) => Some (String c s, rest)
  | None => None
  end.

(** The characters of a string literal, read after its opening quote.  An
    escape [\uXXXX] of a code unit outside the modelled fragment is
    refused. *)
Fixpoint parse_chars (s : string) : option (string * string) :=
  match s with
  | EmptyString => None
  | String c r =>
      if Ascii.eqb c dquote then Some (EmptyString, r)
      else if Ascii.eqb c backslash then
        match r with
        | String e r1 =>
            match unescape e with
            | Some ch => push ch (parse_chars r1)
            | None =>
                if Ascii.eqb e "u"%char then
                  match r1 with
                  | String h1 (String h2 (String h3 (String h4 r2))) =>
                      match hex_val h1, hex_val h2, hex_val h3, hex_val h4 with
                      | Some a, Some b, Some c', Some d =>
                          let code := (((a * 16 + b) * 16 + c') * 16 + d)%N in
                          match of_code_unit code with
                          | Some ch => push ch (parse_chars r2)
                          | None => None
                          end
                      | _, _, _, _ => None
                      end
                  | _ => None
                  end
                else None
            end
        | EmptyString => None
        end
      else if (code_unit c <? 32)%N then None
      else push c (parse_chars r)
  end.

Fixpoint parse_digits (acc : Z) (s : string) : Z * string :=
  match s with
  | String c rest =>
      match digit_val c with
      | Some d => parse_digits (acc * 10 + d) rest
      | None => (acc, s)
      end
  | EmptyString => (acc, s)
  end.

(** A number literal without its sign.  A literal that goes on with a
    fraction or an exponent is outside the modelled fragment and is
    refused. *)
Definition parse_nat_literal (s : string) : option (Z * string) :=
  match s with
  | String c rest =>
      match digit_val c with
      | Some d =>
          let '(n, rest') := if d =? 0 then (0, rest) else parse_digits d rest in
          match rest' with
          | String c' _ =>
              if Ascii.eqb c' "."%char || Ascii.eqb c' "e"%char
                 || Ascii.eqb c' "E"%char
              then None
              else Some (n, rest')
          | EmptyString => Some (n, rest')
          end
      | None => None
      end
  | EmptyString => None
  end.

Definition parse_number (s : string) : option (Z * string) :=
  match s with
  | String c rest =>
      if Ascii.eqb c "-"%char then
        match parse_nat_literal rest with
        | Some (n, rest') => Some (- n, rest')
        | None => None
        end
      else parse_nat_literal s
  | EmptyString => None
  end.

Definition expect (p : string) (v : jsval) (s : string)
  : option (jsval * string) :=
  match strip_prefix p s with
  | Some rest => Some (v, rest)
  | None => None
  end.

(** The value at the head of a text, with the text left over. *)
Fixpoint parse_value (fuel : nat) (s : string) : option (jsval * string) :=
  match fuel with
  | O => None
  | S fuel' =>
      match skip_ws s with
      | EmptyString => None
      | String c rest as s' =>
          if Ascii.eqb c "n"%char then expect "null" JNull s'
          else if Ascii.eqb c "t"%char then expect "true" (JBool true) s'
          else if Ascii.eqb c "f"%char then expect "false" (JBool false) s'
          else if Ascii.eqb c dquote then
            match parse_chars rest with
            | Some (str, rest') => Some (JStr str, rest')
            | None => None
            end
          else if Ascii.eqb c "["%char then
            match skip_ws rest with
            | String "]"%char rest' => Some (JArr [], rest')
            | _ => parse_elements fuel' rest []
            end
          else if Ascii.eqb c "{"%char then
            match skip_ws rest with
            | String "}"%char rest' => Some (JObj [], rest')
            | _ => parse_members fuel' rest []
            end
          else
            match parse_number s' with
            | Some (n, rest') => Some (JNum n, rest')
            | None => None
            end
      end
  end
with parse_elements (fuel : nat) (s : string) (acc : list jsval)
  : option (jsval * string) :=
  match fuel with
  | O => None
  | S fuel' =>
      match parse_value fuel' s with
      | Some (v, rest) =>
          match skip_ws rest with
          | String c rest' =>
              if Ascii.eqb c ","%char then parse_elements fuel' rest' (acc ++ [v])
              else if Ascii.eqb c "]"%char then Some (JArr (acc ++ [v]), rest')
              else None
          | EmptyString => None
          end
      | None => None
      end
  end
with parse_members (fuel : nat) (s : string) (acc : list (string * jsval))
  : option (jsval * string) :=
  match fuel with
  | O => None
  | S fuel' =>
      match skip_ws s with
      | String c rest =>
          if Ascii.eqb c dquote then
            match parse_chars rest with
            | Some (k, rest1) =>
                match skip_ws rest1 with
                | String c1 rest2 =>
                    if Ascii.eqb c1 ":"%char then
                      match parse_value fuel' rest2 with
                      | Some (v, rest3) =>
                          match skip_ws rest3 with
                          | String c3 rest4 =>
                              if Ascii.eqb c3 ","%char
                              then parse_members fuel' rest4 (set_prop k v acc)
                              else if Ascii.eqb c3 "}"%char
                              then Some (JObj (set_prop k v acc), rest4)
                              else None
                          | EmptyString => None
                          end
                      | None => None
                      end
                    else None
                | EmptyString => None
                end
            | None => None
            end
          else None
      | EmptyString => None
      end
  end.

(** [JSON.parse(text)]; [None] stands for the SyntaxError. *)
Definition parse (text : string) : option jsval :=
  match parse_value (2 * String.length text + 2) text with
  | Some (v, rest) => if is_empty (skip_ws rest) then Some v else None
  | None => None
  end.

End JSON.

(** ** The runtime: replies, trace and the monad of effects *)

(** What the examples read of a [Response]. *)
Record Response : Type := {
  status : Z;
  statusText : string;
  content_type : option string;   (* [headers.get("content-type")] *)
  body : string
}.

(** [response.ok]: the status is in the range 200-299. *)
Definition ok (r : Response) : bool :=
  (200 <=? status r) && (status r <=? 299).

(** The second argument of [fetch]. *)
Record RequestInit : Type := {
  http_method : string;
  headers : list (string * string);
  request_body : string
}.

Inductive event : Type :=
| CallFetch (url : string) (init : RequestInit)   (* [fetch(url, init)] *)
| BodyText                                        (* [response.text()] *)
| BodyJson                                        (* [response.json()] *)
| JsonParse (text : string).                      (* [JSON.parse(text)] *)

(** The state a run threads.  [requestId] is the field of that name of the
    one [AlloyMCPClient] a process creates, a Number whose value is an
    integer; [pending] are the replies the network will give, in order
    ([None]: the request fails); the [k]-th call of [Math.random()] returns
    [(random k mod 2^53) / 2^53], a multiple of [2^-53] as the engines draw
    it. *)
Record State : Type := {
  requestId : Z;
  pending : list (option Response);
  random : nat -> Z;
  drawn : nat;
  trace : list event
}.

Definition M (A : Type) : Type := State -> result A * State.

Definition ret {A : Type} (a : A) : M A := fun s => (Ok a, s).

Definition throw {A : Type} (e : js_error) : M A := fun s => (Throw e, s).

Definition bind {A B : Type} (c : M A) (k : A -> M B) : M B :=
  fun s =>
    match c s with
    | (Ok a, s') => k a s'
    | (Throw e, s') => (Throw e, s')
    end.

(** [try { c } catch (error) { handler }]. *)
Definition try_catch {A : Type} (c : M A) (handler : js_error -> M A) : M A :=
  fun s =>
    match c s with
    | (Ok a, s') => (Ok a, s')
    | (Throw e, s') => handler e s'
    end.

Definition lift {A : Type} (r : result A) : M A := fun s => (r, s).

Declare Scope js_scope.
Delimit Scope js_scope with js.
Notation "x <- c ;; k" := (bind c (fun x => k))
  (at level 61, c at next level, right associativity) : js_scope.
Notation "c ;;; k" := (bind c (fun _ => k))
  (at level 61, right associativity) : js_scope.
Open Scope js_scope.

Definition record (e : event) : M unit :=
  fun s => (Ok tt, {| requestId := requestId s; pending := pending s;
                      random := random s; drawn := drawn s;
                      trace := trace s ++ [e] |}).

(** [await fetch(url, init)]: the next pending reply; the promise rejects
    with a TypeError when the request fails. *)
Definition fetch (url : string) (init : RequestInit) : M Response :=
  record (CallFetch url init) ;;;
  fun s =>
    match pending s with
    | Some r :: rest =>
        (Ok r, {| requestId := requestId s; pending := rest;
                  random := random s; drawn := drawn s; trace := trace s |})
    | None :: rest =>
        (Throw (TypeError "fetch failed"),
         {| requestId := requestId s; pending := rest;
            random := random s; drawn := drawn s; trace := trace s |})
    | [] => (Throw (TypeError "fetch failed"), s)
    end.

(** [await response.text()]. *)
Definition response_text (r : Response) : M string :=
  record BodyText ;;; ret (body r).

(** [await response.json()]. *)
Definition response_json (r : Response) : M jsval :=
  record BodyJson ;;;
  match JSON.parse (body r) with
  | Some v => ret v
  | None => throw (SyntaxError "Unexpected token in JSON")
  end.

(** [JSON.parse(text)]. *)
Definition JSON_parse (text : string) : M jsval :=
  record (JsonParse text) ;;;
  match JSON.parse text with
  | Some v => ret v
  | None => throw (SyntaxError "Unexpected token in JSON")
  end.

(** The double nearest to a non-negative integer [n], itself an integer:
    [n] rounded to 53 significant bits, a tie going to the even
    significand. *)
Definition round_53 (n : Z) : Z :=
  let shift := Z.log2 n - 52 in
  if shift <=? 0 then n
  else
    let q := n / 2 ^ shift in
    let r := n mod 2 ^ shift in
    let half := 2 ^ (shift - 1) in
    if (half <? r) || ((r =? half) && Z.odd q)
    then (q + 1) * 2 ^ shift
    else q * 2 ^ shift.

(** The same for an integer of either sign. *)
Definition to_double (n : Z) : Z :=
  if n <? 0 then - round_53 (- n) else round_53 n.

(** [n + 1] for a Number whose value is the integer [n]: the sum, rounded
    to a double.  It is [n + 1] from [-2^53] up to [2^53 - 1], and [n] again
    at [2^53]. *)
Definition js_succ (n : Z) : Z := to_double (n + 1).

(** [Math.floor(x * bound)] for the Number [x = m / 2^53] with
    [0 <= m < 2^53] and a non-negative integer [bound] that a double holds:
    the product is rounded to the double [round_53 (m * bound) / 2^53] before
    its floor is taken. *)
Definition floor_of_product (m bound : Z) : Z :=
  round_53 (m * bound) / 2 ^ 53.

(** [this.requestId++]. *)
Definition post_increment_requestId : M Z :=
  fun s =>
    (Ok (requestId s),
     {| requestId := js_succ (requestId s); pending := pending s;
        random := random s; drawn := drawn s; trace := trace s |}).

(** [Math.floor(Math.random() * bound)]. *)
Definition random_below (bound : Z) : M Z :=
  fun s =>
    (Ok (floor_of_product (random s (drawn s) mod 2 ^ 53) bound),
     {| requestId := requestId s; pending := pending s;
        random := random s; drawn := S (drawn s); trace := trace s |}).

(** A substitution [${v}] of a template literal. *)
Definition to_string_m (v : jsval) : M string :=
  match JS.to_string v with
  | Some t => ret t
  | None => throw (TypeError "Cannot convert object to primitive value")
  end.

(** [console.log(text)] and [console.error(text)]: what is written is not
    part of the trace. *)
Definition console_log (text : string) : M unit := ret tt.

(** The own enumerable properties an object spread [...v] copies. *)
Fixpoint indexed (start : Z) (xs : list jsval) : list (string * jsval) :=
  match xs with
  | [] => []
  | x :: rest => (JS.string_of_Z start, x) :: indexed (start + 1) rest
  end.

Definition own_properties (v : jsval) : list (string * jsval) :=
  match v with
  | JObj kvs => kvs
  | JArr xs => indexed 0 xs
  | JStr s => indexed 0 (map (fun c => JStr (JS.str1 c)) (list_ascii_of_string s))
  | JUndefined | JNull | JBool _ | JNum _ => []
  end.

(** [{ ...fields, ...v }]. *)
Definition spread (fields : list (string * jsval)) (v : jsval)
  : list (string * jsval) :=
  fold_left (fun o kv => JS.set_prop (fst kv) (snd kv) o) (own_properties v) fields.

(** [String(error)], as [`${error}`] computes it. *)
Definition error_to_string (e : js_error) : string :=
  let show (name message : string) :=
    if JS.is_empty message then name else name ++ ": " ++ message in
  match e with
  | Error m => show "Error" m
  | TypeError m => show "TypeError" m
  | SyntaxError m => show "SyntaxError" m
  end.

Definition post_headers : list (string * string) :=
  [("Content-Type", "application/json");
   ("Accept", "application/json,text/event-stream")].

(** [contentType?.includes("text/event-stream")], as a condition. *)
Definition is_event_stream (contentType : option string) : bool :=
  match contentType with
  | Some ct => JS.includes ct "text/event-stream"
  | None => false
  end.

(** ** examples/basic-typescript/index.ts

    The texts written to the console are given by their ASCII part. *)

Module Basic.
Import JS.

(** An instance of [class AlloyMCPClient]: its immutable field.  The mutable
    field [requestId] is [State.requestId]. *)
Record AlloyMCPClient : Type := { serverUrl : string }.

Definition set_requestId (n : Z) : M unit :=
  fun s => (Ok tt, {| requestId := n; pending := pending s;
                      random := random s; drawn := drawn s;
                      trace := trace s |}).

(** [new AlloyMCPClient()], given [process.env.NEXT_PUBLIC_MCP_SERVER_URL]. *)
Definition constructor (env_url : option string) : M AlloyMCPClient :=
  set_requestId 1 ;;;
  let serverUrl :=
    match env_url with
    | Some u => if is_empty u then EmptyString else u
    | None => EmptyString
    end in
  if is_empty serverUrl
  then throw (Error "NEXT_PUBLIC_MCP_SERVER_URL environment variable is required")
  else ret {| serverUrl := serverUrl |}.

Definition makeRequest (this : AlloyMCPClient) (method : string)
  (params : jsval) : M jsval :=
  id <- post_increment_requestId ;;
  let request :=
    JObj (spread [("jsonrpc", JStr "2.0"); ("method", JStr method);
                  ("id", JNum id)]
                 (JS.and params (JObj [("params", params)]))) in
  console_log ("Making MCP request: " ++ method) ;;;
  try_catch
    (response <- fetch (serverUrl this)
                   {| http_method := "POST"; headers := post_headers;
                      request_body := JSON.stringify request |} ;;
     if negb (ok response) then
       throw (Error ("HTTP " ++ string_of_Z (status response) ++ ": "
                       ++ statusText response))
     else
       let contentType := content_type response in
       if is_event_stream contentType then
         text <- response_text response ;;
         let dataMatch := match_data text in
         match dataMatch with
         | Some group1 => JSON_parse group1
         | None => ret JUndefined
         end
       else response_json response)
    (fun error =>
       console_log ("Request failed: " ++ error_to_string error) ;;;
       throw error).

Definition initialize (this : AlloyMCPClient) : M unit :=
  console_log "Initializing connection to Alloy MCP Server..." ;;;
  try_catch
    (response <- makeRequest this "initialize"
                   (JObj [("protocolVersion", JStr "2024-11-05");
                          ("capabilities", JObj []);
                          ("clientInfo",
                           JObj [("name", JStr "alloy-mcp-basic-example");
                                 ("version", JStr "1.0.0")])]) ;;
     error <- lift (get response "error") ;;
     if truthy error then
       message <- lift (get error "message") ;;
       text <- to_string_m message ;;
       throw (Error ("Initialization failed: " ++ text))
     else
       console_log "Connected to Alloy MCP Server" ;;;
       result <- lift (get response "result") ;;
       serverInfo <- lift (get_opt result "serverInfo") ;;
       name <- lift (get_opt serverInfo "name") ;;
       text <- to_string_m (JS.or name (JStr "Unknown")) ;;
       console_log ("Server: " ++ text) ;;;
       instructions <- lift (get_opt result "instructions") ;;
       if truthy instructions then
         text <- to_string_m instructions ;;
         console_log ("Instructions: " ++ text)
       else ret tt)
    (fun error =>
       console_log ("Failed to initialize: " ++ error_to_string error) ;;;
       throw error).

(** [xs.forEach(f)]; only arrays have the method. *)
Fixpoint each (f : jsval -> M unit) (xs : list jsval) : M unit :=
  match xs with
  | [] => ret tt
  | x :: rest => f x ;;; each f rest
  end.

Definition forEach (name : string) (v : jsval) (f : jsval -> M unit) : M unit :=
  match v with
  | JArr xs => each f xs
  | _ => throw (TypeError (name ++ ".forEach is not a function"))
  end.

Definition listAvailableTools (this : AlloyMCPClient) : M jsval :=
  try_catch
    (response <- makeRequest this "tools/list" JUndefined ;;
     error <- lift (get response "error") ;;
     if truthy error then
       message <- lift (get error "message") ;;
       text <- to_string_m message ;;
       throw (Error ("Failed to list tools: " ++ text))
     else
       result <- lift (get response "result") ;;
       result_tools <- lift (get_opt result "tools") ;;
       let tools := JS.or result_tools (JArr []) in
       length <- lift (get tools "length") ;;
       text <- to_string_m length ;;
       console_log ("Available Tools (" ++ text ++ "):") ;;;
       forEach "tools" tools
         (fun tool =>
            name <- lift (get tool "name") ;;
            name_text <- to_string_m name ;;
            description <- lift (get tool "description") ;;
            description_text <- to_string_m description ;;
            console_log ("  - " ++ name_text ++ ": " ++ description_text)) ;;;
       ret tools)
    (fun error =>
       console_log ("Failed to list tools: " ++ error_to_string error) ;;;
       throw error).

Definition listResources (this : AlloyMCPClient) : M unit :=
  try_catch
    (response <- makeRequest this "resources/list" JUndefined ;;
     error <- lift (get response "error") ;;
     if truthy error then
       message <- lift (get error "message") ;;
       text <- to_string_m message ;;
       throw (Error ("Failed to list resources: " ++ text))
     else
       result <- lift (get response "result") ;;
       result_resources <- lift (get_opt result "resources") ;;
       let resources := JS.or result_resources (JArr []) in
       length <- lift (get resources "length") ;;
       text <- to_string_m length ;;
       console_log ("Available Resources (" ++ text ++ "):") ;;;
       forEach "resources" resources
         (fun resource =>
            name <- lift (get resource "name") ;;
            name_text <- to_string_m name ;;
            description <- lift (get resource "description") ;;
            description_text <-
              to_string_m (JS.or description (JStr "No description")) ;;
            console_log ("  - " ++ name_text ++ ": " ++ description_text)))
    (fun error =>
       console_log ("Failed to list resources: " ++ error_to_string error) ;;;
       throw error).

Definition executeTool (this : AlloyMCPClient) (toolName : string)
  (args : jsval) : M jsval :=
  console_log ("Executing tool: " ++ toolName) ;;;
  try_catch
    (response <- makeRequest this "tools/call"
                   (JObj [("name", JStr toolName); ("arguments", args)]) ;;
     error <- lift (get response "error") ;;
     if truthy error then
       message <- lift (get error "message") ;;
       text <- to_string_m message ;;
       throw (Error ("Tool execution failed: " ++ text))
     else
       console_log "Tool execution successful" ;;;
       lift (get response "result"))
    (fun error =>
       console_log ("Failed to execute tool " ++ toolName ++ ": "
                      ++ error_to_string error) ;;;
       throw error).

Definition listPrompts (this : AlloyMCPClient) : M jsval :=
  try_catch
    (response <- makeRequest this "prompts/list" JUndefined ;;
     error <- lift (get response "error") ;;
     if truthy error then
       message <- lift (get error "message") ;;
       text <- to_string_m message ;;
       throw (Error ("Failed to list prompts: " ++ text))
     else
       result <- lift (get response "result") ;;
       result_prompts <- lift (get_opt result "prompts") ;;
       let prompts := JS.or result_prompts (JArr []) in
       length <- lift (get prompts "length") ;;
       text <- to_string_m length ;;
       console_log ("Available Prompts (" ++ text ++ "):") ;;;
       forEach "prompts" prompts
         (fun prompt =>
            name <- lift (get prompt "name") ;;
            name_text <- to_string_m name ;;
            description <- lift (get prompt "description") ;;
            description_text <-
              to_string_m (JS.or description (JStr "No description")) ;;
            console_log ("  - " ++ name_text ++ ": " ++ description_text)) ;;;
       ret prompts)
    (fun error =>
       console_log ("Failed to list prompts: " ++ error_to_string error) ;;;
       throw error).

(** The demonstrations print what [executeTool] returns and swallow what it
    throws. *)
Definition demonstrateConnectivity (client : AlloyMCPClient) : M unit :=
  try_catch
    (result1 <- executeTool client "list_connectors_alloy" (JObj []) ;;
     console_log (JSON.stringify result1) ;;;
     result2 <- executeTool client "get_connector_resources_alloy"
                  (JObj [("connectorId", JStr "slack")]) ;;
     console_log (JSON.stringify result2))
    (fun error =>
       console_log ("Connectivity demo failed: " ++ error_to_string error)).

Definition demonstrateCredentials (client : AlloyMCPClient) : M unit :=
  try_catch
    (result1 <- executeTool client "get_credentials_alloy"
                  (JObj [("connectorId", JStr "slack")]) ;;
     console_log (JSON.stringify result1) ;;;
     result2 <- executeTool client "get_credential_metadata_alloy"
                  (JObj [("connectorId", JStr "slack")]) ;;
     console_log (JSON.stringify result2))
    (fun error =>
       console_log ("Credentials demo failed: " ++ error_to_string error)).

Definition demonstrateDiscovery (client : AlloyMCPClient) : M unit :=
  try_catch
    (listPrompts client ;;;
     result <- executeTool client "discover_action_path_alloy"
                 (JObj [("goal", JStr "send a message to a Slack channel")]) ;;
     console_log (JSON.stringify result))
    (fun error =>
       console_log ("Prompts & discovery demo failed: "
                      ++ error_to_string error)).

(** [main()], returning the exit code of the process: [process.exit(1)] when
    construction, initialization or the listing of tools throws. *)
Definition main (env_url : option string) : M Z :=
  try_catch
    (client <- constructor env_url ;;
     initialize client ;;;
     listAvailableTools client ;;;
     demonstrateConnectivity client ;;;
     demonstrateCredentials client ;;;
     demonstrateDiscovery client ;;;
     console_log "All demonstrations completed!" ;;;
     ret 0)
    (fun error =>
       console_log ("Main execution failed: " ++ error_to_string error) ;;;
       ret 1).

End Basic.

(** ** The Next.js API routes *)

(** What a handler answers with: [NextResponse.json(data, { status })]. *)
Record NextResponse : Type := {
  response_status : Z;
  response_data : jsval
}.

Definition NextResponse_json (data : jsval) (status : Z) : NextResponse :=
  {| response_status := status; response_data := data |}.

(** [await request.json()] of the incoming [NextRequest], given its body. *)
Definition request_json (request : string) : M jsval :=
  match JSON.parse request with
  | Some v => ret v
  | None => throw (SyntaxError "Unexpected token in JSON")
  end.

(** *** The tool-execution route (the source file with [toolName]) *)

Module ExecuteRoute.
Import JS.

Definition makeRequest (serverUrl : jsval) (method : string) (params : jsval)
  : M jsval :=
  id <- random_below 1000000 ;;
  let request :=
    JObj (spread [("jsonrpc", JStr "2.0"); ("method", JStr method);
                  ("id", JNum id)]
                 (JS.and params (JObj [("params", params)]))) in
  url <- to_string_m serverUrl ;;
  response <- fetch url
                {| http_method := "POST"; headers := post_headers;
                   request_body := JSON.stringify request |} ;;
  if negb (ok response) then
    throw (Error ("HTTP " ++ string_of_Z (status response) ++ ": "
                    ++ statusText response))
  else
    let contentType := content_type response in
    if is_event_stream contentType then
      text <- response_text response ;;
      let dataMatch := match_data text in
      match dataMatch with
      | Some group1 => JSON_parse group1
      | None => ret JUndefined
      end
    else response_json response.

Definition POST (request : string) : M NextResponse :=
  try_catch
    (data <- request_json request ;;
     serverUrl <- lift (get data "serverUrl") ;;
     toolName <- lift (get data "toolName") ;;
     toolArgs <- lift (get data "arguments") ;;
     if negb (truthy serverUrl) || negb (truthy toolName) then
       ret (NextResponse_json
              (JObj [("error", JStr "Missing required parameters")]) 400)
     else
       response <- makeRequest serverUrl "tools/call"
                     (JObj [("name", toolName);
                            ("arguments", JS.or toolArgs (JObj []))]) ;;
       error <- lift (get response "error") ;;
       if truthy error then
         message <- lift (get error "message") ;;
         text <- to_string_m message ;;
         throw (Error ("Tool execution failed: " ++ text))
       else
         result <- lift (get response "result") ;;
         content <- lift (get_opt result "content") ;;
         ret (NextResponse_json
                (JObj [("content", JS.or content (JArr []))]) 200))
    (fun error =>
       console_log ("Error executing tool: " ++ error_to_string error) ;;;
       ret (NextResponse_json
              (JObj [("error",
                      JStr ("Failed to execute tool: " ++ error_to_string error))])
              500)).

End ExecuteRoute.

(** *** examples/nextjs-chat/app/api/mcp/connect/route.ts *)

Module ConnectRoute.
Import JS.

Definition makeRequest (serverUrl : jsval) (method : string) (params : jsval)
  : M jsval :=
  id <- random_below 1000000 ;;
  let request :=
    JObj (spread [("jsonrpc", JStr "2.0"); ("method", JStr method);
                  ("id", JNum id)]
                 (JS.and params (JObj [("params", params)]))) in
  url <- to_string_m serverUrl ;;
  response <- fetch url
                {| http_method := "POST"; headers := post_headers;
                   request_body := JSON.stringify request |} ;;
  if negb (ok response) then
    throw (Error ("HTTP " ++ string_of_Z (status response) ++ ": "
                    ++ statusText response))
  else
    let contentType := content_type response in
    if is_event_stream contentType then
      text <- response_text response ;;
      let dataMatch := match_data text in
      match dataMatch with
      | Some group1 => JSON_parse group1
      | None => ret JUndefined
      end
    else response_json response.

(** [name.includes(word)] for a tool name of any type: the method of strings
    and of arrays. *)
Definition jsval_is_str (s : string) (v : jsval) : bool :=
  match v with
  | JStr t => String.eqb s t
  | _ => false
  end.

Definition name_includes (name : jsval) (word : string) : M bool :=
  match name with
  | JStr s => ret (includes s word)
  | JArr xs => ret (existsb (jsval_is_str word) xs)
  | JUndefined =>
      throw (TypeError "Cannot read properties of undefined (reading 'includes')")
  | JNull =>
      throw (TypeError "Cannot read properties of null (reading 'includes')")
  | _ => throw (TypeError "name.includes is not a function")
  end.

Definition getCategoryFromToolName (name : jsval) : M jsval :=
  a <- name_includes name "connector" ;;
  b <- (if a then ret true else name_includes name "credential") ;;
  if b then ret (JStr "connectivity")
  else
    c <- name_includes name "workflow" ;;
    d <- (if c then ret true else name_includes name "embedded") ;;
    if d then ret (JStr "embedded")
    else
      e <- name_includes name "discover" ;;
      if e then ret (JStr "discovery") else ret (JStr "general").

(** [xs.map(f)]; only arrays have the method. *)
Fixpoint map_m (f : jsval -> M jsval) (xs : list jsval) : M (list jsval) :=
  match xs with
  | [] => ret []
  | x :: rest => y <- f x ;; ys <- map_m f rest ;; ret (y :: ys)
  end.

Definition array_map (name : string) (v : jsval) (f : jsval -> M jsval)
  : M jsval :=
  match v with
  | JArr xs => ys <- map_m f xs ;; ret (JArr ys)
  | _ => throw (TypeError (name ++ ".map is not a function"))
  end.

Definition POST (request : string) : M NextResponse :=
  try_catch
    (data <- request_json request ;;
     serverUrl <- lift (get data "serverUrl") ;;
     apiKey <- lift (get data "apiKey") ;;
     if negb (truthy serverUrl) then
       ret (NextResponse_json (JObj [("error", JStr "Missing server URL")]) 400)
     else
       initResponse <- makeRequest serverUrl "initialize"
                         (JObj [("protocolVersion", JStr "2024-11-05");
                                ("capabilities", JObj []);
                                ("clientInfo",
                                 JObj [("name", JStr "alloy-mcp-nextjs-chat");
                                       ("version", JStr "1.0.0")])]) ;;
       error <- lift (get initResponse "error") ;;
       if truthy error then
         message <- lift (get error "message") ;;
         text <- to_string_m message ;;
         throw (Error ("Initialization failed: " ++ text))
       else
         toolsResponse <- makeRequest serverUrl "tools/list" JUndefined ;;
         error <- lift (get toolsResponse "error") ;;
         if truthy error then
           message <- lift (get error "message") ;;
           text <- to_string_m message ;;
           throw (Error ("Failed to list tools: " ++ text))
         else
           result <- lift (get toolsResponse "result") ;;
           result_tools <- lift (get_opt result "tools") ;;
           let tools := JS.or result_tools (JArr []) in
           transformedTools <-
             array_map "tools" tools
               (fun tool =>
                  name <- lift (get tool "name") ;;
                  description <- lift (get tool "description") ;;
                  name' <- lift (get tool "name") ;;
                  category <- getCategoryFromToolName name' ;;
                  inputSchema <- lift (get tool "inputSchema") ;;
                  ret (JObj [("name", name); ("description", description);
                             ("category", category);
                             ("inputSchema", inputSchema)])) ;;
           ret (NextResponse_json
                  (JObj [("success", JBool true); ("tools", transformedTools)])
                  200))
    (fun error =>
       console_log ("Error connecting to MCP server: " ++ error_to_string error) ;;;
       ret (NextResponse_json
              (JObj [("error",
                      JStr ("Failed to connect to MCP server: "
                              ++ error_to_string error))])
              500)).

End ConnectRoute.

(** ** The browser side of the chat example *)

(** *** Methods of strings and the pattern of connector names *)

Module JSString.

(** [s.toLowerCase()] on the code units of the fragment: the letters A-Z
    and the capitals U+00C0-U+00DE (without the multiplication sign U+00D7)
    move up by 32. *)
Definition to_lower_char (c : ascii) : ascii :=
  let n := JS.code_unit c in
  if ((65 <=? n) && (n <=? 90)
      || (192 <=? n) && (n <=? 222) && negb (n =? 215))%N
  then ascii_of_N (n + 32) else c.

Fixpoint toLowerCase (s : string) : string :=
  match s with
  | EmptyString => EmptyString
  | String c rest => String (to_lower_char c) (toLowerCase rest)
  end.

(** Canonicalize of a pattern with the flag [i] and without the flag [u]: the
    code unit of the upper-case form, when that is one code unit and does not
    move a code unit from 128 on below 128.  (The sharp s has an upper-case
    form of two code units; y with diaeresis and the micro sign have theirs
    above 255.) *)
Definition canonicalize (c : ascii) : N :=
  let n := JS.code_unit c in
  if ((97 <=? n) && (n <=? 122)
      || (224 <=? n) && (n <=? 254) && negb (n =? 247))%N
  then (n - 32)%N
  else if (n =? 255)%N then 376%N
  else if (n =? 181)%N then 924%N
  else n.

(** The class [\w], and the assertion [\b] between two neighbours ([None]:
    the start or the end of the text). *)
Definition is_word_char (c : option ascii) : bool :=
  match c with
  | None => false
  | Some c =>
      let n := JS.code_unit c in
      ((48 <=? n) && (n <=? 57) || (65 <=? n) && (n <=? 90)
       || (97 <=? n) && (n <=? 122) || (n =? 95))%N
  end.

Definition word_boundary (before after : option ascii) : bool :=
  xorb (is_word_char before) (is_word_char after).

Definition head (s : string) : option ascii :=
  match s with
  | EmptyString => None
  | String c _ => Some c
  end.

Fixpoint last_char (before : option ascii) (s : string) : option ascii :=
  match s with
  | EmptyString => before
  | String c rest => last_char (Some c) rest
  end.

(** The characters of [word] at the head of [s], compared as the flag [i]
    compares them: the text that matched, and what follows it. *)
Fixpoint match_ignoring_case (word s : string) : option (string * string) :=
  match word, s with
  | EmptyString, _ => Some (EmptyString, s)
  | String p word', String c s' =>
      if (canonicalize p =? canonicalize c)%N then
        match match_ignoring_case word' s' with
        | Some (m, after) => Some (String c m, after)
        | None => None
        end
      else None
  | String _ _, EmptyString => None
  end.

(** The alternatives of the group at one place, in the order of the pattern:
    the first one that matches and is followed by [\b]. *)
Fixpoint first_alternative (before : option ascii) (words : list string)
  (s : string) : option string :=
  match words with
  | [] => None
  | word :: rest =>
      match match_ignoring_case word s with
      | Some (m, after) =>
          if word_boundary (last_char before m) (head after) then Some m
          else first_alternative before rest s
      | None => first_alternative before rest s
      end
  end.

Definition connectors : list string :=
  ["slack"; "salesforce"; "hubspot"; "shopify"].

Fixpoint match_connector_from (before : option ascii) (s : string)
  : option string :=
  match
    (if word_boundary before (head s)
     then first_alternative before connectors s else None)
  with
  | Some m => Some m
  | None =>
      match s with
      | EmptyString => None
      | String c rest => match_connector_from (Some c) rest
      end
  end.

(** [message.match(/\b(slack|salesforce|hubspot|shopify)\b/i)], reduced to
    its capture group: the leftmost place where the pattern matches. *)
Definition match_connector (message : string) : option string :=
  match_connector_from None message.

End JSString.

(** [error.message] of what was thrown. *)
Definition error_message (e : js_error) : string :=
  match e with
  | Error m | TypeError m | SyntaxError m => m
  end.

(** *** lib/mcp-client.ts (class [MCPClient]; in the sources its text
    follows next.config.js)

    A method that assigns fields of [this] returns the object it leaves.
    Each such method assigns after the last place where it can throw, so a
    call that throws leaves the object it was given. *)

Module McpClient.
Import JS.

Record MCPClientConfig : Type := { serverUrl : string; apiKey : string }.

Record MCPClient : Type := {
  config : MCPClientConfig;
  connected : bool;
  availableTools : jsval
}.

Definition constructor (config : MCPClientConfig) : MCPClient :=
  {| config := config; connected := false; availableTools := JArr [] |}.

Definition json_headers : list (string * string) :=
  [("Content-Type", "application/json")].

Definition connect (this : MCPClient) : M MCPClient :=
  if connected this then ret this
  else
    try_catch
      (response <- fetch "/api/mcp/connect"
                     {| http_method := "POST"; headers := json_headers;
                        request_body :=
                          JSON.stringify
                            (JObj [("serverUrl", JStr (serverUrl (config this)));
                                   ("apiKey", JStr (apiKey (config this)))]) |} ;;
       if negb (ok response) then
         throw (Error "Failed to connect to MCP server")
       else
         data <- response_json response ;;
         tools <- lift (get data "tools") ;;
         let this' := {| config := config this; connected := true;
                         availableTools := JS.or tools (JArr []) |} in
         console_log "Connected to MCP server" ;;;
         ret this')
      (fun error =>
         console_log ("Failed to connect to MCP server: "
                        ++ error_to_string error) ;;;
         throw error).

Definition getAvailableTools (this : MCPClient) : M (jsval * MCPClient) :=
  this' <- (if negb (connected this) then connect this else ret this) ;;
  ret (availableTools this', this').

Definition executeTool (this : MCPClient) (name : string) (args : jsval)
  : M jsval :=
  if negb (connected this) then throw (Error "Not connected to MCP server")
  else
    try_catch
      (response <- fetch "/api/mcp/execute"
                     {| http_method := "POST"; headers := json_headers;
                        request_body :=
                          JSON.stringify
                            (JObj [("serverUrl", JStr (serverUrl (config this)));
                                   ("apiKey", JStr (apiKey (config this)));
                                   ("toolName", JStr name);
                                   ("arguments", args)]) |} ;;
       if negb (ok response) then
         throw (Error ("Failed to execute tool: " ++ name))
       else
         result <- response_json response ;;
         content <- lift (get result "content") ;;
         ret (JObj [("content", content); ("isError", JBool false)]))
      (fun error =>
         console_log ("Error executing tool " ++ name ++ ": "
                        ++ error_to_string error) ;;;
         ret (JObj [("content", JObj [("error", JStr (error_message error))]);
                    ("isError", JBool true)])).

(** An element of what [determineTools] returns. *)
Record ToolCall : Type := { name : string; arguments : jsval }.

(** [availableTools.includes(name)] on an array of strings. *)
Definition array_includes (xs : list string) (x : string) : bool :=
  existsb (String.eqb x) xs.

Definition determineTools (message : string) (availableTools : list string)
  : list ToolCall :=
  let lower := JSString.toLowerCase message in
  let toolsToInvoke : list ToolCall := [] in
  let toolsToInvoke :=
    if includes lower "connector" || includes lower "integration"
       || includes lower "list integrations"
    then
      if array_includes availableTools "list_connectors_alloy"
      then (toolsToInvoke
              ++ [{| name := "list_connectors_alloy"; arguments := JObj [] |}])%list
      else toolsToInvoke
    else toolsToInvoke in
  let toolsToInvoke :=
    if includes lower "credential" || includes lower "auth"
       || includes lower "authentication"
    then
      match JSString.match_connector message with
      | Some group1 =>
          if array_includes availableTools "get_credentials_alloy"
          then (toolsToInvoke
                  ++ [{| name := "get_credentials_alloy";
                         arguments :=
                           JObj [("connectorId",
                                  JStr (JSString.toLowerCase group1))] |}])%list
          else toolsToInvoke
      | None => toolsToInvoke
      end
    else toolsToInvoke in
  let toolsToInvoke :=
    if includes lower "discover" || includes lower "how to"
       || includes lower "send message"
    then
      if array_includes availableTools "discover_action_path_alloy"
      then (toolsToInvoke
              ++ [{| name := "discover_action_path_alloy";
                     arguments := JObj [("goal", JStr message)] |}])%list
      else toolsToInvoke
    else toolsToInvoke in
  let toolsToInvoke :=
    if includes lower "slack"
    then
      if array_includes availableTools "get_connector_resources_alloy"
      then (toolsToInvoke
              ++ [{| name := "get_connector_resources_alloy";
                     arguments := JObj [("connectorId", JStr "slack")] |}])%list
      else toolsToInvoke
    else toolsToInvoke in
  toolsToInvoke.

Definition disconnect (this : MCPClient) : M MCPClient :=
  if connected this then
    let this' := {| config := config this; connected := false;
                    availableTools := JArr [] |} in
    console_log "Disconnected from MCP server" ;;;
    ret this'
  else ret this.

End McpClient.

(** *** app/page.tsx: the update of the selection when a tool is toggled
    (the argument of [setSelectedTools] in [onToggleTool]) *)

Module ChatPage.

(** [prev => prev.includes(toolName) ? prev.filter(t => t !== toolName)
    : [...prev, toolName]]. *)
Definition onToggleTool (toolName : string) (prev : list string) : list string :=
  if McpClient.array_includes prev toolName
  then filter (fun t => negb (String.eqb t toolName)) prev
  else (prev ++ [toolName])%list.

End ChatPage.

(** *** components/ToolPanel.tsx: the groups and the search *)

Module ToolPanel.

(** [interface Tool] of types/index.ts, as far as the panel reads it. *)
Record Tool : Type := {
  name : string;
  description : string;
  category : option string
}.

(** The properties an object literal inherits from [Object.prototype]: each
    is a function, or the prototype itself for [__proto__]. *)
Definition object_prototype_keys : list string :=
  ["constructor"; "__defineGetter__"; "__defineSetter__"; "hasOwnProperty";
   "__lookupGetter__"; "__lookupSetter__"; "isPrototypeOf";
   "propertyIsEnumerable"; "toString"; "valueOf"; "__proto__";
   "toLocaleString"].

Definition inherited (key : string) : bool :=
  existsb (String.eqb key) object_prototype_keys.

Fixpoint lookup (k : string) (acc : list (string * list Tool))
  : option (list Tool) :=
  match acc with
  | [] => None
  | (k', v) :: rest => if String.eqb k k' then Some v else lookup k rest
  end.

(** [acc[category].push(tool)] on a group the object owns. *)
Fixpoint push (k : string) (tool : Tool) (acc : list (string * list Tool))
  : list (string * list Tool) :=
  match acc with
  | [] => []
  | (k', v) :: rest =>
      if String.eqb k k' then (k', (v ++ [tool])%list) :: rest
      else (k', v) :: push k tool rest
  end.

(** [tool.category || 'General']. *)
Definition category_or_general (tool : Tool) : string :=
  match category tool with
  | Some c => if JS.is_empty c then "General" else c
  | None => "General"
  end.

(** The callback of the [reduce]: the object [acc] is the list of its own
    properties in the order of their creation.  For a key that the object
    inherits and does not own, [acc[category]] is truthy and has no method
    [push]. *)
Definition group_step (acc : list (string * list Tool)) (tool : Tool)
  : result (list (string * list Tool)) :=
  let category := category_or_general tool in
  match lookup category acc with
  | Some _ => Ok (push category tool acc)
  | None =>
      if inherited category
      then Throw (TypeError "acc[category].push is not a function")
      else Ok (acc ++ [(category, [tool])])%list
  end.

Fixpoint reduce (acc : list (string * list Tool)) (tools : list Tool)
  : result (list (string * list Tool)) :=
  match tools with
  | [] => Ok acc
  | tool :: rest =>
      match group_step acc tool with
      | Ok acc' => reduce acc' rest
      | Throw e => Throw e
      end
  end.

Definition groupedTools (tools : list Tool) : result (list (string * list Tool)) :=
  reduce [] tools.

Definition filteredTools (tools : list Tool) (searchQuery : string) : list Tool :=
  if negb (JS.is_empty searchQuery) then
    filter (fun tool =>
              JS.includes (JSString.toLowerCase (name tool))
                          (JSString.toLowerCase searchQuery)
              || JS.includes (JSString.toLowerCase (description tool))
                             (JSString.toLowerCase searchQuery))
           tools
  else tools.

End ToolPanel.


(** * Notions for the properties *)

(** ** Traces and states *)

(** The bodies of the requests a trace has sent, oldest first. *)
Fixpoint sent_bodies (tr : list event) : list string :=
  match tr with
  | [] => []
  | CallFetch _ init :: rest => request_body init :: sent_bodies rest
  | _ :: rest => sent_bodies rest
  end.

(** Whether an event reads or parses the body of a reply. *)
Definition reads_body (e : event) : bool :=
  match e with
  | CallFetch _ _ => false
  | BodyText | BodyJson | JsonParse _ => true
  end.

(** The second argument of every [fetch] of the examples. *)
Definition post_init (body : string) : RequestInit :=
  {| http_method := "POST"; headers := post_headers; request_body := body |}.

(** A state with one field replaced, or with events added to its trace. *)
Definition with_requestId (n : Z) (s : State) : State :=
  {| requestId := n; pending := pending s; random := random s;
     drawn := drawn s; trace := trace s |}.

Definition with_drawn (n : nat) (s : State) : State :=
  {| requestId := requestId s; pending := pending s; random := random s;
     drawn := n; trace := trace s |}.

Definition with_pending (p : list (option Response)) (s : State) : State :=
  {| requestId := requestId s; pending := p; random := random s;
     drawn := drawn s; trace := trace s |}.

Definition with_events (evs : list event) (s : State) : State :=
  {| requestId := requestId s; pending := pending s; random := random s;
     drawn := drawn s; trace := trace s ++ evs |}.

(** The id the next call of a route's [makeRequest] draws. *)
Definition next_random_id (s : State) : Z :=
  floor_of_product (random s (drawn s) mod 2 ^ 53) 1000000.

(** A computation that leaves the state as it is. *)
Definition stateless {A : Type} (c : M A) : Prop := forall s, snd (c s) = s.

(** ** Envelopes *)

(** The request envelope of a call, as an object. *)
Definition envelope (method : string) (id : Z) (params : option jsval) : jsval :=
  JObj ([("jsonrpc", JStr "2.0"); ("method", JStr method); ("id", JNum id)]
          ++ match params with
             | Some p => [("params", p)]
             | None => []
             end).

(** The request body of the wire protocol: the members [jsonrpc], [method]
    and [id], followed by a member [params] only when one is given. *)
Definition envelope_text (method : string) (id : Z) (params : option string)
  : string :=
  "{" ++ JSON.quote "jsonrpc" ++ ":" ++ JSON.quote "2.0"
      ++ "," ++ JSON.quote "method" ++ ":" ++ JSON.quote method
      ++ "," ++ JSON.quote "id" ++ ":" ++ JS.string_of_Z id
      ++ match params with
         | Some t => "," ++ JSON.quote "params" ++ ":" ++ t
         | None => EmptyString
         end
      ++ "}".

(** The id of an envelope. *)
Definition envelope_id (v : jsval) : option Z :=
  match JS.get v "id" with
  | Ok (JNum n) => Some n
  | _ => None
  end.

(** A structured value: an object or an array. *)
Definition structured (v : jsval) : bool :=
  match v with
  | JObj _ | JArr _ => true
  | _ => false
  end.

(** The id in a request body, read back by parsing it. *)
Definition body_id (request : string) : option Z :=
  match JSON.parse request with
  | Some v => envelope_id v
  | None => None
  end.

(** The ids of the requests a trace has sent, oldest first. *)
Definition sent_ids (tr : list event) : list (option Z) :=
  map body_id (sent_bodies tr).

(** ** Replies *)

(** The text that the three copies of [makeRequest] share, from [fetch]
    on. *)
Definition exchange (url req : string) : M jsval :=
  response <- fetch url (post_init req) ;;
  if negb (ok response) then
    throw (Error ("HTTP " ++ JS.string_of_Z (status response) ++ ": "
                    ++ statusText response))
  else
    if is_event_stream (content_type response) then
      text <- response_text response ;;
      match JS.match_data text with
      | Some group1 => JSON_parse group1
      | None => ret JUndefined
      end
    else response_json response.

(** The error of a non-2xx reply. *)
Definition http_error (r : Response) : js_error :=
  Error ("HTTP " ++ JS.string_of_Z (status r) ++ ": " ++ statusText r).

(** The outcome of parsing a text. *)
Definition parse_outcome (text : string) : result jsval :=
  match JSON.parse text with
  | Some v => Ok v
  | None => Throw (SyntaxError "Unexpected token in JSON")
  end.

(** The text of a reply that is parsed: in event-stream mode the capture of
    the data pattern, otherwise the whole body. *)
Definition reply_text (r : Response) : option string :=
  if is_event_stream (content_type r) then JS.match_data (body r)
  else Some (body r).

(** The envelope a 2xx reply decodes to, in either mode. *)
Definition decoded (r : Response) : option jsval :=
  if ok r then
    match reply_text r with
    | Some text => JSON.parse text
    | None => None
    end
  else None.

(** The events of decoding a reply. *)
Definition reply_events (r : Response) : list event :=
  if is_event_stream (content_type r) then
    match JS.match_data (body r) with
    | Some text => [BodyText; JsonParse text]
    | None => [BodyText]
    end
  else [BodyJson].

(** ** Texts *)

(** All characters of a string satisfy [p]. *)
Fixpoint all_chars (p : ascii -> bool) (s : string) : bool :=
  match s with
  | EmptyString => true
  | String c rest => p c && all_chars p rest
  end.

(** A character of a numeral: a digit or the sign. *)
Definition numeral_char (c : ascii) : bool :=
  Ascii.eqb c "-"%char
  || ((48 <=? N_of_ascii c)%N && (N_of_ascii c <=? 57)%N).

(** A character matched by the [.] of a regular expression. *)
Definition no_terminator (c : ascii) : bool := negb (JS.is_line_terminator c).

(** A character other than the line feed and the carriage return, and one
    other than the line separator and the paragraph separator. *)
Definition no_break (c : ascii) : bool :=
  negb (Ascii.eqb c JS.newline || Ascii.eqb c JS.creturn).

Definition no_separator (c : ascii) : bool :=
  negb (Ascii.eqb c JS.line_separator || Ascii.eqb c JS.paragraph_separator).

(** A text is at the start of a line: it is empty or ends in a line
    terminator. *)
Fixpoint at_line_start (pre : string) : bool :=
  match pre with
  | EmptyString => true
  | String c EmptyString => JS.is_line_terminator c
  | String _ rest => at_line_start rest
  end.

(** What follows a line: nothing, or a line terminator. *)
Definition ends_line (rest : string) : bool :=
  match rest with
  | EmptyString => true
  | String c _ => JS.is_line_terminator c
  end.

(** ** JSON data *)

Section JsvalInduction.

Variable P : jsval -> Prop.
Hypothesis P_undefined : P JUndefined.
Hypothesis P_null : P JNull.
Hypothesis P_bool : forall b, P (JBool b).
Hypothesis P_num : forall n, P (JNum n).
Hypothesis P_str : forall s, P (JStr s).
Hypothesis P_arr : forall xs, Forall P xs -> P (JArr xs).
Hypothesis P_obj : forall kvs, Forall (fun kv => P (snd kv)) kvs -> P (JObj kvs).

Fixpoint jsval_ind (v : jsval) : P v :=
  match v with
  | JUndefined => P_undefined
  | JNull => P_null
  | JBool b => P_bool b
  | JNum n => P_num n
  | JStr s => P_str s
  | JArr xs =>
      P_arr xs
        ((fix all (l : list jsval) : Forall P l :=
            match l with
            | [] => Forall_nil P
            | x :: r => Forall_cons x (jsval_ind x) (all r)
            end) xs)
  | JObj kvs =>
      P_obj kvs
        ((fix all (l : list (string * jsval)) : Forall (fun kv => P (snd kv)) l :=
            match l with
            | [] => Forall_nil _
            | kv :: r => Forall_cons kv (jsval_ind (snd kv)) (all r)
            end) kvs)
  end.

End JsvalInduction.

(** No key occurs twice. *)
Fixpoint distinct (ks : list string) : bool :=
  match ks with
  | [] => true
  | k :: rest => negb (existsb (String.eqb k) rest) && distinct rest
  end.

(** A value is JSON data when it holds no [undefined] and no object in it
    repeats a key. *)
Fixpoint clean (v : jsval) : bool :=
  match v with
  | JUndefined => false
  | JNull | JBool _ | JNum _ | JStr _ => true
  | JArr xs => forallb clean xs
  | JObj kvs =>
      distinct (map fst kvs) && forallb (fun kv => clean (snd kv)) kvs
  end.

(** Params that reach the wire as they are: JSON data, or a falsy value,
    which is left out. *)
Definition plain (params : jsval) : bool :=
  negb (JS.truthy params) || clean params.

(** The text an array writes for an element. *)
Definition text_of (v : jsval) : string :=
  match JSON.serialize v with
  | Some t => t
  | None => "null"
  end.

(** The text an object writes for a member with JSON data. *)
Definition member_text (kv : string * jsval) : string :=
  JSON.quote (fst kv) ++ ":" ++ text_of (snd kv).

(** Fuel that suffices to parse the serialization of a value. *)
Fixpoint need (v : jsval) : nat :=
  match v with
  | JArr xs => S (list_sum (map (fun x => S (need x)) xs))
  | JObj kvs => S (list_sum (map (fun kv => S (need (snd kv))) kvs))
  | _ => 1%nat
  end.

(** The value of a numeral read after the value [acc] of the digits before it. *)
Fixpoint uint_value (acc : Z) (d : Decimal.uint) : Z :=
  match d with
  | Decimal.Nil => acc
  | Decimal.D0 l => uint_value (acc * 10 + 0) l
  | Decimal.D1 l => uint_value (acc * 10 + 1) l
  | Decimal.D2 l => uint_value (acc * 10 + 2) l
  | Decimal.D3 l => uint_value (acc * 10 + 3) l
  | Decimal.D4 l => uint_value (acc * 10 + 4) l
  | Decimal.D5 l => uint_value (acc * 10 + 5) l
  | Decimal.D6 l => uint_value (acc * 10 + 6) l
  | Decimal.D7 l => uint_value (acc * 10 + 7) l
  | Decimal.D8 l => uint_value (acc * 10 + 8) l
  | Decimal.D9 l => uint_value (acc * 10 + 9) l
  end.

(** What can follow a value inside a serialization. *)
Definition delimited (rest : string) : bool :=
  match rest with
  | EmptyString => true
  | String c _ =>
      Ascii.eqb c ","%char || Ascii.eqb c "]"%char || Ascii.eqb c "}"%char
  end.

(** The first character of a serialization starts a value. *)
Definition starts_value (t : string) : Prop :=
  exists c t',
    t = String c t'
    /\ JSON.is_ws c = false
    /\ Ascii.eqb c "]"%char = false
    /\ Ascii.eqb c "}"%char = false.

(** Parsing the serialization of [v] gives [v] back, whatever follows. *)
Definition parses (v : jsval) : Prop :=
  clean v = true ->
  forall fuel rest,
    (need v <= fuel)%nat ->
    delimited rest = true ->
    JSON.parse_value fuel (text_of v ++ rest) = Some (v, rest).

(** ** The requests to the routes, the tools that are listed *)

(** What the tool-execution route reads of the request it handles: the URL
    of the server, the name of the tool and the arguments, when the first two
    are given. *)
Definition execute_inputs (request : string) : option (jsval * jsval * jsval) :=
  match JSON.parse request with
  | Some data =>
      match JS.get data "serverUrl", JS.get data "toolName",
            JS.get data "arguments" with
      | Ok serverUrl, Ok toolName, Ok toolArgs =>
          if JS.truthy serverUrl && JS.truthy toolName
          then Some (serverUrl, toolName, toolArgs)
          else None
      | _, _, _ => None
      end
  | None => None
  end.

(** What the connect route reads of the request it handles. *)
Definition connect_inputs (request : string) : option jsval :=
  match JSON.parse request with
  | Some data =>
      match JS.get data "serverUrl", JS.get data "apiKey" with
      | Ok serverUrl, Ok _ => if JS.truthy serverUrl then Some serverUrl else None
      | _, _ => None
      end
  | None => None
  end.

(** A value a template literal can convert to text. *)
Definition printable (v : jsval) : bool :=
  match JS.to_string v with
  | Some _ => true
  | None => false
  end.

(** A tool descriptor the listing can print: its [name] and [description]
    can be read and converted to text (as the strings of a descriptor can,
    and a missing member too). *)
Definition listable (tool : jsval) : bool :=
  match JS.get tool "name", JS.get tool "description" with
  | Ok name, Ok description => printable name && printable description
  | _, _ => false
  end.

(** The category of a tool whose name is a string. *)
Definition category_of (name : string) : string :=
  if JS.includes name "connector" || JS.includes name "credential"
  then "connectivity"
  else if JS.includes name "workflow" || JS.includes name "embedded"
  then "embedded"
  else if JS.includes name "discover" then "discovery"
  else "general".

(** The descriptor the connect route answers with for a tool. *)
Definition transformed (tool : jsval) : option jsval :=
  match JS.get tool "name", JS.get tool "description",
        JS.get tool "inputSchema" with
  | Ok (JStr name), Ok description, Ok inputSchema =>
      Some (JObj [("name", JStr name); ("description", description);
                  ("category", JStr (category_of name));
                  ("inputSchema", inputSchema)])
  | _, _, _ => None
  end.

(** The result has no [tools]: it is missing itself, or an object without
    that member. *)
Definition tools_absent (result : jsval) : Prop :=
  result = JUndefined
  \/ exists fields, result = JObj fields /\ JS.lookup "tools" fields = None.

(** ** Sessions of the command-line client *)

(** The params of the [initialize] call of the command-line client. *)
Definition initialize_params : jsval :=
  JObj [("protocolVersion", JStr "2024-11-05");
        ("capabilities", JObj []);
        ("clientInfo",
         JObj [("name", JStr "alloy-mcp-basic-example");
               ("version", JStr "1.0.0")])].

(** The operations a caller can ask of the client. *)
Inductive operation : Type :=
| Initialize
| ListAvailableTools
| ListResources
| ExecuteTool (toolName : string) (args : jsval)
| ListPrompts.

Definition perform (this : Basic.AlloyMCPClient) (op : operation) : M unit :=
  match op with
  | Initialize => Basic.initialize this
  | ListAvailableTools => Basic.listAvailableTools this ;;; ret tt
  | ListResources => Basic.listResources this
  | ExecuteTool toolName args => Basic.executeTool this toolName args ;;; ret tt
  | ListPrompts => Basic.listPrompts this ;;; ret tt
  end.

(** A caller that issues operations one after the other and goes on whatever
    the outcome of each. *)
Fixpoint session (this : Basic.AlloyMCPClient) (ops : list operation) : M unit :=
  match ops with
  | [] => ret tt
  | op :: rest =>
      try_catch (perform this op) (fun _ => ret tt) ;;; session this rest
  end.

(** The method and the params of the call an operation makes. *)
Definition call_of (op : operation) : string * jsval :=
  match op with
  | Initialize => ("initialize", initialize_params)
  | ListAvailableTools => ("tools/list", JUndefined)
  | ListResources => ("resources/list", JUndefined)
  | ExecuteTool toolName args =>
      ("tools/call", JObj [("name", JStr toolName); ("arguments", args)])
  | ListPrompts => ("prompts/list", JUndefined)
  end.

(** The operations whose call sends JSON data. *)
Definition plain_operation (op : operation) : bool :=
  plain (snd (call_of op)).

(** The envelopes of a sequence of calls, the first with the id [id]. *)
Fixpoint envelopes (id : Z) (calls : list (string * jsval)) : list jsval :=
  match calls with
  | [] => []
  | (method, params) :: rest =>
      envelope method id (if JS.truthy params then Some params else None)
      :: envelopes (js_succ id) rest
  end.

(** The ids [first], [first + 1], ... of [count] calls. *)
Fixpoint ids_from (first : Z) (count : nat) : list Z :=
  match count with
  | O => []
  | S count' => first :: ids_from (first + 1) count'
  end.

(** [n] increments of an id. *)
Fixpoint succ_n (n : nat) (id : Z) : Z :=
  match n with
  | O => id
  | S n' => succ_n n' (js_succ id)
  end.

(** From [s] to [s'] at most [n] requests were sent, all with plain params,
    and they are the envelopes of consecutive ids starting at [requestId s]. *)
Definition advances (n : nat) (s s' : State) : Prop :=
  exists calls,
    (List.length calls <= n)%nat
    /\ forallb (fun call => plain (snd call)) calls = true
    /\ sent_bodies (trace s')
       = (sent_bodies (trace s)
            ++ map JSON.stringify (envelopes (requestId s) calls))%list
    /\ requestId s' = succ_n (List.length calls) (requestId s).

(** A computation that sends at most [n] requests, from any state. *)
Definition advancing {A : Type} (n : nat) (c : M A) : Prop :=
  forall s, advances n s (snd (c s)).

(** ** Replies and requests of the examples *)

(** The envelope of the specification's example. *)
Definition sample_envelope : jsval :=
  JObj [("jsonrpc", JStr "2.0"); ("id", JNum 1);
        ("result", JObj [("ok", JBool true)])].

(** A process at its start, with the replies the network will give; every
    call of [Math.random()] returns 0. *)
Definition init_state (replies : list (option Response)) : State :=
  {| requestId := 1; pending := replies; random := fun _ => 0; drawn := 0;
     trace := [] |}.

(** A process whose draws are all [9007154218744718 / 2^53]: the product
    with 1000000 lies just below 999995 and is rounded to it. *)
Definition rounding_state : State :=
  {| requestId := 1; pending := []; random := fun _ => 9007154218744718;
     drawn := 0; trace := [] |}.

(** A value sent as a reply in JSON mode, and as the one event of a stream. *)
Definition json_reply (v : jsval) : Response :=
  {| status := 200; statusText := "OK";
     content_type := Some "application/json"; body := JSON.stringify v |}.

Definition sse_reply (v : jsval) : Response :=
  {| status := 200; statusText := "OK";
     content_type := Some "text/event-stream";
     body := "event: message" ++ JS.str1 JS.newline ++ "data: "
               ++ JSON.stringify v ++ JS.str1 JS.newline ++ JS.str1 JS.newline |}.

(** A reply with a non-2xx status. *)
Definition not_found : Response :=
  {| status := 404; statusText := "Not Found";
     content_type := Some "application/json"; body := "{}" |}.

(** An event stream without a data line. *)
Definition stream_without_data : Response :=
  {| status := 200; statusText := "OK";
     content_type := Some "text/event-stream";
     body := "event: message" ++ JS.str1 JS.newline ++ JS.str1 JS.newline |}.

(** A client, and the requests the browser sends to the two routes. *)
Definition example_client : Basic.AlloyMCPClient :=
  {| Basic.serverUrl := "https://mcp.example/mcp" |}.

Definition execute_request : string :=
  JSON.stringify (JObj [("serverUrl", JStr "https://mcp.example/mcp");
                        ("toolName", JStr "list_connectors_alloy");
                        ("arguments", JObj [])]).

Definition connect_request : string :=
  JSON.stringify (JObj [("serverUrl", JStr "https://mcp.example/mcp")]).

(** The envelope of a remote error. *)
Definition remote_error (code : Z) (message : string) : jsval :=
  JObj [("jsonrpc", JStr "2.0"); ("id", JNum 1);
        ("error", JObj [("code", JNum code); ("message", JStr message)])].

(** The reply to a tool call of the specification's example. *)
Definition text_item : jsval :=
  JObj [("type", JStr "text"); ("text", JStr "...")].

Definition tool_reply : jsval :=
  JObj [("result", JObj [("content", JArr [text_item])])].

(** A stream of two events: a notification, then the reply. *)
Definition notification : jsval :=
  JObj [("jsonrpc", JStr "2.0"); ("method", JStr "notifications/message")].

Definition two_events : Response :=
  {| status := 200; statusText := "OK";
     content_type := Some "text/event-stream";
     body := ("event: message" ++ JS.str1 JS.newline ++ "data: "
                ++ JSON.stringify notification
                ++ JS.str1 JS.newline ++ JS.str1 JS.newline
                ++ "event: message" ++ JS.str1 JS.newline)
             ++ "data: " ++ JSON.stringify sample_envelope
             ++ (JS.str1 JS.newline ++ JS.str1 JS.newline) |}.

(** An envelope with a line separator inside a string. *)
Definition separated_envelope : jsval :=
  JObj [("jsonrpc", JStr "2.0"); ("id", JNum 1);
        ("result",
         JObj [("text", JStr ("a" ++ JS.str1 JS.line_separator ++ "b"))])].

(** A reply to [tools/list] with one descriptor. *)
Definition sample_tool : jsval :=
  JObj [("name", JStr "list_connectors_alloy");
        ("description", JStr "Discover available integration connectors")].

Definition tools_reply : jsval :=
  JObj [("jsonrpc", JStr "2.0"); ("id", JNum 2);
        ("result", JObj [("tools", JArr [sample_tool])])].

(** ** Outcomes and requests of a computation *)

(** Every value the computation returns satisfies [P]. *)
Definition ensures {A : Type} (P : A -> Prop) (c : M A) : Prop :=
  forall s a s', c s = (Ok a, s') -> P a.

(** The requests a trace has sent, oldest first: the two arguments of each
    [fetch]. *)
Fixpoint fetches (tr : list event) : list (string * RequestInit) :=
  match tr with
  | [] => []
  | CallFetch url init :: rest => (url, init) :: fetches rest
  | _ :: rest => fetches rest
  end.

(** The computation sends at most [n] requests, from any state. *)
Definition sends_at_most {A : Type} (n : nat) (c : M A) : Prop :=
  forall s,
    exists sent,
      fetches (trace (snd (c s))) = (fetches (trace s) ++ sent)%list
      /\ (List.length sent <= n)%nat.

(** The answers of the routes. *)
Definition status_of (outcome : result NextResponse) : option Z :=
  match outcome with
  | Ok answer => Some (response_status answer)
  | Throw _ => None
  end.

Definition error_answer (status : Z) (text : string) : NextResponse :=
  NextResponse_json (JObj [("error", JStr text)]) status.

(** The params of the [initialize] call of the connect route. *)
Definition connect_initialize_params : jsval :=
  JObj [("protocolVersion", JStr "2024-11-05");
        ("capabilities", JObj []);
        ("clientInfo",
         JObj [("name", JStr "alloy-mcp-nextjs-chat");
               ("version", JStr "1.0.0")])].

(** An outcome of the [initialize] call after which the connect route goes
    on to list the tools: an envelope whose [error] is falsy. *)
Definition initialized (outcome : result jsval) : bool :=
  match outcome with
  | Ok E =>
      match JS.get E "error" with
      | Ok error => negb (JS.truthy error)
      | Throw _ => false
      end
  | Throw _ => false
  end.

(** The id of the [k]-th request from now on that a route sends. *)
Definition random_id (s : State) (k : nat) : Z :=
  floor_of_product (random s (drawn s + k) mod 2 ^ 53) 1000000.

(** A computation that throws, from any state. *)
Definition fails {A : Type} (c : M A) : Prop :=
  forall s, exists e s', c s = (Throw e, s').

(** A tool descriptor whose [name] has no method [includes]: the name is
    missing, or it is neither a string nor an array. *)
Definition nameless (tool : jsval) : bool :=
  match JS.get tool "name" with
  | Ok (JStr _) | Ok (JArr _) => false
  | _ => true
  end.

(** ** The command-line client *)

(** The steps of [main] before the demonstrations. *)
Definition startup (env_url : option string) : M unit :=
  client <- Basic.constructor env_url ;;
  Basic.initialize client ;;;
  Basic.listAvailableTools client ;;;
  ret tt.

(** The body of a [tools/call] request of the command-line client. *)
Definition tool_call_body (id : Z) (toolName : string) (args : jsval) : string :=
  JSON.stringify
    (envelope "tools/call" id
       (Some (JObj [("name", JStr toolName); ("arguments", args)]))).

Definition throws {A : Type} (outcome : result A) : bool :=
  match outcome with
  | Ok _ => false
  | Throw _ => true
  end.

(** The requests of the exchange to one URL with the given bodies: each a
    POST with the two headers. *)
Definition posts_to (url : string) (bodies : list string)
  : list (string * RequestInit) :=
  map (fun req => (url, post_init req)) bodies.

(** All the requests a computation sends are such requests to [url]. *)
Definition targets {A : Type} (url : string) (c : M A) : Prop :=
  forall s,
    exists bodies,
      fetches (trace (snd (c s))) = (fetches (trace s) ++ posts_to url bodies)%list.

(** ** The browser client and the routes *)

(** The bodies of the requests the browser client sends to the routes. *)
Definition connect_body (config : McpClient.MCPClientConfig) : string :=
  JSON.stringify
    (JObj [("serverUrl", JStr (McpClient.serverUrl config));
           ("apiKey", JStr (McpClient.apiKey config))]).

Definition execute_body (config : McpClient.MCPClientConfig) (name : string)
  (args : jsval) : string :=
  JSON.stringify
    (JObj [("serverUrl", JStr (McpClient.serverUrl config));
           ("apiKey", JStr (McpClient.apiKey config));
           ("toolName", JStr name);
           ("arguments", args)]).

Definition json_init (req : string) : RequestInit :=
  {| http_method := "POST"; headers := McpClient.json_headers;
     request_body := req |}.

(** A reply carries the answer of a route: [NextResponse.json(data, { status })]
    is a response with that status whose body is the serialization of
    [data]. *)
Definition carries (reply : Response) (outcome : result NextResponse) : Prop :=
  match outcome with
  | Ok answer =>
      status reply = response_status answer
      /\ body reply = JSON.stringify (response_data answer)
  | Throw _ => False
  end.

(** What [executeTool] of the browser client returns. *)
Definition tool_result (content : jsval) (isError : bool) : jsval :=
  JObj [("content", content); ("isError", JBool isError)].

Definition tool_failure (message : string) : jsval :=
  tool_result (JObj [("error", JStr message)]) true.

(** [xs] is [ys] with some elements left out. *)
Fixpoint subsequence (xs ys : list string) : bool :=
  match xs, ys with
  | [], _ => true
  | _ :: _, [] => false
  | x :: xs', y :: ys' =>
      if String.eqb x y then subsequence xs' ys' else subsequence xs ys'
  end.

(** The tools [determineTools] knows, in the order in which it looks for
    them. *)
Definition known_tools : list string :=
  ["list_connectors_alloy"; "get_credentials_alloy";
   "discover_action_path_alloy"; "get_connector_resources_alloy"].

(** The answers of the tool-execution route and of the connect route. *)
Definition execute_answer (answer : NextResponse) : Prop :=
  (exists content,
      answer = NextResponse_json (JObj [("content", content)]) 200)
  \/ answer = error_answer 400 "Missing required parameters"
  \/ (exists text,
         answer = error_answer 500 ("Failed to execute tool: " ++ text)).

Definition connect_answer (answer : NextResponse) : Prop :=
  (exists tools,
      answer = NextResponse_json
                 (JObj [("success", JBool true); ("tools", JArr tools)]) 200)
  \/ answer = error_answer 400 "Missing server URL"
  \/ (exists text,
         answer = error_answer 500 ("Failed to connect to MCP server: " ++ text)).

(** ** The tool panel *)

(** The tools of one category, in the order of the list. *)
Definition members (key : string) (tools : list ToolPanel.Tool)
  : list ToolPanel.Tool :=
  filter (fun tool => String.eqb (ToolPanel.category_or_general tool) key) tools.

(** The group of a key, given the group that was there and the tools that
    were added. *)
Definition grown (before : option (list ToolPanel.Tool))
  (added : list ToolPanel.Tool) : option (list ToolPanel.Tool) :=
  match before, added with
  | None, [] => None
  | None, _ :: _ => Some added
  | Some group, _ => Some (group ++ added)%list
  end.

(** The invariant of the browser client: a client that is not connected
    holds no tools. *)
Definition settled (this : McpClient.MCPClient) : Prop :=
  McpClient.connected this = false -> McpClient.availableTools this = JArr [].

(** ** Clients, replies and tools of the examples *)

Definition chat_config : McpClient.MCPClientConfig :=
  {| McpClient.serverUrl := "https://mcp.example/mcp";
     McpClient.apiKey := "key" |}.

(** The browser client after a connection that found no tools. *)
Definition connected_client : McpClient.MCPClient :=
  {| McpClient.config := chat_config; McpClient.connected := true;
     McpClient.availableTools := JArr [] |}.

(** The reply that carries an answer of a route. *)
Definition carrier (answer : NextResponse) : Response :=
  {| status := response_status answer; statusText := EmptyString;
     content_type := Some "application/json";
     body := JSON.stringify (response_data answer) |}.

(** A descriptor with an input schema, and the reply that lists it. *)
Definition schema_tool : jsval :=
  JObj [("name", JStr "list_connectors_alloy");
        ("description", JStr "Discover available integration connectors");
        ("inputSchema", JObj [("type", JStr "object")])].

Definition schema_tools_reply : jsval :=
  JObj [("jsonrpc", JStr "2.0"); ("id", JNum 2);
        ("result", JObj [("tools", JArr [schema_tool])])].

Definition routed_tool : jsval :=
  JObj [("name", JStr "list_connectors_alloy");
        ("description", JStr "Discover available integration connectors");
        ("category", JStr "connectivity");
        ("inputSchema", JObj [("type", JStr "object")])].

Definition panel_tools : list ToolPanel.Tool :=
  [{| ToolPanel.name := "list_connectors_alloy";
      ToolPanel.description := "Discover available integration connectors";
      ToolPanel.category := Some "connectivity" |};
   {| ToolPanel.name := "echo"; ToolPanel.description := "Echo";
      ToolPanel.category := None |}].

(** * Lemmas *)

(** ** Numbers

    An integer below [2^53] in absolute value is a double; rounding moves an
    integer by at most half a unit in the last place. *)

Lemma round_53_small (n : Z) : 0 <= n < 2 ^ 53 -> round_53 n = n.
Proof.
  intros [H0 H]. unfold round_53.
  destruct (Z.leb_spec (Z.log2 n - 52) 0) as [_|Hs]; [reflexivity|].
  exfalso. assert (0 < n) as Hpos.
  { destruct (Z.eq_dec n 0) as [->|]; [simpl in Hs; lia | lia]. }
  apply (Z.log2_lt_pow2 n 53 Hpos) in H. lia.
Qed.

Lemma round_53_bounds (n : Z) :
  0 <= n -> 0 <= round_53 n <= n + 2 ^ (Z.log2 n - 53).
Proof.
  intros H0. unfold round_53.
  destruct (Z.leb_spec (Z.log2 n - 52) 0) as [Hs|Hs].
  - pose proof (Z.pow_nonneg 2 (Z.log2 n - 53) ltac:(lia)). lia.
  - set (shift := Z.log2 n - 52) in *.
    replace (Z.log2 n - 53) with (shift - 1) by (unfold shift; lia).
    assert (2 ^ shift = 2 * 2 ^ (shift - 1)) as Hd.
    { replace shift with (Z.succ (shift - 1)) at 1 by lia.
      apply Z.pow_succ_r. lia. }
    assert (0 < 2 ^ (shift - 1)) as Hh by (apply Z.pow_pos_nonneg; lia).
    pose proof (Z.div_mod n (2 ^ shift) ltac:(lia)) as Hn.
    pose proof (Z.mod_pos_bound n (2 ^ shift) ltac:(lia)) as Hr.
    assert (0 <= n / 2 ^ shift) as Hq by (apply Z.div_pos; lia).
    destruct ((2 ^ (shift - 1) <? n mod 2 ^ shift)
              || ((n mod 2 ^ shift =? 2 ^ (shift - 1)) && Z.odd (n / 2 ^ shift)))
      eqn:Hup.
    + assert (2 ^ (shift - 1) <= n mod 2 ^ shift) as Hge.
      { apply orb_true_iff in Hup as [Hup|Hup].
        - apply Z.ltb_lt in Hup. lia.
        - apply andb_true_iff in Hup as [Hup _]. apply Z.eqb_eq in Hup. lia. }
      nia.
    + nia.
Qed.

Lemma js_succ_exact (n : Z) : - 2 ^ 53 <= n < 2 ^ 53 -> js_succ n = n + 1.
Proof.
  intros [Hl Hu]. unfold js_succ, to_double.
  destruct (Z.ltb_spec (n + 1) 0) as [Hneg|Hpos].
  - rewrite round_53_small by lia. lia.
  - destruct (Z.eq_dec (n + 1) (2 ^ 53)) as [->|Hne]; [reflexivity|].
    apply round_53_small. lia.
Qed.

Lemma floor_of_product_range (m : Z) :
  0 <= m < 2 ^ 53 -> 0 <= floor_of_product m 1000000 < 1000000.
Proof.
  intros Hm. unfold floor_of_product.
  assert (0 <= m * 1000000) as H0 by lia.
  pose proof (round_53_bounds _ H0) as [Hlo Hhi].
  assert (2 ^ (Z.log2 (m * 1000000) - 53) <= 2 ^ 19) as Hp.
  { apply Z.pow_le_mono_r; [lia|].
    destruct (Z.eq_dec (m * 1000000) 0) as [->|Hne]; [simpl; lia|].
    assert (Z.log2 (m * 1000000) < 73); [|lia].
    apply Z.log2_lt_pow2; [lia|].
    assert (2 ^ 73 = 2 ^ 53 * 2 ^ 20) as -> by reflexivity.
    assert (2 ^ 20 = 1048576) as -> by reflexivity. lia. }
  assert (2 ^ 19 = 524288) as H19 by reflexivity.
  split.
  - apply Z.div_pos; lia.
  - apply Z.div_lt_upper_bound; lia.
Qed.

(** ** Strings and numerals *)

Lemma append_assoc (a b c : string) : (a ++ b) ++ c = a ++ (b ++ c).
Proof. induction a as [|x a IH]; simpl; [|rewrite IH]; reflexivity. Qed.

Lemma append_empty_r (a : string) : a ++ EmptyString = a.
Proof. induction a as [|x a IH]; simpl; [|rewrite IH]; reflexivity. Qed.

Lemma length_append (a b : string) :
  String.length (a ++ b) = (String.length a + String.length b)%nat.
Proof. induction a as [|c a IH]; simpl; [|rewrite IH]; reflexivity. Qed.

Ltac normalize_strings :=
  repeat (rewrite ?append_assoc, ?append_empty_r; simpl).

Lemma all_chars_app (p : ascii -> bool) (a b : string) :
  all_chars p (a ++ b) = all_chars p a && all_chars p b.
Proof.
  induction a as [|c a IH]; simpl; [reflexivity|].
  rewrite IH, andb_assoc. reflexivity.
Qed.

Lemma all_chars_weaken (p q : ascii -> bool) (s : string) :
  (forall c, p c = true -> q c = true) ->
  all_chars p s = true -> all_chars q s = true.
Proof.
  intros Hpq. induction s as [|c s IH]; simpl; [reflexivity|].
  intros H. apply andb_true_iff in H as [Hc Hs].
  rewrite (Hpq c Hc), (IH Hs). reflexivity.
Qed.

Lemma string_of_Z_inj (a b : Z) :
  JS.string_of_Z a = JS.string_of_Z b -> a = b.
Proof.
  unfold JS.string_of_Z. intros H. apply DecimalZ.to_int_inj.
  assert (forall n, NilZero.int_of_string (NilZero.string_of_int (Z.to_int n))
                    = Some (Z.to_int n)) as E.
  { intros n. apply NilZero.isi; destruct n; simpl; try discriminate.
    - intros [= Hc]. exact (DecimalPos.Unsigned.to_uint_nonnil _ Hc).
    - intros [= Hc]. exact (DecimalPos.Unsigned.to_uint_nonnil _ Hc). }
  pose proof (E a) as Ea. rewrite H, E in Ea. congruence.
Qed.

Lemma uint_numeral (d : Decimal.uint) :
  all_chars numeral_char (NilEmpty.string_of_uint d) = true.
Proof.
  induction d; simpl; try assumption; reflexivity.
Qed.

Lemma string_of_Z_numeral (n : Z) :
  all_chars numeral_char (JS.string_of_Z n) = true.
Proof.
  unfold JS.string_of_Z, NilZero.string_of_int, NilZero.string_of_uint.
  destruct (Z.to_int n) as [d|d]; destruct d; simpl;
    try reflexivity; apply uint_numeral.
Qed.

Lemma string_of_Z_nonempty (n : Z) : JS.is_empty (JS.string_of_Z n) = false.
Proof.
  unfold JS.string_of_Z, NilZero.string_of_int, NilZero.string_of_uint.
  destruct (Z.to_int n) as [d|d]; destruct d; reflexivity.
Qed.

(** Two texts [numeral ++ ": " ++ rest] are equal only if their parts are. *)
Lemma numeral_colon_split (a b x y : string) :
  all_chars numeral_char a = true ->
  all_chars numeral_char b = true ->
  a ++ ": " ++ x = b ++ ": " ++ y ->
  a = b /\ x = y.
Proof.
  revert b. induction a as [|c a IH]; intros [|d b] Ha Hb H; simpl in *.
  - injection H as H. auto.
  - injection H as Hc _. subst d. discriminate.
  - injection H as Hc _. subst c. discriminate.
  - apply andb_true_iff in Ha as [_ Ha]. apply andb_true_iff in Hb as [_ Hb].
    injection H as Hc H. subst d.
    destruct (IH b Ha Hb H) as [-> ->]. auto.
Qed.

(** ** The monad of effects *)

Lemma bind_ok {A B : Type} (c : M A) (k : A -> M B) (s s' : State) (a : A) :
  c s = (Ok a, s') -> bind c k s = k a s'.
Proof. intros H. unfold bind. rewrite H. reflexivity. Qed.

Lemma bind_throw {A B : Type} (c : M A) (k : A -> M B) (s s' : State)
  (e : js_error) :
  c s = (Throw e, s') -> bind c k s = (Throw e, s').
Proof. intros H. unfold bind. rewrite H. reflexivity. Qed.

Lemma bind_lift {A B : Type} (r : result A) (k : A -> M B) (s : State) (a : A) :
  r = Ok a -> bind (lift r) k s = k a s.
Proof. intros ->. reflexivity. Qed.

Lemma to_string_m_ok (v : jsval) (t : string) (s : State) :
  JS.to_string v = Some t -> to_string_m v s = (Ok t, s).
Proof. intros H. unfold to_string_m. rewrite H. reflexivity. Qed.

Lemma try_catch_ok {A : Type} (c : M A) (h : js_error -> M A) (s s' : State)
  (a : A) :
  c s = (Ok a, s') -> try_catch c h s = (Ok a, s').
Proof. intros H. unfold try_catch. rewrite H. reflexivity. Qed.

Lemma try_catch_throw {A : Type} (c : M A) (h : js_error -> M A) (s s' : State)
  (e : js_error) :
  c s = (Throw e, s') -> try_catch c h s = h e s'.
Proof. intros H. unfold try_catch. rewrite H. reflexivity. Qed.

Lemma rethrow_run {A : Type} (c : M A) (note : js_error -> string) (s : State) :
  try_catch c (fun error => console_log (note error) ;;; throw error) s = c s.
Proof.
  unfold try_catch, bind, console_log, ret, throw.
  destruct (c s) as [[a|e] s']; reflexivity.
Qed.

Lemma swallow_ok (c : M unit) (s : State) :
  fst (try_catch c (fun _ => ret tt) s) = Ok tt.
Proof.
  unfold try_catch, ret. destruct (c s) as [[[]|e] s']; reflexivity.
Qed.

Lemma stateless_ret {A : Type} (a : A) : stateless (ret a).
Proof. intros s. reflexivity. Qed.

Lemma stateless_throw {A : Type} (e : js_error) : stateless (@throw A e).
Proof. intros s. reflexivity. Qed.

Lemma stateless_lift {A : Type} (r : result A) : stateless (lift r).
Proof. intros s. reflexivity. Qed.

Lemma stateless_console_log (text : string) : stateless (console_log text).
Proof. intros s. reflexivity. Qed.

Lemma stateless_to_string_m (v : jsval) : stateless (to_string_m v).
Proof. intros s. unfold to_string_m. destruct (JS.to_string v); reflexivity. Qed.

Lemma stateless_bind {A B : Type} (c : M A) (k : A -> M B) :
  stateless c -> (forall a, stateless (k a)) -> stateless (bind c k).
Proof.
  intros Hc Hk s. unfold bind. specialize (Hc s).
  destruct (c s) as [[a|e] s']; simpl in Hc; subst s'; [apply Hk | reflexivity].
Qed.

Lemma stateless_if {A : Type} (b : bool) (c d : M A) :
  stateless c -> stateless d -> stateless (if b then c else d).
Proof. destruct b; auto. Qed.

Lemma stateless_each (f : jsval -> M unit) (xs : list jsval) :
  (forall x, stateless (f x)) -> stateless (Basic.each f xs).
Proof.
  intros Hf. induction xs as [|x xs IH]; cbn [Basic.each].
  - apply stateless_ret.
  - apply stateless_bind; [apply Hf | intros _; exact IH].
Qed.

Lemma stateless_forEach (name : string) (v : jsval) (f : jsval -> M unit) :
  (forall x, stateless (f x)) -> stateless (Basic.forEach name v f).
Proof.
  intros Hf. destruct v; cbn [Basic.forEach];
    try apply stateless_throw. apply stateless_each, Hf.
Qed.

Create HintDb stateless.
#[local] Hint Resolve stateless_ret stateless_throw stateless_lift
  stateless_console_log stateless_to_string_m stateless_bind stateless_if
  stateless_each stateless_forEach : stateless.

Ltac solve_stateless := repeat (intros; auto with stateless; try apply stateless_bind;
                          try apply stateless_if; try apply stateless_forEach).

Lemma bind_stateless {A B : Type} (c : M A) (k : A -> M B) (s : State) :
  (forall a, stateless (k a)) -> snd (bind c k s) = snd (c s).
Proof.
  intros Hk. unfold bind. destruct (c s) as [[a|e] s']; [apply Hk | reflexivity].
Qed.

Lemma try_catch_stateless {A : Type} (c : M A) (h : js_error -> M A) (s : State) :
  (forall e, stateless (h e)) -> snd (try_catch c h s) = snd (c s).
Proof.
  intros Hh. unfold try_catch. destruct (c s) as [[a|e] s']; [reflexivity | apply Hh].
Qed.

(** ** The request that is sent *)

Lemma sent_bodies_app (a b : list event) :
  sent_bodies (a ++ b) = (sent_bodies a ++ sent_bodies b)%list.
Proof.
  induction a as [|e a IH]; simpl; [reflexivity|].
  destruct e; simpl; rewrite ?IH; reflexivity.
Qed.

Lemma spread_falsy (fields : list (string * jsval)) (p : jsval) :
  JS.truthy p = false ->
  spread fields (JS.and p (JObj [("params", p)])) = fields.
Proof.
  intros Hp. unfold JS.and. rewrite Hp.
  destruct p as [| |b|n|s|xs|kvs]; simpl in Hp; try discriminate; try reflexivity.
  destruct s; [reflexivity | discriminate].
Qed.

Lemma spread_truthy (method : string) (id : Z) (p : jsval) :
  JS.truthy p = true ->
  spread [("jsonrpc", JStr "2.0"); ("method", JStr method); ("id", JNum id)]
         (JS.and p (JObj [("params", p)]))
  = [("jsonrpc", JStr "2.0"); ("method", JStr method); ("id", JNum id);
     ("params", p)].
Proof.
  intros Hp. unfold JS.and. rewrite Hp. reflexivity.
Qed.

(** The object a call serializes: without a [params] key exactly when the
    argument is falsy. *)
Lemma request_object (method : string) (id : Z) (p : jsval) :
  JObj (spread [("jsonrpc", JStr "2.0"); ("method", JStr method); ("id", JNum id)]
               (JS.and p (JObj [("params", p)])))
  = envelope method id (if JS.truthy p then Some p else None).
Proof.
  unfold envelope. destruct (JS.truthy p) eqn:Hp.
  - rewrite spread_truthy by assumption. reflexivity.
  - rewrite spread_falsy by assumption. reflexivity.
Qed.

Lemma structured_truthy (v : jsval) : structured v = true -> JS.truthy v = true.
Proof. destruct v; simpl; congruence. Qed.

Lemma structured_serialize (v : jsval) :
  structured v = true -> JSON.serialize v = Some (JSON.stringify v).
Proof. destruct v; simpl; try discriminate; reflexivity. Qed.

Lemma stringify_envelope_absent (method : string) (id : Z) :
  JSON.stringify (envelope method id None) = envelope_text method id None.
Proof.
  unfold JSON.stringify, envelope, envelope_text. simpl.
  normalize_strings. reflexivity.
Qed.

Lemma stringify_envelope_params (method : string) (id : Z) (p : jsval)
  (t : string) :
  JSON.serialize p = Some t ->
  JSON.stringify (envelope method id (Some p))
  = envelope_text method id (Some t).
Proof.
  intros Hp. unfold JSON.stringify, envelope, envelope_text. simpl.
  rewrite Hp. normalize_strings. reflexivity.
Qed.

(** ** One exchange

    The three copies of [makeRequest] differ in how they choose the id (and
    in the logging [try]/[catch] of the command-line client); from [fetch] on
    they are the same text, [exchange]. *)

Lemma basic_makeRequest_run (this : Basic.AlloyMCPClient) (method : string)
  (params : jsval) (s : State) :
  Basic.makeRequest this method params s
  = exchange (Basic.serverUrl this)
      (JSON.stringify
         (envelope method (requestId s)
            (if JS.truthy params then Some params else None)))
      (with_requestId (js_succ (requestId s)) s).
Proof.
  unfold Basic.makeRequest.
  unfold bind at 1. unfold post_increment_requestId.
  unfold bind at 1. unfold console_log at 1, ret at 1.
  rewrite rethrow_run. rewrite request_object. reflexivity.
Qed.

Lemma execute_makeRequest_run (serverUrl : jsval) (url method : string)
  (params : jsval) (s : State) :
  JS.to_string serverUrl = Some url ->
  ExecuteRoute.makeRequest serverUrl method params s
  = exchange url
      (JSON.stringify
         (envelope method (next_random_id s)
            (if JS.truthy params then Some params else None)))
      (with_drawn (S (drawn s)) s).
Proof.
  intros Hurl. unfold ExecuteRoute.makeRequest.
  unfold bind at 1. unfold random_below.
  unfold bind at 1. unfold to_string_m. rewrite Hurl. unfold ret at 1.
  rewrite request_object. reflexivity.
Qed.

Lemma connect_makeRequest_eq :
  ConnectRoute.makeRequest = ExecuteRoute.makeRequest.
Proof. reflexivity. Qed.

(** A route's [makeRequest] throws before [fetch] when the URL it was given
    cannot be converted to a string. *)
Lemma execute_makeRequest_bad_url (serverUrl : jsval) (method : string)
  (params : jsval) (s : State) :
  JS.to_string serverUrl = None ->
  ExecuteRoute.makeRequest serverUrl method params s
  = (Throw (TypeError "Cannot convert object to primitive value"),
     with_drawn (S (drawn s)) s).
Proof.
  intros Hurl. unfold ExecuteRoute.makeRequest.
  unfold bind at 1. unfold random_below.
  unfold bind at 1. unfold to_string_m. rewrite Hurl. reflexivity.
Qed.

Lemma exchange_no_reply (url req : string) (s : State) :
  pending s = [] ->
  exchange url req s
  = (Throw (TypeError "fetch failed"), with_events [CallFetch url (post_init req)] s).
Proof.
  intros Hp. unfold exchange, bind, fetch, bind, record. simpl. rewrite Hp.
  unfold with_events. rewrite Hp. reflexivity.
Qed.

Lemma exchange_failed (url req : string) (s : State)
  (rest : list (option Response)) :
  pending s = None :: rest ->
  exchange url req s
  = (Throw (TypeError "fetch failed"),
     with_pending rest (with_events [CallFetch url (post_init req)] s)).
Proof.
  intros Hp. unfold exchange, bind, fetch, bind, record. simpl. rewrite Hp.
  reflexivity.
Qed.

Lemma exchange_not_ok (url req : string) (s : State) (r : Response)
  (rest : list (option Response)) :
  pending s = Some r :: rest ->
  ok r = false ->
  exchange url req s
  = (Throw (http_error r),
     with_pending rest (with_events [CallFetch url (post_init req)] s)).
Proof.
  intros Hp Hok. unfold exchange, bind, fetch, bind, record. simpl. rewrite Hp.
  rewrite Hok. reflexivity.
Qed.

Lemma exchange_json (url req : string) (s : State) (r : Response)
  (rest : list (option Response)) :
  pending s = Some r :: rest ->
  ok r = true ->
  is_event_stream (content_type r) = false ->
  exchange url req s
  = (parse_outcome (body r),
     with_pending rest
       (with_events [CallFetch url (post_init req); BodyJson] s)).
Proof.
  intros Hp Hok Hct. unfold exchange, bind, fetch, bind, record. simpl.
  rewrite Hp. rewrite Hok, Hct. simpl.
  unfold response_json, bind, record, parse_outcome. simpl.
  unfold with_pending, with_events. simpl. rewrite <- app_assoc. simpl.
  destruct (JSON.parse (body r)); reflexivity.
Qed.

Lemma exchange_sse_data (url req : string) (s : State) (r : Response)
  (rest : list (option Response)) (group1 : string) :
  pending s = Some r :: rest ->
  ok r = true ->
  is_event_stream (content_type r) = true ->
  JS.match_data (body r) = Some group1 ->
  exchange url req s
  = (parse_outcome group1,
     with_pending rest
       (with_events [CallFetch url (post_init req); BodyText; JsonParse group1] s)).
Proof.
  intros Hp Hok Hct Hm. unfold exchange, bind, fetch, bind, record. simpl.
  rewrite Hp. rewrite Hok, Hct. simpl.
  unfold response_text, bind, record, ret. simpl. rewrite Hm.
  unfold JSON_parse, bind, record, parse_outcome. simpl.
  unfold with_pending, with_events. simpl. rewrite <- !app_assoc. simpl.
  destruct (JSON.parse group1); reflexivity.
Qed.

Lemma exchange_sse_no_data (url req : string) (s : State) (r : Response)
  (rest : list (option Response)) :
  pending s = Some r :: rest ->
  ok r = true ->
  is_event_stream (content_type r) = true ->
  JS.match_data (body r) = None ->
  exchange url req s
  = (Ok JUndefined,
     with_pending rest
       (with_events [CallFetch url (post_init req); BodyText] s)).
Proof.
  intros Hp Hok Hct Hm. unfold exchange, bind, fetch, bind, record. simpl.
  rewrite Hp. rewrite Hok, Hct. simpl.
  unfold response_text, bind, record, ret. simpl. rewrite Hm.
  unfold with_pending, with_events. simpl. rewrite <- !app_assoc. reflexivity.
Qed.

(** The error of a non-2xx reply determines the status and the status text
    it was built from. *)
Lemma http_error_inj (r r' : Response) :
  http_error r = http_error r' ->
  status r = status r' /\ statusText r = statusText r'.
Proof.
  unfold http_error. intros H. injection H as H.
  apply numeral_colon_split in H; try apply string_of_Z_numeral.
  destruct H as [Hs Ht]. split; [apply string_of_Z_inj|]; assumption.
Qed.

(** An exchange sends exactly one request, with the body it was given. *)
Lemma exchange_sends (url req : string) (s : State) :
  sent_bodies (trace (snd (exchange url req s)))
  = (sent_bodies (trace s) ++ [req])%list.
Proof.
  destruct (pending s) as [|[r|] rest] eqn:Hp.
  - rewrite exchange_no_reply by assumption. simpl.
    rewrite sent_bodies_app. reflexivity.
  - destruct (ok r) eqn:Hok.
    + destruct (is_event_stream (content_type r)) eqn:Hct.
      * destruct (JS.match_data (body r)) as [g|] eqn:Hm.
        -- erewrite exchange_sse_data by eassumption. simpl.
           rewrite sent_bodies_app. reflexivity.
        -- erewrite exchange_sse_no_data by eassumption. simpl.
           rewrite sent_bodies_app. reflexivity.
      * erewrite exchange_json by eassumption. simpl.
        rewrite sent_bodies_app. reflexivity.
    + erewrite exchange_not_ok by eassumption. simpl.
      rewrite sent_bodies_app. reflexivity.
  - erewrite exchange_failed by eassumption. simpl.
    rewrite sent_bodies_app. reflexivity.
Qed.

Lemma basic_makeRequest_sends (this : Basic.AlloyMCPClient) (method : string)
  (params : jsval) (s : State) :
  sent_bodies (trace (snd (Basic.makeRequest this method params s)))
  = (sent_bodies (trace s)
       ++ [JSON.stringify
             (envelope method (requestId s)
                (if JS.truthy params then Some params else None))])%list.
Proof. rewrite basic_makeRequest_run, exchange_sends. reflexivity. Qed.

Lemma execute_makeRequest_sends (serverUrl : jsval) (url method : string)
  (params : jsval) (s : State) :
  JS.to_string serverUrl = Some url ->
  sent_bodies (trace (snd (ExecuteRoute.makeRequest serverUrl method params s)))
  = (sent_bodies (trace s)
       ++ [JSON.stringify
             (envelope method (next_random_id s)
                (if JS.truthy params then Some params else None))])%list.
Proof.
  intros Hurl. rewrite (execute_makeRequest_run _ url) by exact Hurl.
  rewrite exchange_sends. reflexivity.
Qed.

Lemma exchange_requestId (url req : string) (s : State) :
  requestId (snd (exchange url req s)) = requestId s.
Proof.
  destruct (pending s) as [|[r|] rest] eqn:Hp.
  - rewrite exchange_no_reply by assumption. reflexivity.
  - destruct (ok r) eqn:Hok.
    + destruct (is_event_stream (content_type r)) eqn:Hct.
      * destruct (JS.match_data (body r)) as [g|] eqn:Hm.
        -- erewrite exchange_sse_data by eassumption. reflexivity.
        -- erewrite exchange_sse_no_data by eassumption. reflexivity.
      * erewrite exchange_json by eassumption. reflexivity.
    + erewrite exchange_not_ok by eassumption. reflexivity.
  - erewrite exchange_failed by eassumption. reflexivity.
Qed.

Lemma basic_makeRequest_requestId (this : Basic.AlloyMCPClient)
  (method : string) (params : jsval) (s : State) :
  requestId (snd (Basic.makeRequest this method params s))
  = js_succ (requestId s).
Proof. rewrite basic_makeRequest_run, exchange_requestId. reflexivity. Qed.

(** For every 2xx event-stream reply in which [data: ] is nowhere followed by
    a character, a call resolves to [undefined]. *)
Lemma event_stream_without_data (this : Basic.AlloyMCPClient)
  (method : string) (params : jsval) (s : State) (r : Response)
  (rest : list (option Response)) :
  pending s = Some r :: rest ->
  ok r = true ->
  is_event_stream (content_type r) = true ->
  JS.match_data (body r) = None ->
  fst (Basic.makeRequest this method params s) = Ok JUndefined.
Proof.
  intros Hp Hok Hct Hm. rewrite basic_makeRequest_run.
  erewrite exchange_sse_no_data by (try eassumption; exact Hp). reflexivity.
Qed.

Lemma exchange_decoded (url req : string) (s : State) (r : Response)
  (rest : list (option Response)) (E : jsval) :
  pending s = Some r :: rest ->
  decoded r = Some E ->
  exchange url req s
  = (Ok E,
     with_pending rest
       (with_events (CallFetch url (post_init req) :: reply_events r) s)).
Proof.
  intros Hp Hd. unfold decoded, reply_text, reply_events in *.
  destruct (ok r) eqn:Hok; [|discriminate].
  destruct (is_event_stream (content_type r)) eqn:Hct.
  - destruct (JS.match_data (body r)) as [text|] eqn:Hm; [|discriminate].
    erewrite exchange_sse_data by eassumption.
    unfold parse_outcome. rewrite Hd. reflexivity.
  - erewrite exchange_json by eassumption.
    unfold parse_outcome. rewrite Hd. reflexivity.
Qed.

Lemma exchange_outcome (url req : string) (s : State) (r : Response)
  (rest : list (option Response)) (text : string) :
  pending s = Some r :: rest ->
  ok r = true ->
  reply_text r = Some text ->
  fst (exchange url req s) = parse_outcome text.
Proof.
  intros Hp Hok Ht. unfold reply_text in Ht.
  destruct (is_event_stream (content_type r)) eqn:Hct.
  - erewrite exchange_sse_data by eassumption. reflexivity.
  - injection Ht as <-. erewrite exchange_json by eassumption. reflexivity.
Qed.

Lemma execute_makeRequest_decoded (serverUrl : jsval) (url method : string)
  (params : jsval) (s : State) (r : Response) (rest : list (option Response))
  (E : jsval) :
  JS.to_string serverUrl = Some url ->
  pending s = Some r :: rest ->
  decoded r = Some E ->
  exists s', ExecuteRoute.makeRequest serverUrl method params s = (Ok E, s').
Proof.
  intros Hurl Hp Hd. eexists.
  rewrite (execute_makeRequest_run _ url) by exact Hurl.
  erewrite exchange_decoded by (try exact Hd; exact Hp). reflexivity.
Qed.

Lemma basic_makeRequest_decoded (this : Basic.AlloyMCPClient) (method : string)
  (params : jsval) (s : State) (r : Response) (rest : list (option Response))
  (E : jsval) :
  pending s = Some r :: rest ->
  decoded r = Some E ->
  exists s', Basic.makeRequest this method params s = (Ok E, s').
Proof.
  intros Hp Hd. eexists. rewrite basic_makeRequest_run.
  erewrite exchange_decoded by (try exact Hd; exact Hp). reflexivity.
Qed.

(** ** The first data line of an event stream *)

Lemma dots_line (payload rest : string) :
  all_chars no_terminator payload = true ->
  ends_line rest = true ->
  JS.dots (payload ++ rest) = payload.
Proof.
  intros Hp Hr. induction payload as [|c p IH]; simpl in *.
  - destruct rest as [|c r]; [reflexivity|]. simpl in *. rewrite Hr. reflexivity.
  - apply andb_true_iff in Hp as [Hc Hp]. unfold no_terminator in Hc.
    apply negb_true_iff in Hc. rewrite Hc, IH by assumption. reflexivity.
Qed.

Lemma at_line_start_tail (c : ascii) (pre : string) :
  at_line_start (String c pre) = true -> at_line_start pre = true.
Proof. destruct pre; simpl; auto. Qed.

Lemma match_data_tail (c : ascii) (pre : string) :
  JS.match_data (String c pre) = None -> JS.match_data pre = None.
Proof.
  cbn [JS.match_data].
  destruct (JS.strip_prefix "data: " (String c pre)) as [after|]; [|auto].
  destruct (JS.is_empty (JS.dots after)); [auto | discriminate].
Qed.

Ltac split_eqb :=
  match goal with
  | |- context [Ascii.eqb ?x ?y] =>
      destruct (Ascii.eqb_spec x y); [subst|]
  end.

(** The capture of [/data: (.+)/] is the payload of the first line
    [data: <payload>] before which the pattern does not match. *)
Lemma match_data_first_line (pre payload rest : string) :
  JS.match_data pre = None ->
  at_line_start pre = true ->
  JS.is_empty payload = false ->
  all_chars no_terminator payload = true ->
  ends_line rest = true ->
  JS.match_data (pre ++ "data: " ++ payload ++ rest) = Some payload.
Proof.
  intros Hm Hs Hne Hp Hr.
  assert (JS.dots (payload ++ rest) = payload) as Hd by (apply dots_line; assumption).
  induction pre as [|c pre IH].
  - simpl. rewrite Hd, Hne. reflexivity.
  - specialize (IH (match_data_tail _ _ Hm) (at_line_start_tail _ _ Hs)).
    change (String c pre ++ "data: " ++ payload ++ rest)
      with (String c (pre ++ "data: " ++ payload ++ rest)).
    cbn [JS.match_data]. rewrite IH.
    destruct pre as [|c1 [|c2 [|c3 [|c4 [|c5 pre]]]]];
      cbn [JS.strip_prefix String.append];
      repeat split_eqb; try reflexivity;
      try (cbn in Hs; discriminate Hs).
    cbn [JS.match_data JS.strip_prefix] in Hm.
    rewrite !Ascii.eqb_refl in Hm.
    destruct pre as [|x pre]; [cbn in Hs; discriminate Hs|].
    cbn [JS.dots String.append] in *.
    destruct (JS.is_line_terminator x); [reflexivity|].
    cbn in Hm. discriminate Hm.
Qed.

(** ** The line terminators in a serialization

    A serialization holds no line feed and no carriage return: they are
    written as escapes.  The two separators are written as they are. *)

Lemma escape_char_no_break (c : ascii) :
  all_chars no_break (JSON.escape_char c) = true.
Proof.
  destruct c as [[] [] [] [] [] [] [] []]; reflexivity.
Qed.

Lemma escape_no_break (s : string) :
  all_chars no_break (JSON.escape s) = true.
Proof.
  induction s as [|c s IH]; simpl; [reflexivity|].
  rewrite all_chars_app, escape_char_no_break, IH. reflexivity.
Qed.

Lemma quote_no_break (s : string) :
  all_chars no_break (JSON.quote s) = true.
Proof.
  unfold JSON.quote. simpl. rewrite all_chars_app, escape_no_break. reflexivity.
Qed.

Lemma numeral_no_break (n : Z) :
  all_chars no_break (JS.string_of_Z n) = true.
Proof.
  apply (all_chars_weaken numeral_char); [|apply string_of_Z_numeral].
  intros c Hc. unfold numeral_char in Hc. unfold no_break.
  destruct c as [[] [] [] [] [] [] [] []]; try reflexivity; discriminate Hc.
Qed.

Lemma join_no_break (parts : list string) :
  Forall (fun t => all_chars no_break t = true) parts ->
  all_chars no_break (JS.join "," parts) = true.
Proof.
  induction 1 as [|t parts Ht Hparts IH]; [reflexivity|].
  destruct parts as [|u parts]; [exact Ht|].
  change (JS.join "," (t :: u :: parts))
    with (t ++ "," ++ JS.join "," (u :: parts)).
  rewrite !all_chars_app, Ht, IH. reflexivity.
Qed.

Lemma serialize_no_break (v : jsval) :
  forall t, JSON.serialize v = Some t -> all_chars no_break t = true.
Proof.
  induction v as [| |b|n|s|xs IH|kvs IH] using jsval_ind; intros t Ht;
    simpl in Ht; try discriminate; injection Ht as <-.
  - reflexivity.
  - destruct b; reflexivity.
  - apply numeral_no_break.
  - apply quote_no_break.
  - cbn [String.append all_chars]. rewrite all_chars_app.
    rewrite join_no_break; [reflexivity|].
    induction IH as [|x xs Hx _ IHxs]; simpl; constructor; [|exact IHxs].
    destruct (JSON.serialize x) as [u|]; [apply Hx|]; reflexivity.
  - cbn [String.append all_chars]. rewrite all_chars_app.
    rewrite join_no_break; [reflexivity|].
    induction IH as [|[k x] kvs Hx _ IHkvs]; [constructor|].
    cbn [snd] in Hx. destruct (JSON.serialize x) as [u|] eqn:Hu;
      [|exact IHkvs].
    constructor; [|exact IHkvs].
    change (all_chars no_break (JSON.quote k ++ ":" ++ u) = true).
    rewrite !all_chars_app, quote_no_break, (Hx u eq_refl). reflexivity.
Qed.

Lemma stringify_no_break (v : jsval) :
  all_chars no_break (JSON.stringify v) = true.
Proof.
  unfold JSON.stringify. destruct (JSON.serialize v) as [t|] eqn:Ht.
  - exact (serialize_no_break v t Ht).
  - reflexivity.
Qed.

Lemma one_line (t : string) :
  all_chars no_break t = true ->
  all_chars no_separator t = true ->
  all_chars no_terminator t = true.
Proof.
  induction t as [|c t IH]; [reflexivity|]. cbn [all_chars].
  intros Hb Hs. apply andb_true_iff in Hb as [Hb Hb'].
  apply andb_true_iff in Hs as [Hs Hs']. rewrite (IH Hb' Hs'), andb_true_r.
  unfold no_terminator, JS.is_line_terminator.
  unfold no_break in Hb. unfold no_separator in Hs.
  apply negb_true_iff in Hb. apply negb_true_iff in Hs.
  rewrite <- orb_assoc, Hb, Hs. reflexivity.
Qed.

(** A serialization without the two separators is one line. *)
Lemma stringify_one_line (v : jsval) :
  all_chars no_separator (JSON.stringify v) = true ->
  all_chars no_terminator (JSON.stringify v) = true.
Proof. apply one_line, stringify_no_break. Qed.

Lemma stringify_nonempty (v : jsval) : JS.is_empty (JSON.stringify v) = false.
Proof.
  unfold JSON.stringify. destruct v as [| |[]|n|s|xs|kvs]; try reflexivity.
  apply string_of_Z_nonempty.
Qed.

Lemma reply_text_first_line (r : Response) (pre rest : string) (E : jsval) :
  is_event_stream (content_type r) = true ->
  body r = pre ++ "data: " ++ JSON.stringify E ++ rest ->
  JS.match_data pre = None ->
  at_line_start pre = true ->
  ends_line rest = true ->
  all_chars no_separator (JSON.stringify E) = true ->
  reply_text r = Some (JSON.stringify E).
Proof.
  intros Hct Hbody Hpre Hstart Hrest Hsep. unfold reply_text.
  rewrite Hct, Hbody.
  apply match_data_first_line; try assumption.
  - apply stringify_nonempty.
  - apply stringify_one_line, Hsep.
Qed.

(** ** Numerals and strings, read back *)

Lemma delimited_not_digit (rest : string) :
  delimited rest = true ->
  match rest with
  | EmptyString => True
  | String c _ => JSON.digit_val c = None
  end.
Proof.
  destruct rest as [|c rest]; [trivial|]. simpl.
  intros H. apply orb_true_iff in H as [H|H]; [apply orb_true_iff in H as [H|H]|];
    apply Ascii.eqb_eq in H; subst c; reflexivity.
Qed.

Lemma parse_digits_uint (d : Decimal.uint) (acc : Z) (rest : string) :
  delimited rest = true ->
  JSON.parse_digits acc (NilEmpty.string_of_uint d ++ rest)
  = (uint_value acc d, rest).
Proof.
  intros Hr. revert acc.
  induction d; intros acc; cbn [NilEmpty.string_of_uint String.append uint_value];
    try (cbn [JSON.parse_digits];
         match goal with
         | |- context [JSON.digit_val ?c] =>
             change (JSON.digit_val c) with (Some (Z.of_N (N_of_ascii c) - 48))
         end; cbv beta iota; rewrite IHd; reflexivity).
  destruct rest as [|c rest]; [reflexivity|].
  cbn [JSON.parse_digits]. rewrite (delimited_not_digit _ Hr). reflexivity.
Qed.

Lemma uint_value_acc (d : Decimal.uint) (acc : positive) :
  uint_value (Z.pos acc) d = Z.pos (Pos.of_uint_acc d acc).
Proof.
  revert acc. induction d; intros acc; cbn [uint_value Pos.of_uint_acc];
    try reflexivity; rewrite <- IHd; f_equal; lia.
Qed.

Lemma uint_value_of_uint (d : Decimal.uint) :
  uint_value 0 d = Z.of_N (Pos.of_uint d).
Proof.
  induction d; cbn [uint_value Pos.of_uint]; try reflexivity;
    try exact IHd; apply (uint_value_acc d 1) || idtac.
  all: try (change (0 * 10 + 1) with (Z.pos 1); apply uint_value_acc).
Qed.

Lemma nzhead_not_D0 (d l : Decimal.uint) : Decimal.nzhead d <> Decimal.D0 l.
Proof. induction d; simpl; try discriminate. exact IHd. Qed.

Lemma to_uint_normal (p : positive) :
  Decimal.unorm (Pos.to_uint p) = Pos.to_uint p.
Proof.
  rewrite <- DecimalPos.Unsigned.to_of, DecimalPos.Unsigned.of_to. reflexivity.
Qed.

Lemma to_uint_leading (p : positive) :
  match Pos.to_uint p with
  | Decimal.Nil | Decimal.D0 _ => False
  | _ => True
  end.
Proof.
  pose proof (to_uint_normal p) as Hn.
  pose proof (DecimalPos.Unsigned.to_uint_nonzero p) as Hz.
  pose proof (DecimalPos.Unsigned.to_uint_nonnil p) as Hnil.
  destruct (Pos.to_uint p) as [|l| | | | | | | | |]; try exact I.
  - apply Hnil. reflexivity.
  - unfold Decimal.unorm in Hn.
    destruct (Decimal.nzhead (Decimal.D0 l)) eqn:Hh;
      try (injection Hn as Hn; subst; apply Hz; reflexivity);
      try discriminate Hn.
    exact (nzhead_not_D0 _ _ Hh).
Qed.

Lemma delimited_not_fraction (rest : string) :
  delimited rest = true ->
  match rest with
  | EmptyString => true
  | String c _ =>
      negb (Ascii.eqb c "."%char || Ascii.eqb c "e"%char || Ascii.eqb c "E"%char)
  end = true.
Proof.
  destruct rest as [|c rest]; [trivial|]. simpl.
  intros H. apply orb_true_iff in H as [H|H]; [apply orb_true_iff in H as [H|H]|];
    apply Ascii.eqb_eq in H; subst c; reflexivity.
Qed.

Lemma parse_nat_literal_digits (c : ascii) (k : Z) (l : Decimal.uint)
  (rest : string) :
  JSON.digit_val c = Some k ->
  k <> 0 ->
  delimited rest = true ->
  JSON.parse_nat_literal (String c (NilEmpty.string_of_uint l ++ rest))
  = Some (uint_value k l, rest).
Proof.
  intros Hc Hk Hr. unfold JSON.parse_nat_literal. rewrite Hc.
  destruct (Z.eqb_spec k 0) as [|_]; [contradiction|].
  rewrite (parse_digits_uint l k rest Hr).
  pose proof (delimited_not_fraction rest Hr) as Hf.
  destruct rest as [|c' rest]; [reflexivity|].
  apply negb_true_iff in Hf. rewrite Hf. reflexivity.
Qed.

Lemma parse_nat_literal_pos (p : positive) (rest : string) :
  delimited rest = true ->
  JSON.parse_nat_literal (NilEmpty.string_of_uint (Pos.to_uint p) ++ rest)
  = Some (Z.pos p, rest).
Proof.
  intros Hr.
  assert (uint_value 0 (Pos.to_uint p) = Z.pos p) as Hv.
  { rewrite uint_value_of_uint, DecimalPos.Unsigned.of_to. reflexivity. }
  pose proof (to_uint_leading p) as Hl.
  destruct (Pos.to_uint p) as [|l|l|l|l|l|l|l|l|l|l]; try contradiction;
    cbn [NilEmpty.string_of_uint String.append];
    rewrite <- Hv; cbn [uint_value];
    (apply parse_nat_literal_digits; [reflexivity | cbv; discriminate | exact Hr]).
Qed.

Lemma parse_number_numeral (n : Z) (rest : string) :
  delimited rest = true ->
  JSON.parse_number (JS.string_of_Z n ++ rest) = Some (n, rest).
Proof.
  intros Hr. unfold JS.string_of_Z.
  destruct n as [|p|p]; cbn [Z.to_int NilZero.string_of_int].
  - cbn. pose proof (delimited_not_fraction rest Hr) as Hf.
    destruct rest as [|c' rest]; [reflexivity|].
    apply negb_true_iff in Hf. rewrite Hf. reflexivity.
  - unfold NilZero.string_of_uint.
    pose proof (to_uint_leading p) as Hl.
    pose proof (parse_nat_literal_pos p rest Hr) as Hp.
    destruct (Pos.to_uint p) as [|l|l|l|l|l|l|l|l|l|l]; try contradiction;
      cbn [NilEmpty.string_of_uint String.append] in *;
      unfold JSON.parse_number;
      match goal with
      | |- context [Ascii.eqb ?c "-"] => change (Ascii.eqb c "-") with false
      end; cbv iota; exact Hp.
  - unfold NilZero.string_of_uint.
    pose proof (DecimalPos.Unsigned.to_uint_nonnil p) as Hnil.
    pose proof (parse_nat_literal_pos p rest Hr) as Hp.
    destruct (Pos.to_uint p) eqn:Hd; try (exfalso; apply Hnil; reflexivity);
      cbn [String.append]; unfold JSON.parse_number;
      rewrite Ascii.eqb_refl; rewrite Hp; reflexivity.
Qed.

Lemma parse_chars_escape_char (c : ascii) (tail : string) :
  JSON.parse_chars (JSON.escape_char c ++ tail)
  = JSON.push c (JSON.parse_chars tail).
Proof.
  destruct c as [[] [] [] [] [] [] [] []]; reflexivity.
Qed.

Lemma parse_chars_escape (s rest : string) :
  JSON.parse_chars (JSON.escape s ++ String JS.dquote rest) = Some (s, rest).
Proof.
  induction s as [|c s IH].
  - reflexivity.
  - cbn [JSON.escape]. rewrite append_assoc, parse_chars_escape_char, IH.
    reflexivity.
Qed.

Lemma parse_chars_quote (s rest : string) :
  exists tail,
    JSON.quote s ++ rest = String JS.dquote tail
    /\ JSON.parse_chars tail = Some (s, rest).
Proof.
  eexists. split.
  - unfold JSON.quote. cbn [String.append]. rewrite append_assoc. reflexivity.
  - apply parse_chars_escape.
Qed.

(** ** Serializations of JSON data *)

Lemma serialize_clean (v : jsval) :
  clean v = true -> JSON.serialize v = Some (text_of v).
Proof.
  unfold text_of. destruct v; try reflexivity. discriminate.
Qed.

Lemma serialize_array (xs : list jsval) :
  JSON.serialize (JArr xs)
  = Some ("[" ++ JS.join "," (map text_of xs) ++ "]").
Proof. reflexivity. Qed.

Lemma serialize_object (kvs : list (string * jsval)) :
  forallb (fun kv => clean (snd kv)) kvs = true ->
  JSON.serialize (JObj kvs)
  = Some ("{" ++ JS.join "," (map member_text kvs) ++ "}").
Proof.
  intros Hc. cbn [JSON.serialize]. do 4 f_equal.
  induction kvs as [|[k x] kvs IH]; [reflexivity|].
  cbn [forallb snd] in Hc. apply andb_true_iff in Hc as [Hx Hc].
  cbn [map]. unfold member_text at 1. cbn [fst snd].
  rewrite (serialize_clean x Hx). rewrite (IH Hc).
  unfold text_of. rewrite (serialize_clean x Hx). reflexivity.
Qed.

Lemma text_of_array (xs : list jsval) :
  text_of (JArr xs) = "[" ++ JS.join "," (map text_of xs) ++ "]".
Proof. reflexivity. Qed.

Lemma text_of_object (kvs : list (string * jsval)) :
  forallb (fun kv => clean (snd kv)) kvs = true ->
  text_of (JObj kvs) = "{" ++ JS.join "," (map member_text kvs) ++ "}".
Proof.
  intros Hc.
  change (text_of (JObj kvs))
    with (match JSON.serialize (JObj kvs) with Some t => t | None => "null" end).
  rewrite (serialize_object kvs Hc). reflexivity.
Qed.

Lemma numeral_char_plain (c : ascii) :
  numeral_char c = true ->
  JSON.is_ws c = false
  /\ Ascii.eqb c "]"%char = false /\ Ascii.eqb c "}"%char = false
  /\ Ascii.eqb c "n"%char = false /\ Ascii.eqb c "t"%char = false
  /\ Ascii.eqb c "f"%char = false /\ Ascii.eqb c JS.dquote = false
  /\ Ascii.eqb c "["%char = false /\ Ascii.eqb c "{"%char = false.
Proof.
  destruct c as [[] [] [] [] [] [] [] []]; intros H; try discriminate H;
    repeat split; reflexivity.
Qed.

Lemma numeral_head (n : Z) :
  exists c t', JS.string_of_Z n = String c t' /\ numeral_char c = true.
Proof.
  pose proof (string_of_Z_numeral n) as Hn.
  pose proof (string_of_Z_nonempty n) as He.
  destruct (JS.string_of_Z n) as [|c t']; [discriminate|].
  exists c, t'. split; [reflexivity|].
  cbn [all_chars] in Hn. apply andb_true_iff in Hn as [Hc _]. exact Hc.
Qed.

Lemma text_starts_value (v : jsval) : starts_value (text_of v).
Proof.
  unfold starts_value, text_of.
  destruct v as [| |[]|n|s|xs|kvs]; cbn [JSON.serialize];
    try (eexists; eexists; split; [reflexivity|]; repeat split; reflexivity).
  destruct (numeral_head n) as [c [t' [-> Hc]]].
  exists c, t'. split; [reflexivity|].
  destruct (numeral_char_plain c Hc) as [H1 [H2 [H3 _]]]. auto.
Qed.

Lemma text_nonempty (v : jsval) : (1 <= String.length (text_of v))%nat.
Proof.
  unfold text_of. destruct v as [| |[]|n|s|xs|kvs]; cbn [JSON.serialize];
    try (simpl; lia).
  pose proof (string_of_Z_nonempty n) as H.
  destruct (JS.string_of_Z n); [discriminate | simpl; lia].
Qed.

(** ** Parsing a serialization *)

Lemma skip_ws_start (c : ascii) (t : string) :
  JSON.is_ws c = false -> JSON.skip_ws (String c t) = String c t.
Proof. intros H. cbn [JSON.skip_ws]. rewrite H. reflexivity. Qed.

Lemma skip_ws_lit (c : ascii) (tail : string) :
  JSON.is_ws c = false -> JSON.skip_ws (String c EmptyString ++ tail) = String c tail.
Proof. intros H. cbn [String.append JSON.skip_ws]. rewrite H. reflexivity. Qed.

Lemma parse_value_S (fuel : nat) (s : string) :
  JSON.parse_value (S fuel) s
  = match JSON.skip_ws s with
    | EmptyString => None
    | String c rest as s' =>
        if Ascii.eqb c "n"%char then JSON.expect "null" JNull s'
        else if Ascii.eqb c "t"%char then JSON.expect "true" (JBool true) s'
        else if Ascii.eqb c "f"%char then JSON.expect "false" (JBool false) s'
        else if Ascii.eqb c JS.dquote then
          match JSON.parse_chars rest with
          | Some (str, rest') => Some (JStr str, rest')
          | None => None
          end
        else if Ascii.eqb c "["%char then
          match JSON.skip_ws rest with
          | String "]"%char rest' => Some (JArr [], rest')
          | _ => JSON.parse_elements fuel rest []
          end
        else if Ascii.eqb c "{"%char then
          match JSON.skip_ws rest with
          | String "}"%char rest' => Some (JObj [], rest')
          | _ => JSON.parse_members fuel rest []
          end
        else
          match JSON.parse_number s' with
          | Some (n, rest') => Some (JNum n, rest')
          | None => None
          end
    end.
Proof. reflexivity. Qed.

Lemma parse_elements_S (fuel : nat) (s : string) (acc : list jsval) :
  JSON.parse_elements (S fuel) s acc
  = match JSON.parse_value fuel s with
    | Some (v, rest) =>
        match JSON.skip_ws rest with
        | String c rest' =>
            if Ascii.eqb c ","%char
            then JSON.parse_elements fuel rest' (acc ++ [v])
            else if Ascii.eqb c "]"%char then Some (JArr (acc ++ [v]), rest')
            else None
        | EmptyString => None
        end
    | None => None
    end.
Proof. reflexivity. Qed.

Lemma parse_members_S (fuel : nat) (s : string) (acc : list (string * jsval)) :
  JSON.parse_members (S fuel) s acc
  = match JSON.skip_ws s with
    | String c rest =>
        if Ascii.eqb c JS.dquote then
          match JSON.parse_chars rest with
          | Some (k, rest1) =>
              match JSON.skip_ws rest1 with
              | String c1 rest2 =>
                  if Ascii.eqb c1 ":"%char then
                    match JSON.parse_value fuel rest2 with
                    | Some (v, rest3) =>
                        match JSON.skip_ws rest3 with
                        | String c3 rest4 =>
                            if Ascii.eqb c3 ","%char
                            then JSON.parse_members fuel rest4 (JS.set_prop k v acc)
                            else if Ascii.eqb c3 "}"%char
                            then Some (JObj (JS.set_prop k v acc), rest4)
                            else None
                        | EmptyString => None
                        end
                    | None => None
                    end
                  else None
              | EmptyString => None
              end
          | None => None
          end
        else None
    | EmptyString => None
    end.
Proof. reflexivity. Qed.

Lemma join_cons {A : Type} (f : A -> string) (sep t : string) (y : A)
  (ys : list A) :
  JS.join sep (t :: map f (y :: ys)) = t ++ sep ++ JS.join sep (map f (y :: ys)).
Proof. reflexivity. Qed.

Lemma expect_literal (p : string) (v : jsval) (rest : string) :
  JSON.expect p v (p ++ rest) = Some (v, rest).
Proof.
  unfold JSON.expect.
  assert (JS.strip_prefix p (p ++ rest) = Some rest) as ->; [|reflexivity].
  induction p as [|c p IH]; [reflexivity|].
  cbn [String.append JS.strip_prefix]. rewrite Ascii.eqb_refl. exact IH.
Qed.

Lemma parse_elements_texts (xs : list jsval) :
  xs <> [] ->
  Forall parses xs ->
  forallb clean xs = true ->
  forall acc fuel rest,
    (list_sum (map (fun x => S (need x)) xs) <= fuel)%nat ->
    delimited rest = true ->
    JSON.parse_elements fuel (JS.join "," (map text_of xs) ++ "]" ++ rest) acc
    = Some (JArr (acc ++ xs), rest).
Proof.
  intros Hne HP. induction HP as [|x xs Hx _ IH]; [contradiction|].
  intros Hc acc fuel rest Hfuel Hr.
  cbn [forallb] in Hc. apply andb_true_iff in Hc as [Hcx Hcxs].
  cbn [map list_sum] in Hfuel.
  destruct fuel as [|fuel]; [simpl in Hfuel; lia|].
  rewrite parse_elements_S.
  destruct xs as [|y xs].
  - cbn [map JS.join].
    rewrite (Hx Hcx fuel ("]" ++ rest)) by (simpl in *; try lia; reflexivity).
    rewrite skip_ws_lit by reflexivity. reflexivity.
  - change (map text_of (x :: y :: xs))
      with (text_of x :: map text_of (y :: xs)).
    rewrite join_cons, !append_assoc.
    rewrite (Hx Hcx fuel ("," ++ _)) by (simpl in *; try lia; reflexivity).
    rewrite skip_ws_lit by reflexivity. rewrite Ascii.eqb_refl.
    rewrite IH; try assumption; try discriminate.
    + rewrite <- app_assoc. reflexivity.
    + simpl in *. lia.
Qed.

Lemma set_prop_fresh (k : string) (v : jsval) (acc : list (string * jsval)) :
  existsb (String.eqb k) (map fst acc) = false ->
  JS.set_prop k v acc = (acc ++ [(k, v)])%list.
Proof.
  induction acc as [|[k' v'] acc IH]; [reflexivity|].
  cbn [map fst existsb JS.set_prop app]. intros H.
  apply orb_false_iff in H as [Hk H]. rewrite Hk, (IH H). reflexivity.
Qed.

Lemma distinct_app_head (acc : list string) (k : string) (ks : list string) :
  distinct (acc ++ k :: ks) = true ->
  existsb (String.eqb k) acc = false /\ distinct ((acc ++ [k]) ++ ks) = true.
Proof.
  intros H. rewrite <- app_assoc. split; [|exact H].
  induction acc as [|a acc IH]; [reflexivity|].
  cbn [app distinct existsb] in *. apply andb_true_iff in H as [Ha H].
  rewrite (IH H), orb_false_r. apply negb_true_iff in Ha.
  rewrite existsb_app in Ha. apply orb_false_iff in Ha as [_ Ha].
  cbn [existsb] in Ha. apply orb_false_iff in Ha as [Ha _].
  rewrite String.eqb_sym. exact Ha.
Qed.

Lemma parse_members_texts (kvs : list (string * jsval)) :
  kvs <> [] ->
  Forall (fun kv => parses (snd kv)) kvs ->
  forallb (fun kv => clean (snd kv)) kvs = true ->
  forall acc fuel rest,
    distinct (map fst (acc ++ kvs)) = true ->
    (list_sum (map (fun kv => S (need (snd kv))) kvs) <= fuel)%nat ->
    delimited rest = true ->
    JSON.parse_members fuel (JS.join "," (map member_text kvs) ++ "}" ++ rest) acc
    = Some (JObj (acc ++ kvs), rest).
Proof.
  intros Hne HP. induction HP as [|[k x] kvs Hx _ IH]; [contradiction|].
  intros Hc acc fuel rest Hd Hfuel Hr.
  cbn [forallb snd] in Hc. apply andb_true_iff in Hc as [Hcx Hckvs].
  cbn [map list_sum snd] in Hfuel. cbn [snd] in Hx.
  destruct fuel as [|fuel]; [simpl in Hfuel; lia|].
  rewrite map_app in Hd. cbn [map fst] in Hd.
  apply distinct_app_head in Hd as [Hfresh Hd].
  rewrite parse_members_S.
  assert (forall tail,
             JSON.skip_ws (member_text (k, x) ++ tail)
             = String JS.dquote
                 (JSON.escape k ++ String JS.dquote (":" ++ text_of x ++ tail)))
    as Hhead.
  { intros tail. unfold member_text, JSON.quote. cbn [fst snd].
    rewrite !append_assoc. cbn [String.append JSON.skip_ws].
    change (JSON.is_ws JS.dquote) with false. cbv iota.
    rewrite !append_assoc. reflexivity. }
  destruct kvs as [|kv kvs].
  - cbn [map JS.join]. rewrite Hhead.
    rewrite Ascii.eqb_refl, parse_chars_escape.
    rewrite skip_ws_lit by reflexivity. rewrite Ascii.eqb_refl.
    rewrite (Hx Hcx fuel ("}" ++ rest)) by (simpl in *; try lia; reflexivity).
    rewrite skip_ws_lit by reflexivity.
    change (Ascii.eqb "}" ",") with false. cbv iota.
    rewrite Ascii.eqb_refl. rewrite set_prop_fresh by exact Hfresh.
    reflexivity.
  - change (map member_text ((k, x) :: kv :: kvs))
      with (member_text (k, x) :: map member_text (kv :: kvs)).
    rewrite join_cons, append_assoc. rewrite Hhead.
    rewrite Ascii.eqb_refl, parse_chars_escape.
    rewrite skip_ws_lit by reflexivity. rewrite Ascii.eqb_refl.
    rewrite !append_assoc.
    rewrite (Hx Hcx fuel ("," ++ _)) by (simpl in *; try lia; reflexivity).
    rewrite skip_ws_lit by reflexivity. rewrite Ascii.eqb_refl.
    rewrite set_prop_fresh by exact Hfresh.
    rewrite IH; try assumption; try discriminate.
    + rewrite <- app_assoc. reflexivity.
    + rewrite !map_app. exact Hd.
    + simpl in *. lia.
Qed.

(** Parsing the serialization of JSON data gives the data back. *)
Lemma parse_value_text (v : jsval) : parses v.
Proof.
  induction v as [| |b|n|s|xs IH|kvs IH] using jsval_ind;
    intros Hc fuel rest Hfuel Hr;
    (destruct fuel as [|fuel]; [simpl in Hfuel; lia|]);
    rewrite parse_value_S.
  - discriminate Hc.
  - apply (expect_literal "null").
  - destruct b.
    + apply (expect_literal "true").
    + apply (expect_literal "false").
  - unfold text_of. cbn [JSON.serialize].
    destruct (numeral_head n) as [c [t' [Hn Hchar]]].
    pose proof (parse_number_numeral n rest Hr) as Hp.
    rewrite Hn in *. cbn [String.append] in *.
    destruct (numeral_char_plain c Hchar)
      as [Hws [_ [_ [H1 [H2 [H3 [H4 [H5 H6]]]]]]]].
    rewrite skip_ws_start by exact Hws.
    rewrite H1, H2, H3, H4, H5, H6, Hp. reflexivity.
  - unfold text_of. cbn [JSON.serialize].
    destruct (parse_chars_quote s rest) as [tail [-> Htail]].
    rewrite skip_ws_start by reflexivity.
    change (Ascii.eqb JS.dquote "n") with false.
    change (Ascii.eqb JS.dquote "t") with false.
    change (Ascii.eqb JS.dquote "f") with false.
    rewrite Ascii.eqb_refl, Htail. reflexivity.
  - unfold text_of. rewrite serialize_array.
    cbn [clean] in Hc. cbn [need] in Hfuel.
    rewrite !append_assoc. cbn [String.append JSON.skip_ws].
    change (JSON.is_ws "[") with false. cbv iota.
    change (Ascii.eqb "[" "n") with false.
    change (Ascii.eqb "[" "t") with false.
    change (Ascii.eqb "[" "f") with false.
    change (Ascii.eqb "[" JS.dquote) with false.
    rewrite Ascii.eqb_refl.
    destruct xs as [|x xs]; [reflexivity|].
    pose proof (parse_elements_texts (x :: xs) ltac:(discriminate) IH Hc
                  [] fuel rest ltac:(lia) Hr) as Hp.
    destruct (text_starts_value x) as [c [t' [Hx [Hws [Hb _]]]]].
    change (map text_of (x :: xs)) with (text_of x :: map text_of xs) in *.
    destruct xs as [|y xs].
    + cbn [map JS.join] in *. rewrite Hx in *. cbn [String.append] in *.
      rewrite skip_ws_start by exact Hws.
      destruct c as [[] [] [] [] [] [] [] []]; try discriminate Hb; exact Hp.
    + rewrite join_cons in *. rewrite Hx in *. cbn [String.append] in *.
      rewrite skip_ws_start by exact Hws.
      destruct c as [[] [] [] [] [] [] [] []]; try discriminate Hb; exact Hp.
  - unfold text_of. cbn [clean] in Hc. apply andb_true_iff in Hc as [Hd Hc].
    rewrite (serialize_object kvs Hc). cbn [need] in Hfuel.
    rewrite !append_assoc. cbn [String.append JSON.skip_ws].
    change (JSON.is_ws "{") with false. cbv iota.
    change (Ascii.eqb "{" "n") with false.
    change (Ascii.eqb "{" "t") with false.
    change (Ascii.eqb "{" "f") with false.
    change (Ascii.eqb "{" JS.dquote) with false.
    change (Ascii.eqb "{" "[") with false.
    rewrite Ascii.eqb_refl.
    destruct kvs as [|[k x] kvs]; [reflexivity|].
    pose proof (parse_members_texts ((k, x) :: kvs) ltac:(discriminate) IH Hc
                  [] fuel rest Hd ltac:(lia) Hr) as Hp.
    change ("}" ++ rest) with (String "}" rest) in Hp. revert Hp.
    assert (exists tail,
               JS.join "," (map member_text ((k, x) :: kvs)) ++ String "}" rest
               = String JS.dquote tail) as [tail ->].
    { destruct kvs as [|kv kvs].
      - cbn [map JS.join]. unfold member_text, JSON.quote. cbn [fst String.append].
        eexists. reflexivity.
      - change (map member_text ((k, x) :: kv :: kvs))
          with (member_text (k, x) :: map member_text (kv :: kvs)).
        rewrite join_cons. unfold member_text at 1, JSON.quote.
        cbn [fst String.append]. eexists. reflexivity. }
    intros Hp. exact Hp.
Qed.

Lemma list_sum_cons (a : nat) (l : list nat) :
  list_sum (a :: l) = (a + list_sum l)%nat.
Proof. reflexivity. Qed.

Lemma need_elements_bound {A : Type} (f : A -> nat) (g : A -> string)
  (xs : list A) :
  Forall (fun x => (f x <= 2 * String.length (g x))%nat) xs ->
  (list_sum (map (fun x => S (f x)) xs)
   <= 2 * String.length (JS.join "," (map g xs)) + 2)%nat.
Proof.
  induction 1 as [|x xs Hx _ IH]; [simpl; lia|].
  destruct xs as [|y xs].
  - simpl in *. lia.
  - change (map g (x :: y :: xs)) with (g x :: map g (y :: xs)).
    rewrite join_cons, !length_append.
    change (map (fun x => S (f x)) (x :: y :: xs))
      with (S (f x) :: map (fun x => S (f x)) (y :: xs)).
    rewrite list_sum_cons. change (String.length ",") with 1%nat. lia.
Qed.

Lemma need_bound (v : jsval) :
  clean v = true -> (need v <= 2 * String.length (text_of v))%nat.
Proof.
  induction v as [| |b|n|s|xs IH|kvs IH] using jsval_ind; intros Hc;
    try (match goal with
         | |- context [text_of ?v] => pose proof (text_nonempty v)
         end; cbn [need]; lia).
  - cbn [clean] in Hc. rewrite text_of_array.
    cbn [need]. rewrite !length_append.
    assert (Forall (fun x => (need x <= 2 * String.length (text_of x))%nat) xs)
      as Hall.
    { clear -IH Hc. induction IH as [|x xs Hx _ IHxs]; [constructor|].
      cbn [forallb] in Hc. apply andb_true_iff in Hc as [Hcx Hcxs].
      constructor; auto. }
    pose proof (need_elements_bound need text_of xs Hall).
    change (String.length "[") with 1%nat. change (String.length "]") with 1%nat.
    lia.
  - cbn [clean] in Hc. apply andb_true_iff in Hc as [_ Hc].
    rewrite (text_of_object kvs Hc).
    cbn [need]. rewrite !length_append.
    assert (Forall (fun kv => (need (snd kv)
                               <= 2 * String.length (member_text kv))%nat) kvs)
      as Hall.
    { clear -IH Hc. induction IH as [|kv kvs Hx _ IHkvs]; [constructor|].
      cbn [forallb] in Hc. apply andb_true_iff in Hc as [Hcx Hckvs].
      constructor; [|auto]. specialize (Hx Hcx).
      unfold member_text. rewrite !length_append. lia. }
    pose proof (need_elements_bound (fun kv => need (snd kv)) member_text kvs Hall).
    change (String.length "{") with 1%nat. change (String.length "}") with 1%nat.
    lia.
Qed.

(** [JSON.parse(JSON.stringify(v))] is [v] for JSON data [v]. *)
Theorem parse_stringify (v : jsval) :
  clean v = true -> JSON.parse (JSON.stringify v) = Some v.
Proof.
  intros Hc. unfold JSON.parse, JSON.stringify.
  rewrite (serialize_clean v Hc).
  pose proof (need_bound v Hc) as Hn.
  pose proof (parse_value_text v Hc
                (2 * String.length (text_of v) + 2)%nat EmptyString
                ltac:(lia) eq_refl) as Hp.
  rewrite append_empty_r in Hp. rewrite Hp. reflexivity.
Qed.

(** ** Request bodies, read back *)

Lemma envelope_clean (method : string) (id : Z) (params : jsval) :
  plain params = true ->
  clean (envelope method id (if JS.truthy params then Some params else None))
  = true.
Proof.
  unfold plain. intros H. destruct (JS.truthy params); [|reflexivity].
  cbn [negb orb] in H. unfold envelope. cbn. rewrite H. reflexivity.
Qed.

Lemma parse_envelope (method : string) (id : Z) (params : jsval) :
  plain params = true ->
  JSON.parse
    (JSON.stringify
       (envelope method id (if JS.truthy params then Some params else None)))
  = Some (envelope method id (if JS.truthy params then Some params else None)).
Proof. intros H. apply parse_stringify, envelope_clean, H. Qed.

Lemma body_id_envelope (method : string) (id : Z) (params : jsval) :
  plain params = true ->
  body_id
    (JSON.stringify
       (envelope method id (if JS.truthy params then Some params else None)))
  = Some id.
Proof.
  intros H. unfold body_id. rewrite (parse_envelope _ _ _ H). reflexivity.
Qed.

Lemma sent_ids_app (a b : list event) :
  sent_ids (a ++ b) = (sent_ids a ++ sent_ids b)%list.
Proof. unfold sent_ids. rewrite sent_bodies_app, map_app. reflexivity. Qed.

Lemma envelopes_body_ids (first : Z) (calls : list (string * jsval)) :
  forallb (fun call => plain (snd call)) calls = true ->
  - 2 ^ 53 <= first ->
  first + Z.of_nat (List.length calls) <= 2 ^ 53 ->
  map body_id (map JSON.stringify (envelopes first calls))
  = map Some (ids_from first (List.length calls)).
Proof.
  revert first. induction calls as [|[method params] calls IH];
    intros first Hplain Hl Hb; [reflexivity|].
  cbn [forallb snd] in Hplain. apply andb_true_iff in Hplain as [Hp Hplain].
  cbn [envelopes List.length ids_from map]. cbn [List.length] in Hb.
  rewrite js_succ_exact by lia.
  rewrite (body_id_envelope _ _ _ Hp), IH by (try assumption; lia).
  reflexivity.
Qed.

(** Every envelope of JSON data is what its two replies decode to. *)
Lemma decoded_json_reply (E : jsval) :
  clean E = true -> decoded (json_reply E) = Some E.
Proof.
  intros Hc. unfold decoded, reply_text. cbn. apply parse_stringify, Hc.
Qed.

Lemma decoded_sse_reply (E : jsval) :
  clean E = true ->
  all_chars no_separator (JSON.stringify E) = true ->
  decoded (sse_reply E) = Some E.
Proof.
  intros Hc Hsep. unfold decoded.
  rewrite (reply_text_first_line (sse_reply E)
             ("event: message" ++ JS.str1 JS.newline)
             (JS.str1 JS.newline ++ JS.str1 JS.newline) E);
    try reflexivity; try exact Hsep.
  cbn [ok sse_reply status]. cbn. apply parse_stringify, Hc.
Qed.

(** ** The operations, once the reply is decoded *)

(** The route up to the call of [makeRequest]. *)
Lemma execute_POST_run (request : string) (serverUrl toolName toolArgs : jsval)
  (s : State) :
  execute_inputs request = Some (serverUrl, toolName, toolArgs) ->
  ExecuteRoute.POST request s
  = try_catch
      (response <- ExecuteRoute.makeRequest serverUrl "tools/call"
                     (JObj [("name", toolName);
                            ("arguments", JS.or toolArgs (JObj []))]) ;;
       error <- lift (JS.get response "error") ;;
       if JS.truthy error then
         message <- lift (JS.get error "message") ;;
         text <- to_string_m message ;;
         throw (Error ("Tool execution failed: " ++ text))
       else
         result <- lift (JS.get response "result") ;;
         content <- lift (JS.get_opt result "content") ;;
         ret (NextResponse_json
                (JObj [("content", JS.or content (JArr []))]) 200))
      (fun error =>
         ret (NextResponse_json
                (JObj [("error",
                        JStr ("Failed to execute tool: " ++ error_to_string error))])
                500))
      s.
Proof.
  unfold execute_inputs. intros H.
  destruct (JSON.parse request) as [data|] eqn:Hdata; [|discriminate].
  destruct (JS.get data "serverUrl") as [u|] eqn:Hu; [|discriminate].
  destruct (JS.get data "toolName") as [t|] eqn:Ht; [|discriminate].
  destruct (JS.get data "arguments") as [a|] eqn:Ha; [|discriminate].
  destruct (JS.truthy u && JS.truthy t) eqn:Htruthy; [|discriminate].
  injection H as -> -> ->.
  apply andb_true_iff in Htruthy as [Hu' Ht'].
  unfold ExecuteRoute.POST, try_catch, request_json.
  rewrite Hdata. unfold bind at 1. unfold ret at 1.
  rewrite (bind_lift _ _ _ _ Hu), (bind_lift _ _ _ _ Ht), (bind_lift _ _ _ _ Ha).
  rewrite Hu', Ht'. cbn [negb orb].
  destruct (bind _ _ s) as [[a|e] s']; reflexivity.
Qed.

(** A call of [tools/call] through the command-line client, once the reply
    is decoded. *)
Lemma basic_executeTool_run (this : Basic.AlloyMCPClient) (toolName : string)
  (args : jsval) (s : State) (r : Response) (rest : list (option Response))
  (E : jsval) :
  pending s = Some r :: rest ->
  decoded r = Some E ->
  exists s',
    Basic.makeRequest this "tools/call"
      (JObj [("name", JStr toolName); ("arguments", args)]) s = (Ok E, s')
    /\ Basic.executeTool this toolName args s
       = (error <- lift (JS.get E "error") ;;
          if JS.truthy error then
            message <- lift (JS.get error "message") ;;
            text <- to_string_m message ;;
            throw (Error ("Tool execution failed: " ++ text))
          else lift (JS.get E "result")) s'.
Proof.
  intros Hp Hd. eexists. split.
  - rewrite basic_makeRequest_run.
    erewrite exchange_decoded by (try exact Hd; exact Hp). reflexivity.
  - unfold Basic.executeTool. unfold bind at 1. unfold console_log at 1, ret at 1.
    rewrite rethrow_run.
    erewrite bind_ok;
      [|rewrite basic_makeRequest_run;
        erewrite exchange_decoded by (try exact Hd; exact Hp); reflexivity].
    unfold bind, lift, console_log, ret.
    destruct (JS.get E "error") as [e|]; [|reflexivity].
    destruct (JS.truthy e); reflexivity.
Qed.

Lemma each_listable (ts : list jsval) (s : State) :
  Forall (fun t => listable t = true) ts ->
  Basic.each
    (fun tool =>
       name <- lift (JS.get tool "name") ;;
       name_text <- to_string_m name ;;
       description <- lift (JS.get tool "description") ;;
       description_text <- to_string_m description ;;
       console_log ("  - " ++ name_text ++ ": " ++ description_text)) ts s
  = (Ok tt, s).
Proof.
  induction 1 as [|t ts Ht _ IH]; [reflexivity|].
  cbn [Basic.each]. erewrite bind_ok; [exact IH|].
  unfold listable, printable in Ht.
  destruct (JS.get t "name") as [n|]; [|discriminate].
  destruct (JS.get t "description") as [d|]; [|discriminate].
  unfold bind, lift, to_string_m.
  destruct (JS.to_string n); [|discriminate].
  destruct (JS.to_string d); [|discriminate]. reflexivity.
Qed.

Lemma basic_listAvailableTools_run (this : Basic.AlloyMCPClient) (s : State)
  (r : Response) (rest : list (option Response)) (E error result tools : jsval) :
  pending s = Some r :: rest ->
  decoded r = Some E ->
  JS.get E "error" = Ok error ->
  JS.truthy error = false ->
  JS.get E "result" = Ok result ->
  JS.get_opt result "tools" = Ok tools ->
  (forall ts, tools = JArr ts ->
              Forall (fun t => listable t = true) ts ->
              fst (Basic.listAvailableTools this s) = Ok (JArr ts))
  /\ (JS.truthy tools = false ->
      fst (Basic.listAvailableTools this s) = Ok (JArr [])).
Proof.
  intros Hp Hd Herr Hfalsy Hres Htools.
  destruct (basic_makeRequest_decoded this "tools/list" JUndefined s r rest E Hp Hd)
    as [s' Hrun].
  assert (forall ts,
             JS.or tools (JArr []) = JArr ts ->
             Forall (fun t => listable t = true) ts ->
             fst (Basic.listAvailableTools this s) = Ok (JArr ts)) as Hmain.
  { intros ts Hor Hts. unfold Basic.listAvailableTools.
    rewrite rethrow_run.
    erewrite bind_ok by exact Hrun.
    rewrite (bind_lift _ _ _ _ Herr). rewrite Hfalsy.
    rewrite (bind_lift _ _ _ _ Hres).
    rewrite (bind_lift _ _ _ _ Htools).
    unfold JS.or in *. destruct (JS.truthy tools) eqn:Htruthy.
    - subst tools. cbn [JS.get String.eqb Ascii.eqb Bool.eqb].
      erewrite bind_lift by reflexivity.
      erewrite bind_ok by (apply to_string_m_ok; reflexivity).
      unfold bind at 1. unfold console_log at 1, ret at 1.
      cbn [Basic.forEach]. erewrite bind_ok by (apply each_listable; exact Hts).
      reflexivity.
    - injection Hor as <-. inversion Hts. reflexivity. }
  split.
  - intros ts -> Hts. apply Hmain; [reflexivity | exact Hts].
  - intros Htruthy. apply Hmain; [|constructor].
    unfold JS.or. rewrite Htruthy. reflexivity.
Qed.

Lemma getCategoryFromToolName_string (name : string) (s : State) :
  ConnectRoute.getCategoryFromToolName (JStr name) s
  = (Ok (JStr (category_of name)), s).
Proof.
  unfold ConnectRoute.getCategoryFromToolName, category_of, bind, ret.
  cbn [ConnectRoute.name_includes]. unfold ret.
  destruct (JS.includes name "connector"); [reflexivity|].
  destruct (JS.includes name "credential"); [reflexivity|].
  destruct (JS.includes name "workflow"); [reflexivity|].
  destruct (JS.includes name "embedded"); [reflexivity|].
  destruct (JS.includes name "discover"); reflexivity.
Qed.

Lemma map_m_transformed (ts us : list jsval) (s : State) :
  JS.sequence (map transformed ts) = Some us ->
  ConnectRoute.map_m
    (fun tool =>
       name <- lift (JS.get tool "name") ;;
       description <- lift (JS.get tool "description") ;;
       name' <- lift (JS.get tool "name") ;;
       category <- ConnectRoute.getCategoryFromToolName name' ;;
       inputSchema <- lift (JS.get tool "inputSchema") ;;
       ret (JObj [("name", name); ("description", description);
                  ("category", category); ("inputSchema", inputSchema)])) ts s
  = (Ok us, s).
Proof.
  revert us. induction ts as [|t ts IH]; intros us Hus.
  - injection Hus as <-. reflexivity.
  - cbn [map JS.sequence] in Hus.
    destruct (transformed t) as [u|] eqn:Hu; [|discriminate].
    destruct (JS.sequence (map transformed ts)) as [us'|]; [|discriminate].
    injection Hus as <-. cbn [ConnectRoute.map_m].
    unfold transformed in Hu.
    destruct (JS.get t "name") as [[| | | |name| |]|] eqn:Hn; try discriminate.
    destruct (JS.get t "description") as [d|] eqn:Hd; [|discriminate].
    destruct (JS.get t "inputSchema") as [i|] eqn:Hi; [|discriminate].
    injection Hu as <-.
    erewrite bind_ok.
    2:{ unfold bind at 1, lift at 1. unfold bind at 1, lift at 1.
        unfold bind at 1, lift at 1.
        erewrite bind_ok by apply getCategoryFromToolName_string.
        unfold bind at 1, lift at 1. reflexivity. }
    erewrite bind_ok by (apply IH; reflexivity). reflexivity.
Qed.

Lemma connect_POST_run (request : string) (serverUrl : jsval) (url : string)
  (s : State) (r1 r2 : Response) (rest : list (option Response))
  (E1 error1 E error result tools : jsval) :
  connect_inputs request = Some serverUrl ->
  JS.to_string serverUrl = Some url ->
  pending s = Some r1 :: Some r2 :: rest ->
  decoded r1 = Some E1 ->
  JS.get E1 "error" = Ok error1 ->
  JS.truthy error1 = false ->
  decoded r2 = Some E ->
  JS.get E "error" = Ok error ->
  JS.truthy error = false ->
  JS.get E "result" = Ok result ->
  JS.get_opt result "tools" = Ok tools ->
  (JS.truthy tools = false ->
   fst (ConnectRoute.POST request s)
   = Ok (NextResponse_json
           (JObj [("success", JBool true); ("tools", JArr [])]) 200))
  /\ (forall ts us,
         tools = JArr ts ->
         JS.sequence (map transformed ts) = Some us ->
         fst (ConnectRoute.POST request s)
         = Ok (NextResponse_json
                 (JObj [("success", JBool true); ("tools", JArr us)]) 200)).
Proof.
  intros Hin Hurl Hp Hd1 Herr1 Hfalsy1 Hd Herr Hfalsy Hres Htools.
  unfold connect_inputs in Hin.
  destruct (JSON.parse request) as [data|] eqn:Hdata; [|discriminate].
  destruct (JS.get data "serverUrl") as [u|] eqn:Hu; [|discriminate].
  destruct (JS.get data "apiKey") as [k|] eqn:Hk; [|discriminate].
  destruct (JS.truthy u) eqn:Htruthy; [|discriminate].
  injection Hin as ->.
  assert (forall us,
             (forall s', ConnectRoute.array_map "tools" (JS.or tools (JArr []))
               (fun tool =>
                  name <- lift (JS.get tool "name") ;;
                  description <- lift (JS.get tool "description") ;;
                  name' <- lift (JS.get tool "name") ;;
                  category <- ConnectRoute.getCategoryFromToolName name' ;;
                  inputSchema <- lift (JS.get tool "inputSchema") ;;
                  ret (JObj [("name", name); ("description", description);
                             ("category", category);
                             ("inputSchema", inputSchema)])) s'
             = (Ok (JArr us), s')) ->
             fst (ConnectRoute.POST request s)
             = Ok (NextResponse_json
                     (JObj [("success", JBool true); ("tools", JArr us)]) 200))
    as Hmain.
  { intros us Hmap.
    unfold ConnectRoute.POST. erewrite try_catch_ok; [reflexivity|].
    unfold request_json. rewrite Hdata. unfold bind at 1, ret at 1.
    rewrite (bind_lift _ _ _ _ Hu), (bind_lift _ _ _ _ Hk).
    rewrite Htruthy. cbn [negb].
    erewrite bind_ok.
    2:{ rewrite connect_makeRequest_eq.
        rewrite (execute_makeRequest_run _ url) by exact Hurl.
        erewrite exchange_decoded by (try exact Hd1; simpl; exact Hp).
        reflexivity. }
    rewrite (bind_lift _ _ _ _ Herr1). rewrite Hfalsy1.
    erewrite bind_ok.
    2:{ rewrite connect_makeRequest_eq.
        rewrite (execute_makeRequest_run _ url) by exact Hurl.
        erewrite exchange_decoded by (try exact Hd; reflexivity).
        reflexivity. }
    rewrite (bind_lift _ _ _ _ Herr). rewrite Hfalsy.
    rewrite (bind_lift _ _ _ _ Hres).
    rewrite (bind_lift _ _ _ _ Htools).
    erewrite bind_ok by apply Hmap. reflexivity. }
  split.
  - intros Htf. apply Hmain. intros s'. unfold JS.or. rewrite Htf. reflexivity.
  - intros ts us -> Hus. apply Hmain. intros s'. unfold JS.or. cbn [JS.truthy].
    cbn [ConnectRoute.array_map].
    erewrite bind_ok by (apply map_m_transformed; exact Hus). reflexivity.
Qed.

Lemma tools_absent_get (result : jsval) :
  tools_absent result -> JS.get_opt result "tools" = Ok JUndefined.
Proof.
  intros [->|[fields [-> Hf]]]; [reflexivity|].
  cbn [JS.get_opt JS.get]. rewrite Hf. reflexivity.
Qed.

(** ** The operations and the state

    Each operation of the client is one call of [makeRequest] as far as the
    state goes. *)

Lemma basic_executeTool_state (this : Basic.AlloyMCPClient) (toolName : string)
  (args : jsval) (s : State) :
  snd (Basic.executeTool this toolName args s)
  = snd (Basic.makeRequest this "tools/call"
           (JObj [("name", JStr toolName); ("arguments", args)]) s).
Proof.
  unfold Basic.executeTool. unfold bind at 1. unfold console_log at 1, ret at 1.
  rewrite rethrow_run. unfold bind at 1.
  destruct (Basic.makeRequest _ _ _ s) as [[E|e] s']; [|reflexivity].
  unfold bind, lift, console_log, ret, throw, to_string_m.
  destruct (JS.get E "error") as [e|]; [|reflexivity].
  destruct (JS.truthy e); [|reflexivity].
  destruct (JS.get e "message") as [m|]; [|reflexivity].
  destruct (JS.to_string m); reflexivity.
Qed.

Lemma execute_POST_state (request : string) (serverUrl toolName toolArgs : jsval)
  (s : State) :
  execute_inputs request = Some (serverUrl, toolName, toolArgs) ->
  snd (ExecuteRoute.POST request s)
  = snd (ExecuteRoute.makeRequest serverUrl "tools/call"
           (JObj [("name", toolName); ("arguments", JS.or toolArgs (JObj []))]) s).
Proof.
  intros Hin. rewrite (execute_POST_run _ _ _ _ _ Hin).
  unfold try_catch. unfold bind at 1.
  destruct (ExecuteRoute.makeRequest _ _ _ s) as [[E|e] s']; [|reflexivity].
  unfold bind, lift, ret, throw, to_string_m.
  destruct (JS.get E "error") as [e|]; [|reflexivity].
  destruct (JS.truthy e).
  - destruct (JS.get e "message") as [m|]; [|reflexivity].
    destruct (JS.to_string m); reflexivity.
  - destruct (JS.get E "result") as [res|]; [|reflexivity].
    destruct (JS.get_opt res "content"); reflexivity.
Qed.

Lemma basic_initialize_state (this : Basic.AlloyMCPClient) (s : State) :
  snd (Basic.initialize this s)
  = snd (Basic.makeRequest this "initialize" initialize_params s).
Proof.
  unfold Basic.initialize.
  unfold bind at 1. unfold console_log at 1, ret at 1.
  rewrite rethrow_run. apply bind_stateless. solve_stateless.
Qed.

Lemma basic_listAvailableTools_state (this : Basic.AlloyMCPClient) (s : State) :
  snd (Basic.listAvailableTools this s)
  = snd (Basic.makeRequest this "tools/list" JUndefined s).
Proof.
  unfold Basic.listAvailableTools. rewrite rethrow_run.
  apply bind_stateless. solve_stateless.
Qed.

Lemma basic_listResources_state (this : Basic.AlloyMCPClient) (s : State) :
  snd (Basic.listResources this s)
  = snd (Basic.makeRequest this "resources/list" JUndefined s).
Proof.
  unfold Basic.listResources. rewrite rethrow_run.
  apply bind_stateless. solve_stateless.
Qed.

Lemma basic_listPrompts_state (this : Basic.AlloyMCPClient) (s : State) :
  snd (Basic.listPrompts this s)
  = snd (Basic.makeRequest this "prompts/list" JUndefined s).
Proof.
  unfold Basic.listPrompts. rewrite rethrow_run.
  apply bind_stateless. solve_stateless.
Qed.

Lemma perform_state (this : Basic.AlloyMCPClient) (op : operation) (s : State) :
  snd (try_catch (perform this op) (fun _ => ret tt) s)
  = snd (Basic.makeRequest this (fst (call_of op)) (snd (call_of op)) s).
Proof.
  rewrite try_catch_stateless by (intros; apply stateless_ret).
  destruct op; cbn [perform call_of fst snd].
  - apply basic_initialize_state.
  - rewrite bind_stateless by (intros; apply stateless_ret).
    apply basic_listAvailableTools_state.
  - apply basic_listResources_state.
  - rewrite bind_stateless by (intros; apply stateless_ret).
    apply basic_executeTool_state.
  - rewrite bind_stateless by (intros; apply stateless_ret).
    apply basic_listPrompts_state.
Qed.

(** ** Sessions of the command-line client *)

Lemma session_sends (this : Basic.AlloyMCPClient) (ops : list operation)
  (s : State) :
  sent_bodies (trace (snd (session this ops s)))
  = (sent_bodies (trace s)
       ++ map JSON.stringify (envelopes (requestId s) (map call_of ops)))%list.
Proof.
  revert s. induction ops as [|op ops IH]; intros s.
  - simpl. rewrite app_nil_r. reflexivity.
  - cbn [session]. unfold bind at 1.
    pose proof (perform_state this op s) as Hstate.
    pose proof (swallow_ok (perform this op) s) as Hok.
    destruct (try_catch (perform this op) (fun _ => ret tt) s) as [[[]|e] s1];
      [|discriminate Hok].
    simpl in Hstate. subst s1. rewrite IH.
    rewrite basic_makeRequest_sends, basic_makeRequest_requestId.
    cbn [map envelopes]. destruct (call_of op) as [method params].
    cbn [fst snd]. rewrite <- app_assoc. reflexivity.
Qed.

Lemma envelopes_ids (first : Z) (calls : list (string * jsval)) :
  - 2 ^ 53 <= first ->
  first + Z.of_nat (List.length calls) <= 2 ^ 53 ->
  map envelope_id (envelopes first calls)
  = map Some (ids_from first (List.length calls)).
Proof.
  revert first.
  induction calls as [|[method params] calls IH]; intros first Hl Hb.
  - reflexivity.
  - cbn [envelopes List.length ids_from map]. cbn [List.length] in Hb.
    rewrite js_succ_exact by lia.
    rewrite IH by lia. reflexivity.
Qed.

Lemma ids_from_lower (first : Z) (count : nat) (n : Z) :
  In n (ids_from first count) -> first <= n.
Proof.
  revert first. induction count as [|count IH]; intros first; simpl.
  - intros [].
  - intros [<-|H]; [lia|]. apply IH in H. lia.
Qed.

Lemma ids_from_NoDup (first : Z) (count : nat) : NoDup (ids_from first count).
Proof.
  revert first. induction count as [|count IH]; intros first; simpl.
  - constructor.
  - constructor; [|apply IH]. intros H. apply ids_from_lower in H. lia.
Qed.

Lemma session_sent_ids (this : Basic.AlloyMCPClient) (ops : list operation)
  (s : State) :
  forallb plain_operation ops = true ->
  - 2 ^ 53 <= requestId s ->
  requestId s + Z.of_nat (List.length ops) <= 2 ^ 53 ->
  sent_ids (trace (snd (session this ops s)))
  = (sent_ids (trace s) ++ map Some (ids_from (requestId s) (List.length ops)))%list.
Proof.
  intros Hplain Hl Hb. unfold sent_ids. rewrite session_sends, map_app.
  rewrite envelopes_body_ids; rewrite ?length_map; try assumption; [reflexivity|].
  clear Hl Hb. induction ops as [|op ops IH]; [reflexivity|].
  cbn [forallb map snd] in *. apply andb_true_iff in Hplain as [Hop Hplain].
  unfold plain_operation in Hop. rewrite Hop, (IH Hplain). reflexivity.
Qed.

(** ** Programs over the client *)

Lemma envelopes_app (id : Z) (a b : list (string * jsval)) :
  envelopes id (a ++ b)
  = (envelopes id a ++ envelopes (succ_n (List.length a) id) b)%list.
Proof.
  revert id. induction a as [|[m p] a IH]; intros id; [reflexivity|].
  cbn [envelopes app List.length succ_n]. rewrite IH. reflexivity.
Qed.

Lemma succ_n_add (a b : nat) (id : Z) :
  succ_n (a + b) id = succ_n b (succ_n a id).
Proof. revert id. induction a as [|a IH]; intros id; simpl; auto. Qed.

Lemma advances_refl (s : State) : advances 0 s s.
Proof.
  exists []. simpl. rewrite app_nil_r. repeat split. apply le_n.
Qed.

Lemma advances_trans (n m : nat) (s1 s2 s3 : State) :
  advances n s1 s2 -> advances m s2 s3 -> advances (n + m) s1 s3.
Proof.
  intros [c1 [L1 [P1 [B1 R1]]]] [c2 [L2 [P2 [B2 R2]]]]. exists (c1 ++ c2)%list.
  rewrite length_app. split; [lia|]. split; [|split].
  - rewrite forallb_app, P1, P2. reflexivity.
  - rewrite B2, B1, R1, envelopes_app, map_app, app_assoc. reflexivity.
  - rewrite R2, R1, succ_n_add. reflexivity.
Qed.

Lemma advances_weaken (n m : nat) (s s' : State) :
  (n <= m)%nat -> advances n s s' -> advances m s s'.
Proof.
  intros Hnm [c [L H]]. exists c. split; [lia | exact H].
Qed.

Lemma advancing_stateless {A : Type} (c : M A) : stateless c -> advancing 0 c.
Proof. intros Hc s. rewrite Hc. apply advances_refl. Qed.

Lemma advancing_bind {A B : Type} (n m : nat) (c : M A) (k : A -> M B) :
  advancing n c -> (forall a, advancing m (k a)) -> advancing (n + m) (bind c k).
Proof.
  intros Hc Hk s. unfold bind. specialize (Hc s).
  destruct (c s) as [[a|e] s']; simpl in Hc.
  - eapply advances_trans; [exact Hc | apply Hk].
  - eapply advances_weaken; [|exact Hc]. lia.
Qed.

Lemma advancing_try_catch {A : Type} (n m : nat) (c : M A)
  (h : js_error -> M A) :
  advancing n c -> (forall e, advancing m (h e)) ->
  advancing (n + m) (try_catch c h).
Proof.
  intros Hc Hh s. unfold try_catch. specialize (Hc s).
  destruct (c s) as [[a|e] s']; simpl in Hc.
  - eapply advances_weaken; [|exact Hc]. lia.
  - eapply advances_trans; [exact Hc | apply Hh].
Qed.

Lemma advancing_makeRequest (this : Basic.AlloyMCPClient) (method : string)
  (params : jsval) :
  plain params = true ->
  advancing 1 (Basic.makeRequest this method params).
Proof.
  intros Hplain s. exists [(method, params)]. split; [apply le_n|].
  split; [|split].
  - cbn [forallb snd]. rewrite Hplain. reflexivity.
  - rewrite basic_makeRequest_sends. reflexivity.
  - rewrite basic_makeRequest_requestId. reflexivity.
Qed.

Lemma advancing_as {A B : Type} (n : nat) (c : M A) (d : M B) :
  (forall s, snd (c s) = snd (d s)) -> advancing n d -> advancing n c.
Proof. intros H Hd s. rewrite H. apply Hd. Qed.

Lemma advancing_executeTool (this : Basic.AlloyMCPClient) (toolName : string)
  (args : jsval) :
  clean args = true ->
  advancing 1 (Basic.executeTool this toolName args).
Proof.
  intros Hargs. eapply advancing_as; [apply basic_executeTool_state|].
  apply advancing_makeRequest. unfold plain. cbn. rewrite Hargs. reflexivity.
Qed.

Lemma advancing_initialize (this : Basic.AlloyMCPClient) :
  advancing 1 (Basic.initialize this).
Proof.
  eapply advancing_as; [apply basic_initialize_state|].
  apply advancing_makeRequest. reflexivity.
Qed.

Lemma advancing_listAvailableTools (this : Basic.AlloyMCPClient) :
  advancing 1 (Basic.listAvailableTools this).
Proof.
  eapply advancing_as; [apply basic_listAvailableTools_state|].
  apply advancing_makeRequest. reflexivity.
Qed.

Lemma advancing_listPrompts (this : Basic.AlloyMCPClient) :
  advancing 1 (Basic.listPrompts this).
Proof.
  eapply advancing_as; [apply basic_listPrompts_state|].
  apply advancing_makeRequest. reflexivity.
Qed.

Lemma advancing_log (text : string) : advancing 0 (console_log text).
Proof. apply advancing_stateless, stateless_console_log. Qed.

Lemma advancing_ret {A : Type} (a : A) : advancing 0 (ret a).
Proof. apply advancing_stateless, stateless_ret. Qed.

(** After the construction of the client, [main] sends at most eight
    requests. *)
Lemma advancing_main_body (client : Basic.AlloyMCPClient) :
  advancing 8
    (Basic.initialize client ;;;
     Basic.listAvailableTools client ;;;
     Basic.demonstrateConnectivity client ;;;
     Basic.demonstrateCredentials client ;;;
     Basic.demonstrateDiscovery client ;;;
     console_log "All demonstrations completed!" ;;;
     ret 0).
Proof.
  apply (advancing_bind 1 7); [apply advancing_initialize|intros _].
  apply (advancing_bind 1 6); [apply advancing_listAvailableTools|intros _].
  apply (advancing_bind 2 4).
  { unfold Basic.demonstrateConnectivity.
    apply (advancing_try_catch 2 0); [|intros; apply advancing_log].
    apply (advancing_bind 1 1);
      [apply advancing_executeTool; reflexivity|intros].
    apply (advancing_bind 0 1); [apply advancing_log|intros].
    apply (advancing_bind 1 0);
      [apply advancing_executeTool; reflexivity|intros].
    apply advancing_log. }
  intros _. apply (advancing_bind 2 2).
  { unfold Basic.demonstrateCredentials.
    apply (advancing_try_catch 2 0); [|intros; apply advancing_log].
    apply (advancing_bind 1 1);
      [apply advancing_executeTool; reflexivity|intros].
    apply (advancing_bind 0 1); [apply advancing_log|intros].
    apply (advancing_bind 1 0);
      [apply advancing_executeTool; reflexivity|intros].
    apply advancing_log. }
  intros _. apply (advancing_bind 2 0).
  { unfold Basic.demonstrateDiscovery.
    apply (advancing_try_catch 2 0); [|intros; apply advancing_log].
    apply (advancing_bind 1 1); [apply advancing_listPrompts|intros].
    apply (advancing_bind 1 0);
      [apply advancing_executeTool; reflexivity|intros].
    apply advancing_log. }
  intros _. apply (advancing_bind 0 0); [apply advancing_log|intros].
  apply advancing_ret.
Qed.

Lemma constructor_state (env_url : option string) (s : State) :
  snd (Basic.constructor env_url s) = with_requestId 1 s.
Proof. destruct env_url as [[|c u]|]; reflexivity. Qed.

(** The requests of [main]: at most eight, with plain params and consecutive
    ids from 1. *)
Lemma main_sends (env_url : option string) (s : State) :
  exists calls,
    (List.length calls <= 8)%nat
    /\ forallb (fun call => plain (snd call)) calls = true
    /\ sent_bodies (trace (snd (Basic.main env_url s)))
       = (sent_bodies (trace s) ++ map JSON.stringify (envelopes 1 calls))%list.
Proof.
  unfold Basic.main.
  rewrite try_catch_stateless
    by (intros; apply stateless_bind;
        [apply stateless_console_log | intros; apply stateless_ret]).
  unfold bind at 1. pose proof (constructor_state env_url s) as Hs.
  destruct (Basic.constructor env_url s) as [[client|e] s1];
    cbn [snd] in Hs; subst s1.
  - destruct (advancing_main_body client (with_requestId 1 s))
      as [calls [L [P [B _]]]].
    exists calls. split; [exact L|]. split; [exact P | exact B].
  - exists []. split; [apply Nat.le_0_l|]. split; [reflexivity|].
    simpl. rewrite app_nil_r. reflexivity.
Qed.

Lemma random_id_range (s : State) : 0 <= next_random_id s < 1000000.
Proof.
  unfold next_random_id. apply floor_of_product_range.
  apply Z.mod_pos_bound. reflexivity.
Qed.

(** * The properties of the exchange *)

(** C1, as the code has it.  Let [E] be any envelope whose serialization
    holds neither the line separator U+2028 nor the paragraph separator
    U+2029 (which [JSON.stringify] writes as they are, and at which the [.] of
    the data pattern stops).  A 2xx event-stream reply whose body has the line
    [data: <serialized E>] as the first place where the data pattern matches,
    and a 2xx reply in JSON mode whose body is the serialization of [E], give
    the same outcome of [makeRequest], in each of its three copies; the
    outcome is [E] itself when [E] is JSON data. *)
Theorem first_data_line_decodes_like_json
  (E : jsval) (pre rest : string) (sse json : Response)
  (s1 s2 : State) (q1 q2 : list (option Response)) :
  pending s1 = Some sse :: q1 ->
  pending s2 = Some json :: q2 ->
  200 <= status sse <= 299 ->
  200 <= status json <= 299 ->
  is_event_stream (content_type sse) = true ->
  body sse = pre ++ "data: " ++ JSON.stringify E ++ rest ->
  JS.match_data pre = None ->
  at_line_start pre = true ->
  ends_line rest = true ->
  is_event_stream (content_type json) = false ->
  body json = JSON.stringify E ->
  all_chars no_separator (JSON.stringify E) = true ->
  (forall (this : Basic.AlloyMCPClient) (method : string) (params : jsval),
      fst (Basic.makeRequest this method params s1)
      = fst (Basic.makeRequest this method params s2)
      /\ (clean E = true ->
          fst (Basic.makeRequest this method params s1) = Ok E))
  /\ (forall (serverUrl : jsval) (method : string) (params : jsval),
         fst (ExecuteRoute.makeRequest serverUrl method params s1)
         = fst (ExecuteRoute.makeRequest serverUrl method params s2)
         /\ fst (ConnectRoute.makeRequest serverUrl method params s1)
            = fst (ConnectRoute.makeRequest serverUrl method params s2)
         /\ (clean E = true ->
             forall url, JS.to_string serverUrl = Some url ->
             fst (ExecuteRoute.makeRequest serverUrl method params s1) = Ok E
             /\ fst (ConnectRoute.makeRequest serverUrl method params s1)
                = Ok E)).
Proof.
  intros Hp1 Hp2 Hs1 Hs2 Hct1 Hb1 Hpre Hstart Hrest Hct2 Hb2 Hsep.
  assert (ok sse = true) as Hok1.
  { unfold ok. apply andb_true_iff. split; apply Z.leb_le; lia. }
  assert (ok json = true) as Hok2.
  { unfold ok. apply andb_true_iff. split; apply Z.leb_le; lia. }
  assert (reply_text sse = Some (JSON.stringify E)) as Ht1
      by (eapply reply_text_first_line; eassumption).
  assert (reply_text json = Some (JSON.stringify E)) as Ht2
      by (unfold reply_text; rewrite Hct2, Hb2; reflexivity).
  assert (forall serverUrl method params,
             fst (ExecuteRoute.makeRequest serverUrl method params s1)
             = fst (ExecuteRoute.makeRequest serverUrl method params s2)) as Hroute.
  { intros serverUrl method params.
    destruct (JS.to_string serverUrl) as [url|] eqn:Hurl.
    - rewrite !(execute_makeRequest_run _ url) by exact Hurl.
      erewrite !exchange_outcome by (try eassumption; simpl; eassumption).
      reflexivity.
    - rewrite !execute_makeRequest_bad_url by exact Hurl. reflexivity. }
  split.
  - intros this method params. rewrite !basic_makeRequest_run.
    erewrite !exchange_outcome by (try eassumption; simpl; eassumption).
    split; [reflexivity|]. intros Hclean.
    unfold parse_outcome. rewrite (parse_stringify E Hclean). reflexivity.
  - intros serverUrl method params. rewrite connect_makeRequest_eq.
    split; [apply Hroute|]. split; [apply Hroute|].
    intros Hclean url Hurl.
    rewrite (execute_makeRequest_run _ url) by exact Hurl.
    erewrite exchange_outcome by (try eassumption; simpl; eassumption).
    unfold parse_outcome. rewrite (parse_stringify E Hclean). split; reflexivity.
Qed.

(** The event stream of the specification: one [message] event. *)
Lemma first_data_line_decodes_like_json_witness :
  pending (init_state [Some (sse_reply sample_envelope)])
  = [Some (sse_reply sample_envelope)]
  /\ pending (init_state [Some (json_reply sample_envelope)])
     = [Some (json_reply sample_envelope)]
  /\ 200 <= status (sse_reply sample_envelope) <= 299
  /\ 200 <= status (json_reply sample_envelope) <= 299
  /\ is_event_stream (content_type (sse_reply sample_envelope)) = true
  /\ body (sse_reply sample_envelope)
     = ("event: message" ++ JS.str1 JS.newline) ++ "data: "
         ++ JSON.stringify sample_envelope
         ++ (JS.str1 JS.newline ++ JS.str1 JS.newline)
  /\ JS.match_data ("event: message" ++ JS.str1 JS.newline) = None
  /\ at_line_start ("event: message" ++ JS.str1 JS.newline) = true
  /\ ends_line (JS.str1 JS.newline ++ JS.str1 JS.newline) = true
  /\ is_event_stream (content_type (json_reply sample_envelope)) = false
  /\ body (json_reply sample_envelope) = JSON.stringify sample_envelope
  /\ all_chars no_separator (JSON.stringify sample_envelope) = true
  /\ clean sample_envelope = true
  /\ fst (Basic.makeRequest example_client "tools/list" JUndefined
            (init_state [Some (sse_reply sample_envelope)]))
     = fst (Basic.makeRequest example_client "tools/list" JUndefined
              (init_state [Some (json_reply sample_envelope)]))
  /\ fst (Basic.makeRequest example_client "tools/list" JUndefined
            (init_state [Some (sse_reply sample_envelope)]))
     = Ok sample_envelope.
Proof.
  assert (200 <= 200 <= 299) as Hstatus by lia.
  split; [reflexivity|]. split; [reflexivity|]. split; [exact Hstatus|].
  split; [exact Hstatus|]. split; [reflexivity|]. split; [reflexivity|].
  split; [reflexivity|]. split; [reflexivity|]. split; [reflexivity|].
  split; [reflexivity|]. split; [reflexivity|]. split; [reflexivity|].
  split; [reflexivity|].
  split.
  - exact (proj1 (proj1 (first_data_line_decodes_like_json
                    sample_envelope ("event: message" ++ JS.str1 JS.newline)
                    (JS.str1 JS.newline ++ JS.str1 JS.newline)
                    (sse_reply sample_envelope) (json_reply sample_envelope)
                    (init_state [Some (sse_reply sample_envelope)])
                    (init_state [Some (json_reply sample_envelope)]) [] []
                    eq_refl eq_refl Hstatus Hstatus eq_refl eq_refl eq_refl
                    eq_refl eq_refl eq_refl eq_refl eq_refl)
             example_client "tools/list" JUndefined)).
  - exact (proj2 (proj1 (first_data_line_decodes_like_json
                    sample_envelope ("event: message" ++ JS.str1 JS.newline)
                    (JS.str1 JS.newline ++ JS.str1 JS.newline)
                    (sse_reply sample_envelope) (json_reply sample_envelope)
                    (init_state [Some (sse_reply sample_envelope)])
                    (init_state [Some (json_reply sample_envelope)]) [] []
                    eq_refl eq_refl Hstatus Hstatus eq_refl eq_refl eq_refl
                    eq_refl eq_refl eq_refl eq_refl eq_refl)
             example_client "tools/list" JUndefined) eq_refl).
Defined.

(** C1, as stated, fails: the body of [two_events] contains the line
    [data: <serialized sample_envelope>], yet the call decodes the data line
    before it, where the JSON mode gives [sample_envelope]. *)
Lemma later_data_line_is_not_decoded :
  (exists pre rest,
      body two_events
      = pre ++ "data: " ++ JSON.stringify sample_envelope ++ rest
      /\ at_line_start pre = true /\ ends_line rest = true)
  /\ fst (Basic.makeRequest example_client "tools/list" JUndefined
            (init_state [Some two_events]))
     = Ok notification
  /\ fst (Basic.makeRequest example_client "tools/list" JUndefined
            (init_state [Some (json_reply sample_envelope)]))
     = Ok sample_envelope
  /\ fst (Basic.makeRequest example_client "tools/list" JUndefined
            (init_state [Some two_events]))
     <> fst (Basic.makeRequest example_client "tools/list" JUndefined
               (init_state [Some (json_reply sample_envelope)])).
Proof.
  split.
  { eexists. eexists. split; [reflexivity|]. split; reflexivity. }
  split; [vm_compute; reflexivity|]. split; [vm_compute; reflexivity|].
  vm_compute. discriminate.
Qed.

(** The condition on the separators cannot be dropped: the serialization of
    [separated_envelope] holds a line separator, at which the capture of the
    data pattern ends; the event-stream mode then fails to parse what it
    captured, where the JSON mode gives the envelope. *)
Lemma separator_ends_the_data_line :
  all_chars no_separator (JSON.stringify separated_envelope) = false
  /\ JS.match_data (body (sse_reply separated_envelope))
     <> Some (JSON.stringify separated_envelope)
  /\ (exists message,
         fst (Basic.makeRequest example_client "tools/list" JUndefined
                (init_state [Some (sse_reply separated_envelope)]))
         = Throw (SyntaxError message))
  /\ fst (Basic.makeRequest example_client "tools/list" JUndefined
            (init_state [Some (json_reply separated_envelope)]))
     = Ok separated_envelope.
Proof.
  split; [vm_compute; reflexivity|].
  split; [vm_compute; discriminate|].
  split; [eexists; vm_compute; reflexivity | vm_compute; reflexivity].
Qed.

(** C2. For every reply with a non-2xx status, each copy of [makeRequest]
    throws the error [HTTP <status>: <status text>] built from that reply, and
    the only event of the call is the [fetch] itself: the body of the reply
    is neither read nor parsed.  The error carries the status and the status
    text: two replies that give the same error have them in common. *)
Theorem non_2xx_fails_before_body_is_read
  (r : Response) (rest : list (option Response)) (s : State) :
  pending s = Some r :: rest ->
  status r < 200 \/ 299 < status r ->
  (forall (this : Basic.AlloyMCPClient) (method : string) (params : jsval),
      fst (Basic.makeRequest this method params s)
      = Throw (Error ("HTTP " ++ JS.string_of_Z (status r) ++ ": " ++ statusText r))
      /\ exists init,
        trace (snd (Basic.makeRequest this method params s))
        = (trace s ++ [CallFetch (Basic.serverUrl this) init])%list)
  /\ (forall (serverUrl : jsval) (url method : string) (params : jsval),
         JS.to_string serverUrl = Some url ->
         (fst (ExecuteRoute.makeRequest serverUrl method params s)
          = Throw (Error ("HTTP " ++ JS.string_of_Z (status r) ++ ": " ++ statusText r))
          /\ exists init,
            trace (snd (ExecuteRoute.makeRequest serverUrl method params s))
            = (trace s ++ [CallFetch url init])%list)
         /\ (fst (ConnectRoute.makeRequest serverUrl method params s)
             = Throw (Error ("HTTP " ++ JS.string_of_Z (status r) ++ ": " ++ statusText r))
             /\ exists init,
               trace (snd (ConnectRoute.makeRequest serverUrl method params s))
               = (trace s ++ [CallFetch url init])%list))
  /\ (forall r' : Response,
         Error ("HTTP " ++ JS.string_of_Z (status r) ++ ": " ++ statusText r)
         = Error ("HTTP " ++ JS.string_of_Z (status r') ++ ": " ++ statusText r') ->
         status r = status r' /\ statusText r = statusText r').
Proof.
  intros Hp Hstatus.
  assert (ok r = false) as Hok.
  { unfold ok. destruct Hstatus as [H|H].
    - apply andb_false_iff. left. apply Z.leb_gt. exact H.
    - apply andb_false_iff. right. apply Z.leb_gt. exact H. }
  split; [|split].
  - intros this method params. rewrite basic_makeRequest_run.
    erewrite exchange_not_ok by (try exact Hok; simpl; exact Hp).
    split; [reflexivity|]. eexists. reflexivity.
  - intros serverUrl url method params Hurl. rewrite connect_makeRequest_eq.
    rewrite (execute_makeRequest_run _ url) by exact Hurl.
    erewrite exchange_not_ok by (try exact Hok; simpl; exact Hp).
    repeat split; try reflexivity; eexists; reflexivity.
  - intros r'. apply http_error_inj.
Qed.

Lemma non_2xx_fails_before_body_is_read_witness :
  pending (init_state [Some not_found]) = [Some not_found]
  /\ (status not_found < 200 \/ 299 < status not_found)
  /\ JS.to_string (JStr "https://mcp.example/mcp") = Some "https://mcp.example/mcp"
  /\ fst (Basic.makeRequest example_client "tools/list" JUndefined
            (init_state [Some not_found]))
     = Throw (Error "HTTP 404: Not Found")
  /\ fst (ExecuteRoute.makeRequest (JStr "https://mcp.example/mcp") "tools/list"
            JUndefined (init_state [Some not_found]))
     = Throw (Error "HTTP 404: Not Found").
Proof.
  split; [reflexivity|]. split; [right; reflexivity|]. split; [reflexivity|].
  split.
  - exact (proj1 (proj1 (non_2xx_fails_before_body_is_read
                           not_found [] (init_state [Some not_found])
                           eq_refl (or_intror eq_refl))
                    example_client "tools/list" JUndefined)).
  - exact (proj1 (proj1 (proj1 (proj2 (non_2xx_fails_before_body_is_read
                                         not_found [] (init_state [Some not_found])
                                         eq_refl (or_intror eq_refl)))
                           (JStr "https://mcp.example/mcp")
                           "https://mcp.example/mcp" "tools/list" JUndefined
                           eq_refl))).
Defined.

(** C3. Against a 2xx [text/event-stream] reply without a [data: ] line, each
    copy of [makeRequest] resolves to [undefined]: neither a decoded payload
    nor an error.  The operations built on it then fail reading a property
    of [undefined]. *)
Theorem event_stream_without_data_is_undefined :
  fst (Basic.makeRequest example_client "tools/list" JUndefined
         (init_state [Some stream_without_data]))
  = Ok JUndefined
  /\ fst (ExecuteRoute.makeRequest (JStr "https://mcp.example/mcp")
            "tools/list" JUndefined (init_state [Some stream_without_data]))
     = Ok JUndefined
  /\ fst (ConnectRoute.makeRequest (JStr "https://mcp.example/mcp")
            "tools/list" JUndefined (init_state [Some stream_without_data]))
     = Ok JUndefined
  /\ fst (Basic.listAvailableTools example_client
            (init_state [Some stream_without_data]))
     = Throw (TypeError "Cannot read properties of undefined (reading 'error')")
  /\ fst (Basic.executeTool example_client "list_connectors_alloy" (JObj [])
            (init_state [Some stream_without_data]))
     = Throw (TypeError "Cannot read properties of undefined (reading 'error')")
  /\ fst (ExecuteRoute.POST execute_request
            (init_state [Some stream_without_data]))
     = Ok (NextResponse_json
             (JObj [("error",
                     JStr "Failed to execute tool: TypeError: Cannot read properties of undefined (reading 'error')")])
             500).
Proof.
  repeat split; vm_compute; reflexivity.
Qed.

(** C4, as the code has it.  When a 2xx reply decodes (in either mode) to an
    envelope whose [error] member is an object with the string [message],
    [executeTool] throws an [Error] whose message is that string behind the
    prefix "Tool execution failed: ", and the route answers with status 500
    and the same text behind "Failed to execute tool: Error: ".  The [code] of
    the remote error has no part in either. *)
Theorem remote_error_surfaces_its_message
  (s : State) (r : Response) (rest : list (option Response)) (E : jsval)
  (err : list (string * jsval)) (msg : string) :
  pending s = Some r :: rest ->
  decoded r = Some E ->
  JS.get E "error" = Ok (JObj err) ->
  JS.lookup "message" err = Some (JStr msg) ->
  (forall (this : Basic.AlloyMCPClient) (toolName : string) (args : jsval),
      fst (Basic.executeTool this toolName args s)
      = Throw (Error ("Tool execution failed: " ++ msg)))
  /\ (forall (request url : string) (serverUrl toolName toolArgs : jsval),
         execute_inputs request = Some (serverUrl, toolName, toolArgs) ->
         JS.to_string serverUrl = Some url ->
         fst (ExecuteRoute.POST request s)
         = Ok (NextResponse_json
                 (JObj [("error",
                         JStr ("Failed to execute tool: Error: Tool execution failed: "
                                 ++ msg))])
                 500)).
Proof.
  intros Hp Hd Herr Hmsg. split.
  - intros this toolName args.
    destruct (basic_executeTool_run this toolName args s r rest E Hp Hd)
      as [s' [_ ->]].
    rewrite (bind_lift _ _ _ _ Herr). cbn [JS.truthy JS.get].
    rewrite Hmsg. reflexivity.
  - intros request url serverUrl toolName toolArgs Hin Hurl.
    rewrite (execute_POST_run _ _ _ _ _ Hin).
    destruct (execute_makeRequest_decoded serverUrl url "tools/call"
                (JObj [("name", toolName); ("arguments", JS.or toolArgs (JObj []))])
                s r rest E Hurl Hp Hd) as [s' Hrun].
    erewrite try_catch_throw.
    2:{ erewrite bind_ok by exact Hrun.
        rewrite (bind_lift _ _ _ _ Herr). cbn [JS.truthy JS.get].
        rewrite Hmsg. reflexivity. }
    reflexivity.
Qed.

Lemma remote_error_surfaces_its_message_witness :
  pending (init_state [Some (json_reply (remote_error (-32601) "Method not found"))])
  = [Some (json_reply (remote_error (-32601) "Method not found"))]
  /\ decoded (json_reply (remote_error (-32601) "Method not found"))
     = Some (remote_error (-32601) "Method not found")
  /\ JS.get (remote_error (-32601) "Method not found") "error"
     = Ok (JObj [("code", JNum (-32601)); ("message", JStr "Method not found")])
  /\ JS.lookup "message" [("code", JNum (-32601)); ("message", JStr "Method not found")]
     = Some (JStr "Method not found")
  /\ execute_inputs execute_request
     = Some (JStr "https://mcp.example/mcp", JStr "list_connectors_alloy", JObj [])
  /\ JS.to_string (JStr "https://mcp.example/mcp") = Some "https://mcp.example/mcp"
  /\ fst (Basic.executeTool example_client "list_connectors_alloy" (JObj [])
            (init_state [Some (json_reply (remote_error (-32601) "Method not found"))]))
     = Throw (Error "Tool execution failed: Method not found")
  /\ fst (ExecuteRoute.POST execute_request
            (init_state [Some (json_reply (remote_error (-32601) "Method not found"))]))
     = Ok (NextResponse_json
             (JObj [("error",
                     JStr "Failed to execute tool: Error: Tool execution failed: Method not found")])
             500).
Proof.
  assert (decoded (json_reply (remote_error (-32601) "Method not found"))
          = Some (remote_error (-32601) "Method not found")) as Hd
      by (vm_compute; reflexivity).
  assert (execute_inputs execute_request
          = Some (JStr "https://mcp.example/mcp", JStr "list_connectors_alloy", JObj []))
    as Hin by (vm_compute; reflexivity).
  pose proof (remote_error_surfaces_its_message
                (init_state [Some (json_reply (remote_error (-32601) "Method not found"))])
                (json_reply (remote_error (-32601) "Method not found")) []
                (remote_error (-32601) "Method not found")
                [("code", JNum (-32601)); ("message", JStr "Method not found")]
                "Method not found" eq_refl Hd eq_refl eq_refl)
    as [Hbasic Hroute].
  split; [reflexivity|]. split; [exact Hd|]. split; [reflexivity|].
  split; [reflexivity|]. split; [exact Hin|]. split; [reflexivity|].
  split.
  - exact (Hbasic example_client "list_connectors_alloy" (JObj [])).
  - exact (Hroute execute_request "https://mcp.example/mcp"
             (JStr "https://mcp.example/mcp") (JStr "list_connectors_alloy")
             (JObj []) Hin eq_refl).
Defined.

(** C4, as stated, fails: two remote errors that differ in their [code] only
    make [executeTool] fail in the same way, so the failure does not carry
    the code. *)
Lemma remote_error_code_is_dropped :
  fst (Basic.executeTool example_client "list_connectors_alloy" (JObj [])
         (init_state [Some (json_reply (remote_error (-32601) "Method not found"))]))
  = Throw (Error "Tool execution failed: Method not found")
  /\ fst (Basic.executeTool example_client "list_connectors_alloy" (JObj [])
            (init_state [Some (json_reply (remote_error (-32000) "Method not found"))]))
     = Throw (Error "Tool execution failed: Method not found")
  /\ fst (ExecuteRoute.POST execute_request
            (init_state [Some (json_reply (remote_error (-32601) "Method not found"))]))
     = fst (ExecuteRoute.POST execute_request
              (init_state [Some (json_reply (remote_error (-32000) "Method not found"))]))
  /\ remote_error (-32601) "Method not found"
     <> remote_error (-32000) "Method not found".
Proof.
  split; [vm_compute; reflexivity|]. split; [vm_compute; reflexivity|].
  split; [vm_compute; reflexivity|]. discriminate.
Qed.

(** C5. When [params] is absent, the body that is sent is the envelope
    without a [params] member; when [params] is an object or an array, the
    body carries the member [params] with the serialization of that value.
    This holds for the command-line client and for both routes.  Read back,
    the first body is the object of the three members [jsonrpc], [method] and
    [id], and the second has the fourth member [params] with the value that
    was given, when that is JSON data. *)
Theorem params_absent_or_verbatim (method : string) (s : State) :
  (forall this : Basic.AlloyMCPClient,
      sent_bodies (trace (snd (Basic.makeRequest this method JUndefined s)))
      = (sent_bodies (trace s)
           ++ [envelope_text method (requestId s) None])%list)
  /\ (forall (this : Basic.AlloyMCPClient) (params : jsval),
         structured params = true ->
         sent_bodies (trace (snd (Basic.makeRequest this method params s)))
         = (sent_bodies (trace s)
              ++ [envelope_text method (requestId s)
                    (Some (JSON.stringify params))])%list)
  /\ (forall (serverUrl : jsval) (url : string),
         JS.to_string serverUrl = Some url ->
         sent_bodies
           (trace (snd (ExecuteRoute.makeRequest serverUrl method JUndefined s)))
         = (sent_bodies (trace s)
              ++ [envelope_text method (next_random_id s) None])%list
         /\ sent_bodies
              (trace (snd (ConnectRoute.makeRequest serverUrl method JUndefined s)))
            = (sent_bodies (trace s)
                 ++ [envelope_text method (next_random_id s) None])%list)
  /\ (forall (serverUrl : jsval) (url : string) (params : jsval),
         JS.to_string serverUrl = Some url ->
         structured params = true ->
         sent_bodies
           (trace (snd (ExecuteRoute.makeRequest serverUrl method params s)))
         = (sent_bodies (trace s)
              ++ [envelope_text method (next_random_id s)
                    (Some (JSON.stringify params))])%list
         /\ sent_bodies
              (trace (snd (ConnectRoute.makeRequest serverUrl method params s)))
            = (sent_bodies (trace s)
                 ++ [envelope_text method (next_random_id s)
                       (Some (JSON.stringify params))])%list)
  /\ (forall id : Z,
         JSON.parse (envelope_text method id None)
         = Some (JObj [("jsonrpc", JStr "2.0"); ("method", JStr method);
                       ("id", JNum id)]))
  /\ (forall (id : Z) (params : jsval),
         structured params = true ->
         clean params = true ->
         JSON.parse (envelope_text method id (Some (JSON.stringify params)))
         = Some (JObj [("jsonrpc", JStr "2.0"); ("method", JStr method);
                       ("id", JNum id); ("params", params)])).
Proof.
  split; [|split; [|split; [|split; [|split]]]].
  - intros this. rewrite basic_makeRequest_sends. cbn [JS.truthy].
    rewrite stringify_envelope_absent. reflexivity.
  - intros this params Hs. rewrite basic_makeRequest_sends.
    rewrite (structured_truthy _ Hs).
    rewrite (stringify_envelope_params _ _ _ _ (structured_serialize _ Hs)).
    reflexivity.
  - intros serverUrl url Hurl. rewrite connect_makeRequest_eq.
    rewrite (execute_makeRequest_sends _ url) by exact Hurl. cbn [JS.truthy].
    rewrite stringify_envelope_absent. split; reflexivity.
  - intros serverUrl url params Hurl Hs. rewrite connect_makeRequest_eq.
    rewrite (execute_makeRequest_sends _ url) by exact Hurl.
    rewrite (structured_truthy _ Hs).
    rewrite (stringify_envelope_params _ _ _ _ (structured_serialize _ Hs)).
    split; reflexivity.
  - intros id. rewrite <- stringify_envelope_absent.
    exact (parse_envelope method id JUndefined eq_refl).
  - intros id params Hs Hc.
    rewrite <- (stringify_envelope_params _ _ _ _ (structured_serialize _ Hs)).
    pose proof (parse_envelope method id params) as Hp.
    rewrite (structured_truthy _ Hs) in Hp. apply Hp.
    unfold plain. rewrite Hc. apply orb_true_r.
Qed.

Lemma params_absent_or_verbatim_witness :
  structured (JObj []) = true
  /\ clean (JObj []) = true
  /\ JS.to_string (JStr "https://mcp.example/mcp") = Some "https://mcp.example/mcp"
  /\ sent_bodies
       (trace (snd (Basic.makeRequest example_client "tools/call" (JObj [])
                      (init_state []))))
     = [envelope_text "tools/call" 1 (Some "{}")]
  /\ sent_bodies
       (trace (snd (ExecuteRoute.makeRequest (JStr "https://mcp.example/mcp")
                      "tools/list" JUndefined (init_state []))))
     = [envelope_text "tools/list" 0 None]
  /\ sent_bodies
       (trace (snd (ConnectRoute.makeRequest (JStr "https://mcp.example/mcp")
                      "tools/call" (JObj []) (init_state []))))
     = [envelope_text "tools/call" 0 (Some "{}")]
  /\ JSON.parse (envelope_text "tools/call" 1 (Some "{}"))
     = Some (JObj [("jsonrpc", JStr "2.0"); ("method", JStr "tools/call");
                   ("id", JNum 1); ("params", JObj [])]).
Proof.
  pose proof (params_absent_or_verbatim "tools/call" (init_state []))
    as [_ [Hbasic [_ [Hroute [_ Hback]]]]].
  pose proof (params_absent_or_verbatim "tools/list" (init_state []))
    as [_ [_ [Habsent _]]].
  split; [reflexivity|]. split; [reflexivity|]. split; [reflexivity|].
  split; [|split; [|split]].
  - exact (Hbasic example_client (JObj []) eq_refl).
  - exact (proj1 (Habsent (JStr "https://mcp.example/mcp")
                    "https://mcp.example/mcp" eq_refl)).
  - exact (proj2 (Hroute (JStr "https://mcp.example/mcp")
                    "https://mcp.example/mcp" (JObj []) eq_refl eq_refl)).
  - exact (Hback 1 (JObj []) eq_refl eq_refl).
Defined.

(** C6, as the code has it.  When a 2xx reply decodes to an envelope without
    a (truthy) [error], [executeTool] of the command-line client has sent the
    params [{name, arguments}] and returns the [result] member of the envelope
    as it is; the route has sent [{name, arguments}] (with [{}] for missing
    arguments) and answers with status 200 and an object whose only member
    [content] is the [content] of the result, or the empty array when the
    result has none. *)
Theorem tool_call_returns_result
  (s : State) (r : Response) (rest : list (option Response))
  (E error result : jsval) :
  pending s = Some r :: rest ->
  decoded r = Some E ->
  JS.get E "error" = Ok error ->
  JS.truthy error = false ->
  JS.get E "result" = Ok result ->
  (forall (this : Basic.AlloyMCPClient) (toolName : string) (args : jsval),
      fst (Basic.executeTool this toolName args s) = Ok result
      /\ sent_bodies (trace (snd (Basic.executeTool this toolName args s)))
         = (sent_bodies (trace s)
              ++ [envelope_text "tools/call" (requestId s)
                    (Some (JSON.stringify
                             (JObj [("name", JStr toolName);
                                    ("arguments", args)])))])%list)
  /\ (forall (request url : string) (serverUrl toolName toolArgs content : jsval),
         execute_inputs request = Some (serverUrl, toolName, toolArgs) ->
         JS.to_string serverUrl = Some url ->
         JS.get_opt result "content" = Ok content ->
         fst (ExecuteRoute.POST request s)
         = Ok (NextResponse_json
                 (JObj [("content",
                         if JS.truthy content then content else JArr [])])
                 200)
         /\ sent_bodies (trace (snd (ExecuteRoute.POST request s)))
            = (sent_bodies (trace s)
                 ++ [envelope_text "tools/call" (next_random_id s)
                       (Some (JSON.stringify
                                (JObj [("name", toolName);
                                       ("arguments",
                                        if JS.truthy toolArgs then toolArgs
                                        else JObj [])])))])%list).
Proof.
  intros Hp Hd Herr Hfalsy Hres. split.
  - intros this toolName args. split.
    + destruct (basic_executeTool_run this toolName args s r rest E Hp Hd)
        as [s' [_ ->]].
      rewrite (bind_lift _ _ _ _ Herr). rewrite Hfalsy.
      unfold lift. rewrite Hres. reflexivity.
    + rewrite basic_executeTool_state, basic_makeRequest_sends.
      cbn [JS.truthy].
      erewrite stringify_envelope_params by reflexivity. reflexivity.
  - intros request url serverUrl toolName toolArgs content Hin Hurl Hcontent.
    split.
    + rewrite (execute_POST_run _ _ _ _ _ Hin).
      destruct (execute_makeRequest_decoded serverUrl url "tools/call"
                  (JObj [("name", toolName); ("arguments", JS.or toolArgs (JObj []))])
                  s r rest E Hurl Hp Hd) as [s' Hrun].
      erewrite try_catch_ok.
      2:{ erewrite bind_ok by exact Hrun.
          rewrite (bind_lift _ _ _ _ Herr). rewrite Hfalsy.
          rewrite (bind_lift _ _ _ _ Hres).
          rewrite (bind_lift _ _ _ _ Hcontent). reflexivity. }
      reflexivity.
    + rewrite (execute_POST_state _ _ _ _ _ Hin).
      rewrite (execute_makeRequest_sends _ url) by exact Hurl.
      cbn [JS.truthy].
      erewrite stringify_envelope_params by reflexivity. reflexivity.
Qed.

Lemma tool_call_returns_result_witness :
  pending (init_state [Some (json_reply tool_reply)]) = [Some (json_reply tool_reply)]
  /\ decoded (json_reply tool_reply) = Some tool_reply
  /\ JS.get tool_reply "error" = Ok JUndefined
  /\ JS.truthy JUndefined = false
  /\ JS.get tool_reply "result" = Ok (JObj [("content", JArr [text_item])])
  /\ execute_inputs execute_request
     = Some (JStr "https://mcp.example/mcp", JStr "list_connectors_alloy", JObj [])
  /\ JS.to_string (JStr "https://mcp.example/mcp") = Some "https://mcp.example/mcp"
  /\ JS.get_opt (JObj [("content", JArr [text_item])]) "content"
     = Ok (JArr [text_item])
  /\ fst (Basic.executeTool example_client "list_connectors_alloy" (JObj [])
            (init_state [Some (json_reply tool_reply)]))
     = Ok (JObj [("content", JArr [text_item])])
  /\ fst (ExecuteRoute.POST execute_request (init_state [Some (json_reply tool_reply)]))
     = Ok (NextResponse_json (JObj [("content", JArr [text_item])]) 200).
Proof.
  assert (decoded (json_reply tool_reply) = Some tool_reply) as Hd
      by (vm_compute; reflexivity).
  assert (execute_inputs execute_request
          = Some (JStr "https://mcp.example/mcp", JStr "list_connectors_alloy", JObj []))
    as Hin by (vm_compute; reflexivity).
  pose proof (tool_call_returns_result
                (init_state [Some (json_reply tool_reply)])
                (json_reply tool_reply) [] tool_reply JUndefined
                (JObj [("content", JArr [text_item])])
                eq_refl Hd eq_refl eq_refl eq_refl) as [Hbasic Hroute].
  split; [reflexivity|]. split; [exact Hd|]. split; [reflexivity|].
  split; [reflexivity|]. split; [reflexivity|]. split; [exact Hin|].
  split; [reflexivity|]. split; [reflexivity|].
  split.
  - exact (proj1 (Hbasic example_client "list_connectors_alloy" (JObj []))).
  - exact (proj1 (Hroute execute_request "https://mcp.example/mcp"
                    (JStr "https://mcp.example/mcp")
                    (JStr "list_connectors_alloy") (JObj []) (JArr [text_item])
                    Hin eq_refl eq_refl)).
Defined.

(** C6, as stated, fails for the command-line client: against the reply
    [{"result":{"content":[c]}}] its [executeTool] returns the whole result
    object, not the one-element sequence. *)
Lemma executeTool_returns_whole_result :
  fst (Basic.executeTool example_client "list_connectors_alloy" (JObj [])
         (init_state [Some (json_reply tool_reply)]))
  = Ok (JObj [("content", JArr [text_item])])
  /\ fst (Basic.executeTool example_client "list_connectors_alloy" (JObj [])
            (init_state [Some (json_reply tool_reply)]))
     <> Ok (JArr [text_item]).
Proof.
  split; [vm_compute; reflexivity|].
  vm_compute. discriminate.
Qed.

(** C7. [new AlloyMCPClient()] throws when the endpoint is missing or empty,
    and yields a client when it is not; either way no request is sent, no
    reply is consumed.  With a missing or empty endpoint the whole of [main]
    ends (exit code 1) without a request. *)
Theorem constructor_requires_endpoint (s : State) :
  (fst (Basic.constructor None s)
   = Throw (Error "NEXT_PUBLIC_MCP_SERVER_URL environment variable is required")
   /\ trace (snd (Basic.constructor None s)) = trace s
   /\ pending (snd (Basic.constructor None s)) = pending s)
  /\ (fst (Basic.constructor (Some EmptyString) s)
      = Throw (Error "NEXT_PUBLIC_MCP_SERVER_URL environment variable is required")
      /\ trace (snd (Basic.constructor (Some EmptyString) s)) = trace s
      /\ pending (snd (Basic.constructor (Some EmptyString) s)) = pending s)
  /\ (forall (c : ascii) (u : string),
         fst (Basic.constructor (Some (String c u)) s)
         = Ok {| Basic.serverUrl := String c u |}
         /\ trace (snd (Basic.constructor (Some (String c u)) s)) = trace s
         /\ pending (snd (Basic.constructor (Some (String c u)) s)) = pending s)
  /\ (fst (Basic.main None s) = Ok 1
      /\ trace (snd (Basic.main None s)) = trace s)
  /\ (fst (Basic.main (Some EmptyString) s) = Ok 1
      /\ trace (snd (Basic.main (Some EmptyString) s)) = trace s).
Proof.
  repeat split.
Qed.

(** C8. When a 2xx reply to [tools/list] decodes to an envelope without a
    (truthy) [error], [listAvailableTools] returns the array [result.tools]
    as it is, given that its descriptors can be printed, and returns the
    empty array when [result], or [tools] in it, is missing.  The connect
    route computes the same value: with [tools] missing it answers with an
    empty list of tools and status 200, and otherwise with one descriptor
    per element of [result.tools]. *)
Theorem listed_tools_are_result_tools
  (r : Response) (rest : list (option Response)) (E error result : jsval) :
  decoded r = Some E ->
  JS.get E "error" = Ok error ->
  JS.truthy error = false ->
  JS.get E "result" = Ok result ->
  (forall (this : Basic.AlloyMCPClient) (s : State),
      pending s = Some r :: rest ->
      (forall ts,
          JS.get_opt result "tools" = Ok (JArr ts) ->
          Forall (fun t => listable t = true) ts ->
          fst (Basic.listAvailableTools this s) = Ok (JArr ts))
      /\ (tools_absent result ->
          fst (Basic.listAvailableTools this s) = Ok (JArr [])))
  /\ (forall (request url : string) (serverUrl : jsval) (s : State)
             (r1 : Response) (E1 error1 : jsval),
         connect_inputs request = Some serverUrl ->
         JS.to_string serverUrl = Some url ->
         pending s = Some r1 :: Some r :: rest ->
         decoded r1 = Some E1 ->
         JS.get E1 "error" = Ok error1 ->
         JS.truthy error1 = false ->
         (tools_absent result ->
          fst (ConnectRoute.POST request s)
          = Ok (NextResponse_json
                  (JObj [("success", JBool true); ("tools", JArr [])]) 200))
         /\ (forall ts us,
                JS.get_opt result "tools" = Ok (JArr ts) ->
                JS.sequence (map transformed ts) = Some us ->
                fst (ConnectRoute.POST request s)
                = Ok (NextResponse_json
                        (JObj [("success", JBool true); ("tools", JArr us)])
                        200))).
Proof.
  intros Hd Herr Hfalsy Hres. split.
  - intros this s Hp. split.
    + intros ts Htools Hts.
      exact (proj1 (basic_listAvailableTools_run this s r rest E error result
                      (JArr ts) Hp Hd Herr Hfalsy Hres Htools) ts eq_refl Hts).
    + intros Habsent.
      exact (proj2 (basic_listAvailableTools_run this s r rest E error result
                      JUndefined Hp Hd Herr Hfalsy Hres
                      (tools_absent_get _ Habsent)) eq_refl).
  - intros request url serverUrl s r1 E1 error1 Hin Hurl Hp Hd1 Herr1 Hfalsy1.
    split.
    + intros Habsent.
      exact (proj1 (connect_POST_run request serverUrl url s r1 r rest E1 error1
                      E error result JUndefined Hin Hurl Hp Hd1 Herr1 Hfalsy1
                      Hd Herr Hfalsy Hres (tools_absent_get _ Habsent)) eq_refl).
    + intros ts us Htools Hus.
      exact (proj2 (connect_POST_run request serverUrl url s r1 r rest E1 error1
                      E error result (JArr ts) Hin Hurl Hp Hd1 Herr1 Hfalsy1
                      Hd Herr Hfalsy Hres Htools) ts us eq_refl Hus).
Qed.

Lemma listed_tools_are_result_tools_witness :
  decoded (json_reply tools_reply) = Some tools_reply
  /\ JS.get tools_reply "error" = Ok JUndefined
  /\ JS.truthy JUndefined = false
  /\ JS.get tools_reply "result" = Ok (JObj [("tools", JArr [sample_tool])])
  /\ pending (init_state [Some (json_reply tools_reply)])
     = [Some (json_reply tools_reply)]
  /\ JS.get_opt (JObj [("tools", JArr [sample_tool])]) "tools"
     = Ok (JArr [sample_tool])
  /\ Forall (fun t => listable t = true) [sample_tool]
  /\ connect_inputs connect_request = Some (JStr "https://mcp.example/mcp")
  /\ JS.to_string (JStr "https://mcp.example/mcp") = Some "https://mcp.example/mcp"
  /\ pending (init_state [Some (json_reply sample_envelope);
                          Some (json_reply tools_reply)])
     = [Some (json_reply sample_envelope); Some (json_reply tools_reply)]
  /\ decoded (json_reply sample_envelope) = Some sample_envelope
  /\ JS.get sample_envelope "error" = Ok JUndefined
  /\ JS.sequence (map transformed [sample_tool])
     = Some [JObj [("name", JStr "list_connectors_alloy");
                   ("description",
                    JStr "Discover available integration connectors");
                   ("category", JStr "connectivity");
                   ("inputSchema", JUndefined)]]
  /\ fst (Basic.listAvailableTools example_client
            (init_state [Some (json_reply tools_reply)]))
     = Ok (JArr [sample_tool])
  /\ fst (ConnectRoute.POST connect_request
            (init_state [Some (json_reply sample_envelope);
                         Some (json_reply tools_reply)]))
     = Ok (NextResponse_json
             (JObj [("success", JBool true);
                    ("tools",
                     JArr [JObj [("name", JStr "list_connectors_alloy");
                                 ("description",
                                  JStr "Discover available integration connectors");
                                 ("category", JStr "connectivity");
                                 ("inputSchema", JUndefined)]])])
             200).
Proof.
  assert (decoded (json_reply tools_reply) = Some tools_reply) as Hd
      by (vm_compute; reflexivity).
  assert (decoded (json_reply sample_envelope) = Some sample_envelope) as Hd1
      by (vm_compute; reflexivity).
  assert (connect_inputs connect_request = Some (JStr "https://mcp.example/mcp"))
    as Hin by (vm_compute; reflexivity).
  assert (Forall (fun t => listable t = true) [sample_tool]) as Hts
      by (constructor; [reflexivity | constructor]).
  assert (JS.sequence (map transformed [sample_tool])
          = Some [JObj [("name", JStr "list_connectors_alloy");
                        ("description",
                         JStr "Discover available integration connectors");
                        ("category", JStr "connectivity");
                        ("inputSchema", JUndefined)]]) as Hus
      by (vm_compute; reflexivity).
  pose proof (listed_tools_are_result_tools
                (json_reply tools_reply) [] tools_reply JUndefined
                (JObj [("tools", JArr [sample_tool])])
                Hd eq_refl eq_refl eq_refl) as [Hbasic Hroute].
  split; [exact Hd|]. split; [reflexivity|]. split; [reflexivity|].
  split; [reflexivity|]. split; [reflexivity|]. split; [reflexivity|].
  split; [exact Hts|]. split; [exact Hin|]. split; [reflexivity|].
  split; [reflexivity|]. split; [exact Hd1|]. split; [reflexivity|].
  split; [exact Hus|]. split.
  - exact (proj1 (Hbasic example_client
                    (init_state [Some (json_reply tools_reply)]) eq_refl)
             [sample_tool] eq_refl Hts).
  - exact (proj2 (Hroute connect_request "https://mcp.example/mcp"
                    (JStr "https://mcp.example/mcp")
                    (init_state [Some (json_reply sample_envelope);
                                 Some (json_reply tools_reply)])
                    (json_reply sample_envelope) sample_envelope JUndefined
                    Hin eq_refl eq_refl Hd1 eq_refl eq_refl)
             [sample_tool] _ eq_refl Hus).
Defined.

(** C9, as the code has it.  Through the command-line client, whose ids come
    from a counter, the requests of a session are the envelopes with the ids
    [requestId], [requestId + 1], ... in this order, as long as the counter
    stays between [-2^53] and [2^53], where a Number counts in steps of one:
    the ids are pairwise distinct, and they are what parsing the bodies that
    were sent gives back when the params are JSON data.  The requests of
    [main] carry the ids 1, 2, ... in this way.  In the routes, whose ids are
    random, the id of a request is the floor of the product of the draw and
    1000000 as a double holds it, an integer from 0 to 999999. *)
Theorem counter_ids_are_distinct :
  (forall (this : Basic.AlloyMCPClient) (ops : list operation) (s : State),
      - 2 ^ 53 <= requestId s ->
      requestId s + Z.of_nat (List.length ops) <= 2 ^ 53 ->
      sent_bodies (trace (snd (session this ops s)))
      = (sent_bodies (trace s)
           ++ map JSON.stringify
                (envelopes (requestId s) (map call_of ops)))%list
      /\ map envelope_id (envelopes (requestId s) (map call_of ops))
         = map Some (ids_from (requestId s) (List.length ops))
      /\ NoDup (ids_from (requestId s) (List.length ops))
      /\ (forallb plain_operation ops = true ->
          sent_ids (trace (snd (session this ops s)))
          = (sent_ids (trace s)
               ++ map Some (ids_from (requestId s) (List.length ops)))%list))
  /\ (forall (env_url : option string) (s : State),
         exists count,
           (count <= 8)%nat
           /\ sent_ids (trace (snd (Basic.main env_url s)))
              = (sent_ids (trace s) ++ map Some (ids_from 1 count))%list
           /\ NoDup (ids_from 1 count))
  /\ (forall (serverUrl : jsval) (url method : string) (params : jsval)
             (s : State),
         JS.to_string serverUrl = Some url ->
         sent_bodies
           (trace (snd (ConnectRoute.makeRequest serverUrl method params s)))
         = (sent_bodies (trace s)
              ++ [JSON.stringify
                    (envelope method (next_random_id s)
                       (if JS.truthy params then Some params else None))])%list
         /\ 0 <= next_random_id s < 1000000
         /\ (plain params = true ->
             sent_ids
               (trace (snd (ConnectRoute.makeRequest serverUrl method params s)))
             = (sent_ids (trace s) ++ [Some (next_random_id s)])%list)).
Proof.
  split; [|split].
  - intros this ops s Hlower Hbound.
    split; [apply session_sends|]. split; [|split].
    + rewrite envelopes_ids; rewrite ?length_map;
        [reflexivity | exact Hlower | exact Hbound].
    + apply ids_from_NoDup.
    + intros Hplain. apply session_sent_ids; assumption.
  - intros env_url s. destruct (main_sends env_url s) as [calls [L [P B]]].
    exists (List.length calls). split; [exact L|]. split; [|apply ids_from_NoDup].
    unfold sent_ids. rewrite B, map_app.
    rewrite envelopes_body_ids; [reflexivity | exact P | |];
      assert (2 ^ 53 = 9007199254740992) as -> by reflexivity; lia.
  - intros serverUrl url method params s Hurl.
    assert (sent_bodies
              (trace (snd (ConnectRoute.makeRequest serverUrl method params s)))
            = (sent_bodies (trace s)
                 ++ [JSON.stringify
                       (envelope method (next_random_id s)
                          (if JS.truthy params then Some params else None))])%list)
      as Hsent.
    { rewrite connect_makeRequest_eq.
      apply (execute_makeRequest_sends _ url). exact Hurl. }
    split; [exact Hsent|]. split; [apply random_id_range|].
    intros Hplain. unfold sent_ids. rewrite Hsent, map_app. cbn [map].
    rewrite (body_id_envelope _ _ _ Hplain). reflexivity.
Qed.

Lemma counter_ids_are_distinct_witness :
  - 2 ^ 53 <= requestId (init_state [])
  /\ requestId (init_state [])
     + Z.of_nat (List.length [Initialize; ListAvailableTools;
                              ExecuteTool "list_connectors_alloy" (JObj [])])
     <= 2 ^ 53
  /\ forallb plain_operation
       [Initialize; ListAvailableTools;
        ExecuteTool "list_connectors_alloy" (JObj [])] = true
  /\ JS.to_string (JStr "https://mcp.example/mcp") = Some "https://mcp.example/mcp"
  /\ plain JUndefined = true
  /\ sent_ids
       (trace (snd (session example_client
                      [Initialize; ListAvailableTools;
                       ExecuteTool "list_connectors_alloy" (JObj [])]
                      (init_state []))))
     = [Some 1; Some 2; Some 3]
  /\ sent_ids
       (trace (snd (ConnectRoute.makeRequest (JStr "https://mcp.example/mcp")
                      "tools/list" JUndefined (init_state []))))
     = [Some 0]
  /\ sent_ids
       (trace (snd (ConnectRoute.makeRequest (JStr "https://mcp.example/mcp")
                      "tools/list" JUndefined rounding_state)))
     = [Some 999995].
Proof.
  assert (- 2 ^ 53 <= requestId (init_state [])) as Hlower
      by (vm_compute; discriminate).
  assert (requestId (init_state [])
          + Z.of_nat (List.length [Initialize; ListAvailableTools;
                                   ExecuteTool "list_connectors_alloy" (JObj [])])
          <= 2 ^ 53) as Hbound by (vm_compute; discriminate).
  split; [exact Hlower|].
  split; [exact Hbound|]. split; [reflexivity|]. split; [reflexivity|].
  split; [reflexivity|]. split; [|split].
  - exact (proj2 (proj2 (proj2 (proj1 counter_ids_are_distinct example_client
                                  [Initialize; ListAvailableTools;
                                   ExecuteTool "list_connectors_alloy" (JObj [])]
                                  (init_state []) Hlower Hbound)))
             eq_refl).
  - exact (proj2 (proj2 (proj2 (proj2 counter_ids_are_distinct)
                           (JStr "https://mcp.example/mcp")
                           "https://mcp.example/mcp"
                           "tools/list" JUndefined (init_state []) eq_refl))
             eq_refl).
  - exact (proj2 (proj2 (proj2 (proj2 counter_ids_are_distinct)
                           (JStr "https://mcp.example/mcp")
                           "https://mcp.example/mcp"
                           "tools/list" JUndefined rounding_state eq_refl))
             eq_refl).
Defined.

(** C9, as stated, fails for the random ids: when [Math.random()] returns the
    same number twice, the two requests of one run of the connect route carry
    the same id. *)
Lemma random_ids_can_repeat :
  sent_ids
    (trace (snd (ConnectRoute.POST connect_request
                   (init_state [Some (json_reply sample_envelope);
                                Some (json_reply tools_reply)]))))
  = [Some 0; Some 0]
  /\ ~ NoDup
       (sent_ids
          (trace (snd (ConnectRoute.POST connect_request
                         (init_state [Some (json_reply sample_envelope);
                                      Some (json_reply tools_reply)]))))).
Proof.
  assert (sent_ids
            (trace (snd (ConnectRoute.POST connect_request
                           (init_state [Some (json_reply sample_envelope);
                                        Some (json_reply tools_reply)]))))
          = [Some 0; Some 0]) as H by (vm_compute; reflexivity).
  split; [exact H|]. rewrite H. intros Hnd.
  inversion Hnd as [|x l Hin _]. apply Hin. left. reflexivity.
Qed.

(** C10. A falsy [params] (among them [null], [0], the empty string and
    [false]) makes the whole call run exactly as with [params] absent; in
    particular the body that is sent has no [params] member. *)
Theorem falsy_params_are_omitted (method : string) (params : jsval) (s : State) :
  JS.truthy params = false ->
  (forall this : Basic.AlloyMCPClient,
      Basic.makeRequest this method params s
      = Basic.makeRequest this method JUndefined s
      /\ sent_bodies (trace (snd (Basic.makeRequest this method params s)))
         = (sent_bodies (trace s)
              ++ [envelope_text method (requestId s) None])%list)
  /\ (forall serverUrl : jsval,
         ExecuteRoute.makeRequest serverUrl method params s
         = ExecuteRoute.makeRequest serverUrl method JUndefined s
         /\ ConnectRoute.makeRequest serverUrl method params s
            = ConnectRoute.makeRequest serverUrl method JUndefined s)
  /\ (forall (serverUrl : jsval) (url : string),
         JS.to_string serverUrl = Some url ->
         sent_bodies
           (trace (snd (ExecuteRoute.makeRequest serverUrl method params s)))
         = (sent_bodies (trace s)
              ++ [envelope_text method (next_random_id s) None])%list
         /\ sent_bodies
              (trace (snd (ConnectRoute.makeRequest serverUrl method params s)))
            = (sent_bodies (trace s)
                 ++ [envelope_text method (next_random_id s) None])%list).
Proof.
  intros Hp.
  assert (forall serverUrl,
             ExecuteRoute.makeRequest serverUrl method params s
             = ExecuteRoute.makeRequest serverUrl method JUndefined s) as Hroute.
  { intros serverUrl. destruct (JS.to_string serverUrl) as [url|] eqn:Hurl.
    - rewrite !(execute_makeRequest_run _ url) by exact Hurl.
      rewrite Hp. reflexivity.
    - rewrite !execute_makeRequest_bad_url by exact Hurl. reflexivity. }
  repeat split.
  - rewrite !basic_makeRequest_run. rewrite Hp. reflexivity.
  - rewrite basic_makeRequest_sends, Hp, stringify_envelope_absent.
    reflexivity.
  - apply Hroute.
  - rewrite connect_makeRequest_eq. apply Hroute.
  - rewrite (execute_makeRequest_sends _ url) by assumption.
    rewrite Hp, stringify_envelope_absent. reflexivity.
  - rewrite connect_makeRequest_eq.
    rewrite (execute_makeRequest_sends _ url) by assumption.
    rewrite Hp, stringify_envelope_absent. reflexivity.
Qed.

Lemma falsy_params_are_omitted_witness :
  (JS.truthy JNull = false /\ JS.truthy (JNum 0) = false
   /\ JS.truthy (JStr EmptyString) = false /\ JS.truthy (JBool false) = false)
  /\ JS.to_string (JStr "https://mcp.example/mcp") = Some "https://mcp.example/mcp"
  /\ sent_bodies
       (trace (snd (Basic.makeRequest example_client "tools/list" (JNum 0)
                      (init_state []))))
     = [envelope_text "tools/list" 1 None]
  /\ sent_bodies
       (trace (snd (Basic.makeRequest example_client "tools/list" JNull
                      (init_state []))))
     = [envelope_text "tools/list" 1 None]
  /\ sent_bodies
       (trace (snd (Basic.makeRequest example_client "tools/list"
                      (JStr EmptyString) (init_state []))))
     = [envelope_text "tools/list" 1 None]
  /\ sent_bodies
       (trace (snd (ExecuteRoute.makeRequest (JStr "https://mcp.example/mcp")
                      "tools/list" (JBool false) (init_state []))))
     = [envelope_text "tools/list" 0 None].
Proof.
  split; [repeat split|]. split; [reflexivity|].
  split; [|split; [|split]].
  - exact (proj2 (proj1 (falsy_params_are_omitted "tools/list" (JNum 0)
                           (init_state []) eq_refl)
                    example_client)).
  - exact (proj2 (proj1 (falsy_params_are_omitted "tools/list" JNull
                           (init_state []) eq_refl)
                    example_client)).
  - exact (proj2 (proj1 (falsy_params_are_omitted "tools/list" (JStr EmptyString)
                           (init_state []) eq_refl)
                    example_client)).
  - exact (proj1 (proj2 (proj2 (falsy_params_are_omitted "tools/list" (JBool false)
                                  (init_state []) eq_refl))
                    (JStr "https://mcp.example/mcp") "https://mcp.example/mcp"
                    eq_refl)).
Defined.

(** * Further lemmas *)

(** ** Outcomes *)

Lemma ensures_ret {A : Type} (P : A -> Prop) (a : A) : P a -> ensures P (ret a).
Proof. intros H s b s' E. injection E as <- _. exact H. Qed.

Lemma ensures_throw {A : Type} (P : A -> Prop) (e : js_error) :
  ensures P (throw e).
Proof. intros s b s' E. discriminate E. Qed.

Lemma ensures_bind {A B : Type} (P : B -> Prop) (c : M A) (k : A -> M B) :
  (forall a, ensures P (k a)) -> ensures P (bind c k).
Proof.
  intros Hk s b s' E. unfold bind in E.
  destruct (c s) as [[a|e] s1]; [exact (Hk a s1 b s' E) | discriminate E].
Qed.

Lemma ensures_if {A : Type} (P : A -> Prop) (b : bool) (c d : M A) :
  ensures P c -> ensures P d -> ensures P (if b then c else d).
Proof. destruct b; auto. Qed.

(** What [map] returns is an array. *)
Lemma ensures_array_map {B : Type} (P : B -> Prop) (name : string) (v : jsval)
  (f : jsval -> M jsval) (k : jsval -> M B) :
  (forall ys, ensures P (k (JArr ys))) ->
  ensures P (bind (ConnectRoute.array_map name v f) k).
Proof.
  intros Hk s b s' E. unfold bind in E.
  destruct v; cbn [ConnectRoute.array_map] in E; try discriminate E.
  unfold bind in E.
  destruct (ConnectRoute.map_m f xs s) as [[ys|e] s1]; [|discriminate E].
  exact (Hk ys s1 b s' E).
Qed.

Ltac solve_ensures :=
  repeat first [ apply ensures_array_map; intros
               | apply ensures_bind; intros
               | apply ensures_if
               | apply ensures_throw
               | apply ensures_ret ].

(** A [try]/[catch] whose handler answers returns an answer, whatever
    happens. *)
Lemma try_catch_answers {A : Type} (P : A -> Prop) (c : M A)
  (h : js_error -> A) (s : State) :
  ensures P c -> (forall e, P (h e)) ->
  exists a, fst (try_catch c (fun e => ret (h e)) s) = Ok a /\ P a.
Proof.
  intros Hc Hh. unfold try_catch.
  destruct (c s) as [[a|e] s'] eqn:E.
  - exists a. split; [reflexivity | exact (Hc s a s' E)].
  - exists (h e). split; [reflexivity | apply Hh].
Qed.

(** ** The requests that are sent *)

Lemma fetches_app (a b : list event) :
  fetches (a ++ b) = (fetches a ++ fetches b)%list.
Proof.
  induction a as [|[] a IH]; simpl; rewrite ?IH; reflexivity.
Qed.

Lemma exchange_fetches (url req : string) (s : State) :
  fetches (trace (snd (exchange url req s)))
  = (fetches (trace s) ++ [(url, post_init req)])%list.
Proof.
  destruct (pending s) as [|[r|] rest] eqn:Hp.
  - rewrite exchange_no_reply by assumption. simpl.
    rewrite fetches_app. reflexivity.
  - destruct (ok r) eqn:Hok.
    + destruct (is_event_stream (content_type r)) eqn:Hct.
      * destruct (JS.match_data (body r)) as [g|] eqn:Hm.
        -- erewrite exchange_sse_data by eassumption. simpl.
           rewrite fetches_app. reflexivity.
        -- erewrite exchange_sse_no_data by eassumption. simpl.
           rewrite fetches_app. reflexivity.
      * erewrite exchange_json by eassumption. simpl.
        rewrite fetches_app. reflexivity.
    + erewrite exchange_not_ok by eassumption. simpl.
      rewrite fetches_app. reflexivity.
  - erewrite exchange_failed by eassumption. simpl.
    rewrite fetches_app. reflexivity.
Qed.

Lemma sends_stateless {A : Type} (n : nat) (c : M A) :
  stateless c -> sends_at_most n c.
Proof.
  intros Hc s. exists []. rewrite Hc, app_nil_r. split; [reflexivity | simpl; lia].
Qed.

Lemma sends_bind {A B : Type} (n m : nat) (c : M A) (k : A -> M B) :
  sends_at_most n c -> (forall a, sends_at_most m (k a)) ->
  sends_at_most (n + m) (bind c k).
Proof.
  intros Hc Hk s. unfold bind. destruct (Hc s) as [sent [E L]].
  destruct (c s) as [[a|e] s1]; simpl in E.
  - destruct (Hk a s1) as [sent' [E' L']].
    exists (sent ++ sent')%list. rewrite E', E, <- app_assoc, length_app.
    split; [reflexivity | lia].
  - exists sent. simpl. split; [exact E | lia].
Qed.

Lemma sends_after {A B : Type} (n : nat) (c : M A) (k : A -> M B) :
  stateless c -> (forall a, sends_at_most n (k a)) -> sends_at_most n (bind c k).
Proof.
  intros Hc Hk. apply (sends_bind 0 n); [apply sends_stateless, Hc | exact Hk].
Qed.

Lemma sends_if {A : Type} (n : nat) (b : bool) (c d : M A) :
  sends_at_most n c -> sends_at_most n d ->
  sends_at_most n (if b then c else d).
Proof. destruct b; auto. Qed.

Lemma sends_try_catch {A : Type} (n : nat) (c : M A) (h : js_error -> M A) :
  sends_at_most n c -> (forall e, stateless (h e)) ->
  sends_at_most n (try_catch c h).
Proof.
  intros Hc Hh s. rewrite try_catch_stateless by exact Hh. apply Hc.
Qed.

Lemma sends_exchange (url req : string) : sends_at_most 1 (exchange url req).
Proof.
  intros s. exists [(url, post_init req)]. split; [apply exchange_fetches | simpl; lia].
Qed.

Lemma route_makeRequest_sends_at_most (serverUrl : jsval) (method : string)
  (params : jsval) :
  sends_at_most 1 (ExecuteRoute.makeRequest serverUrl method params).
Proof.
  intros s. destruct (JS.to_string serverUrl) as [url|] eqn:Hurl.
  - rewrite (execute_makeRequest_run _ url) by exact Hurl.
    destruct (sends_exchange url
                (JSON.stringify
                   (envelope method (next_random_id s)
                      (if JS.truthy params then Some params else None)))
                (with_drawn (S (drawn s)) s)) as [sent [E L]].
    exists sent. split; [exact E | exact L].
  - rewrite execute_makeRequest_bad_url by exact Hurl.
    exists []. simpl. rewrite app_nil_r. split; [reflexivity | lia].
Qed.

Lemma stateless_request_json (request : string) : stateless (request_json request).
Proof.
  intros s. unfold request_json. destruct (JSON.parse request); reflexivity.
Qed.

Lemma stateless_name_includes (name : jsval) (word : string) :
  stateless (ConnectRoute.name_includes name word).
Proof. destruct name; intros st; reflexivity. Qed.

#[local] Hint Resolve stateless_request_json stateless_name_includes : stateless.

Lemma stateless_getCategoryFromToolName (name : jsval) :
  stateless (ConnectRoute.getCategoryFromToolName name).
Proof. unfold ConnectRoute.getCategoryFromToolName. solve_stateless. Qed.

Lemma stateless_map_m (f : jsval -> M jsval) (xs : list jsval) :
  (forall x, stateless (f x)) -> stateless (ConnectRoute.map_m f xs).
Proof.
  intros Hf. induction xs as [|x xs IH]; cbn [ConnectRoute.map_m].
  - apply stateless_ret.
  - apply stateless_bind; [apply Hf | intros y].
    apply stateless_bind; [exact IH | intros ys; apply stateless_ret].
Qed.

Lemma stateless_array_map (name : string) (v : jsval) (f : jsval -> M jsval) :
  (forall x, stateless (f x)) -> stateless (ConnectRoute.array_map name v f).
Proof.
  intros Hf. destruct v; cbn [ConnectRoute.array_map];
    try apply stateless_throw.
  apply stateless_bind; [apply stateless_map_m, Hf | intros; apply stateless_ret].
Qed.

#[local] Hint Resolve stateless_getCategoryFromToolName stateless_map_m
  stateless_array_map : stateless.

Ltac solve_pure :=
  repeat (intros; auto with stateless; try apply stateless_bind;
          try apply stateless_if; try apply stateless_array_map).

Ltac solve_sends :=
  lazymatch goal with
  | |- sends_at_most _ (try_catch _ _) =>
      apply sends_try_catch; [solve_sends | solve_pure]
  | |- sends_at_most _ (bind (ExecuteRoute.makeRequest _ _ _) _) =>
      apply (sends_bind 1);
      [apply route_makeRequest_sends_at_most | intros; solve_sends]
  | |- sends_at_most _ (bind (ConnectRoute.makeRequest _ _ _) _) =>
      apply (sends_bind 1);
      [apply route_makeRequest_sends_at_most | intros; solve_sends]
  | |- sends_at_most _ (bind _ _) =>
      apply sends_after; [solve [solve_pure] | intros; solve_sends]
  | |- sends_at_most _ (if _ then _ else _) => apply sends_if; solve_sends
  | |- _ => apply sends_stateless; solve [solve_pure]
  end.

(** * Further properties of the examples *)

(** ** The routes *)

(** X1. A request to the tool-execution route whose [serverUrl] or
    [toolName] is missing or falsy is answered with status 400 and the error
    [Missing required parameters]; no request is sent and no reply
    consumed. *)
Theorem execute_route_requires_parameters
  (request : string) (data serverUrl toolName : jsval) (s : State) :
  JSON.parse request = Some data ->
  JS.get data "serverUrl" = Ok serverUrl ->
  JS.get data "toolName" = Ok toolName ->
  JS.truthy serverUrl && JS.truthy toolName = false ->
  ExecuteRoute.POST request s
  = (Ok (error_answer 400 "Missing required parameters"), s).
Proof.
  intros Hdata Hu Ht Hfalsy.
  assert (exists a, JS.get data "arguments" = Ok a) as [a Ha].
  { destruct data; try discriminate Hu; simpl; eauto;
      destruct (String.eqb _ _); eauto. }
  unfold ExecuteRoute.POST, try_catch, request_json.
  rewrite Hdata. unfold bind at 1. unfold ret at 1.
  rewrite (bind_lift _ _ _ _ Hu), (bind_lift _ _ _ _ Ht), (bind_lift _ _ _ _ Ha).
  rewrite <- negb_andb, Hfalsy. reflexivity.
Qed.

Lemma execute_route_requires_parameters_witness :
  ExecuteRoute.POST
    (JSON.stringify (JObj [("toolName", JStr "list_connectors_alloy")]))
    (init_state [])
  = (Ok (error_answer 400 "Missing required parameters"), init_state []).
Proof.
  apply (execute_route_requires_parameters _
           (JObj [("toolName", JStr "list_connectors_alloy")])
           JUndefined (JStr "list_connectors_alloy"));
    reflexivity.
Defined.

(** X2. A request to the connect route whose [serverUrl] is missing or falsy
    is answered with status 400 and the error [Missing server URL]; no request
    is sent and no reply consumed. *)
Theorem connect_route_requires_server_url
  (request : string) (data serverUrl : jsval) (s : State) :
  JSON.parse request = Some data ->
  JS.get data "serverUrl" = Ok serverUrl ->
  JS.truthy serverUrl = false ->
  ConnectRoute.POST request s = (Ok (error_answer 400 "Missing server URL"), s).
Proof.
  intros Hdata Hu Hfalsy.
  assert (exists k, JS.get data "apiKey" = Ok k) as [k Hk].
  { destruct data; try discriminate Hu; simpl; eauto;
      destruct (String.eqb _ _); eauto. }
  unfold ConnectRoute.POST, try_catch, request_json.
  rewrite Hdata. unfold bind at 1. unfold ret at 1.
  rewrite (bind_lift _ _ _ _ Hu), (bind_lift _ _ _ _ Hk).
  rewrite Hfalsy. reflexivity.
Qed.

Lemma connect_route_requires_server_url_witness :
  ConnectRoute.POST
    (JSON.stringify (JObj [("serverUrl", JStr EmptyString);
                           ("apiKey", JStr "key")]))
    (init_state [])
  = (Ok (error_answer 400 "Missing server URL"), init_state []).
Proof.
  apply (connect_route_requires_server_url _
           (JObj [("serverUrl", JStr EmptyString); ("apiKey", JStr "key")])
           (JStr EmptyString));
    reflexivity.
Defined.

Lemma execute_route_answers (request : string) (s : State) :
  exists answer,
    fst (ExecuteRoute.POST request s) = Ok answer /\ execute_answer answer.
Proof.
  unfold ExecuteRoute.POST.
  match goal with
  | |- context [try_catch ?c _] =>
      assert (ensures execute_answer c) as Hc
  end.
  { unfold execute_answer. solve_ensures; eauto. }
  unfold try_catch.
  match goal with
  | |- context [match ?c s with _ => _ end] => destruct (c s) as [[a|e] s'] eqn:E
  end.
  - exists a. split; [reflexivity | exact (Hc s a s' E)].
  - eexists. split; [reflexivity|]. right. right. eexists. reflexivity.
Qed.

Lemma connect_route_answers (request : string) (s : State) :
  exists answer,
    fst (ConnectRoute.POST request s) = Ok answer /\ connect_answer answer.
Proof.
  unfold ConnectRoute.POST.
  match goal with
  | |- context [try_catch ?c _] =>
      assert (ensures connect_answer c) as Hc
  end.
  { unfold connect_answer. solve_ensures; eauto. }
  unfold try_catch.
  match goal with
  | |- context [match ?c s with _ => _ end] => destruct (c s) as [[a|e] s'] eqn:E
  end.
  - exists a. split; [reflexivity | exact (Hc s a s' E)].
  - eexists. split; [reflexivity|]. right. right. eexists. reflexivity.
Qed.

(** X3. The tool-execution route answers every request: whatever the
    request and whatever the server does, the handler returns (it never
    throws) an answer with status 200, 400 or 500; an answer of status 200 is
    an object with the one member [content], any other an object with the one
    member [error], which for status 500 is a text that starts with
    [Failed to execute tool: ].  The handler sends at most one request. *)
Theorem execute_route_always_answers (request : string) (s : State) :
  (exists answer,
      fst (ExecuteRoute.POST request s) = Ok answer
      /\ ((exists content,
              answer = NextResponse_json (JObj [("content", content)]) 200)
          \/ answer = error_answer 400 "Missing required parameters"
          \/ (exists text,
                 answer = error_answer 500 ("Failed to execute tool: " ++ text))))
  /\ (exists sent,
         fetches (trace (snd (ExecuteRoute.POST request s)))
         = (fetches (trace s) ++ sent)%list
         /\ (List.length sent <= 1)%nat).
Proof.
  split; [apply execute_route_answers|].
  assert (sends_at_most 1 (ExecuteRoute.POST request)) as H.
  { unfold ExecuteRoute.POST. solve_sends. }
  exact (H s).
Qed.

(** X4. The connect route answers every request: the handler returns an
    answer with status 200 (the object with [success] and [tools], an array),
    400 or 500 (an object with the one member [error], for status 500 a text
    that starts with [Failed to connect to MCP server: ]).  It sends at most
    two requests. *)
Theorem connect_route_always_answers (request : string) (s : State) :
  (exists answer,
      fst (ConnectRoute.POST request s) = Ok answer
      /\ ((exists tools,
              answer = NextResponse_json
                         (JObj [("success", JBool true); ("tools", JArr tools)])
                         200)
          \/ answer = error_answer 400 "Missing server URL"
          \/ (exists text,
                 answer = error_answer 500
                            ("Failed to connect to MCP server: " ++ text))))
  /\ (exists sent,
         fetches (trace (snd (ConnectRoute.POST request s)))
         = (fetches (trace s) ++ sent)%list
         /\ (List.length sent <= 2)%nat).
Proof.
  split; [apply connect_route_answers|].
  assert (sends_at_most 2 (ConnectRoute.POST request)) as H.
  { unfold ConnectRoute.POST. solve_sends. }
  exact (H s).
Qed.

(** The connect route, once its request is read. *)
Lemma connect_POST_inputs (request : string) (serverUrl : jsval) (s : State) :
  connect_inputs request = Some serverUrl ->
  ConnectRoute.POST request s
  = try_catch
      (initResponse <- ConnectRoute.makeRequest serverUrl "initialize"
                         connect_initialize_params ;;
       error <- lift (JS.get initResponse "error") ;;
       if JS.truthy error then
         message <- lift (JS.get error "message") ;;
         text <- to_string_m message ;;
         throw (Error ("Initialization failed: " ++ text))
       else
         toolsResponse <- ConnectRoute.makeRequest serverUrl "tools/list"
                            JUndefined ;;
         error <- lift (JS.get toolsResponse "error") ;;
         if JS.truthy error then
           message <- lift (JS.get error "message") ;;
           text <- to_string_m message ;;
           throw (Error ("Failed to list tools: " ++ text))
         else
           result <- lift (JS.get toolsResponse "result") ;;
           result_tools <- lift (JS.get_opt result "tools") ;;
           let tools := JS.or result_tools (JArr []) in
           transformedTools <-
             ConnectRoute.array_map "tools" tools
               (fun tool =>
                  name <- lift (JS.get tool "name") ;;
                  description <- lift (JS.get tool "description") ;;
                  name' <- lift (JS.get tool "name") ;;
                  category <- ConnectRoute.getCategoryFromToolName name' ;;
                  inputSchema <- lift (JS.get tool "inputSchema") ;;
                  ret (JObj [("name", name); ("description", description);
                             ("category", category);
                             ("inputSchema", inputSchema)])) ;;
           ret (NextResponse_json
                  (JObj [("success", JBool true); ("tools", transformedTools)])
                  200))
      (fun error =>
         ret (error_answer 500
                ("Failed to connect to MCP server: " ++ error_to_string error)))
      s.
Proof.
  unfold connect_inputs. intros H.
  destruct (JSON.parse request) as [data|] eqn:Hdata; [|discriminate].
  destruct (JS.get data "serverUrl") as [u|] eqn:Hu; [|discriminate].
  destruct (JS.get data "apiKey") as [k|] eqn:Hk; [|discriminate].
  destruct (JS.truthy u) eqn:Htruthy; [|discriminate].
  injection H as ->.
  unfold ConnectRoute.POST, try_catch, request_json.
  rewrite Hdata. unfold bind at 1. unfold ret at 1.
  rewrite (bind_lift _ _ _ _ Hu), (bind_lift _ _ _ _ Hk).
  rewrite Htruthy. cbn [negb].
  destruct (bind _ _ s) as [[a|e] s']; reflexivity.
Qed.

Lemma execute_POST_inputs (request : string) (serverUrl toolName toolArgs : jsval)
  (s : State) (e : js_error) (s' : State) :
  execute_inputs request = Some (serverUrl, toolName, toolArgs) ->
  ExecuteRoute.makeRequest serverUrl "tools/call"
    (JObj [("name", toolName); ("arguments", JS.or toolArgs (JObj []))]) s
  = (Throw e, s') ->
  ExecuteRoute.POST request s
  = (Ok (error_answer 500 ("Failed to execute tool: " ++ error_to_string e)), s').
Proof.
  intros Hin Hm. rewrite (execute_POST_run _ _ _ _ _ Hin).
  erewrite try_catch_throw by (erewrite bind_throw by exact Hm; reflexivity).
  reflexivity.
Qed.

Lemma error_to_string_Error (m : string) :
  error_to_string (Error ("HTTP " ++ m)) = "Error: HTTP " ++ m.
Proof. reflexivity. Qed.

(** X5. A non-2xx reply of the server reaches the caller of a route as an
    answer of status 500 whose text names the status and the status text of
    that reply; the route consumes that one reply and does not read its
    body. *)
Theorem routes_report_upstream_status
  (serverUrl : jsval) (url : string) (s : State) (r : Response)
  (rest : list (option Response)) :
  JS.to_string serverUrl = Some url ->
  pending s = Some r :: rest ->
  ok r = false ->
  (forall request toolName toolArgs,
      execute_inputs request = Some (serverUrl, toolName, toolArgs) ->
      fst (ExecuteRoute.POST request s)
      = Ok (error_answer 500
              ("Failed to execute tool: Error: HTTP "
                 ++ JS.string_of_Z (status r) ++ ": " ++ statusText r))
      /\ pending (snd (ExecuteRoute.POST request s)) = rest
      /\ exists req,
          trace (snd (ExecuteRoute.POST request s))
          = (trace s ++ [CallFetch url (post_init req)])%list)
  /\ (forall request,
         connect_inputs request = Some serverUrl ->
         fst (ConnectRoute.POST request s)
         = Ok (error_answer 500
                 ("Failed to connect to MCP server: Error: HTTP "
                    ++ JS.string_of_Z (status r) ++ ": " ++ statusText r))
         /\ pending (snd (ConnectRoute.POST request s)) = rest
         /\ exists req,
             trace (snd (ConnectRoute.POST request s))
             = (trace s ++ [CallFetch url (post_init req)])%list).
Proof.
  intros Hurl Hp Hok. split.
  - intros request toolName toolArgs Hin.
    erewrite execute_POST_inputs.
    2: exact Hin.
    2:{ rewrite (execute_makeRequest_run _ url) by exact Hurl.
        erewrite exchange_not_ok by (try exact Hok; exact Hp). reflexivity. }
    repeat split. eexists. reflexivity.
  - intros request Hin. rewrite (connect_POST_inputs _ _ _ Hin).
    erewrite try_catch_throw.
    2:{ erewrite bind_throw; [reflexivity|].
        rewrite connect_makeRequest_eq.
        rewrite (execute_makeRequest_run _ url) by exact Hurl.
        erewrite exchange_not_ok by (try exact Hok; exact Hp). reflexivity. }
    repeat split. eexists. reflexivity.
Qed.

Lemma routes_report_upstream_status_witness :
  fst (ExecuteRoute.POST execute_request (init_state [Some not_found]))
  = Ok (error_answer 500 "Failed to execute tool: Error: HTTP 404: Not Found").
Proof.
  pose proof (routes_report_upstream_status
                (JStr "https://mcp.example/mcp") "https://mcp.example/mcp"
                (init_state [Some not_found]) not_found []
                eq_refl eq_refl eq_refl) as [H _].
  exact (proj1 (H execute_request (JStr "list_connectors_alloy") (JObj [])
                  eq_refl)).
Defined.

Lemma exchange_random (url req : string) (s : State) :
  random (snd (exchange url req s)) = random s
  /\ drawn (snd (exchange url req s)) = drawn s.
Proof.
  destruct (pending s) as [|[r|] rest] eqn:Hp.
  - rewrite exchange_no_reply by assumption. split; reflexivity.
  - destruct (ok r) eqn:Hok.
    + destruct (is_event_stream (content_type r)) eqn:Hct.
      * destruct (JS.match_data (body r)) as [g|] eqn:Hm.
        -- erewrite exchange_sse_data by eassumption. split; reflexivity.
        -- erewrite exchange_sse_no_data by eassumption. split; reflexivity.
      * erewrite exchange_json by eassumption. split; reflexivity.
    + erewrite exchange_not_ok by eassumption. split; reflexivity.
  - erewrite exchange_failed by eassumption. split; reflexivity.
Qed.

Lemma random_id_next (s : State) : next_random_id s = random_id s 0.
Proof. unfold next_random_id, random_id. rewrite Nat.add_0_r. reflexivity. Qed.

(** A call of a route's [makeRequest] with a URL that converts to a string:
    the request it sends and the state of the draws it leaves. *)
Lemma route_makeRequest_fetches (serverUrl : jsval) (url method : string)
  (params : jsval) (s : State) :
  JS.to_string serverUrl = Some url ->
  fetches (trace (snd (ExecuteRoute.makeRequest serverUrl method params s)))
  = (fetches (trace s)
       ++ [(url,
            post_init
              (JSON.stringify
                 (envelope method (random_id s 0)
                    (if JS.truthy params then Some params else None))))])%list
  /\ (forall k,
         random_id (snd (ExecuteRoute.makeRequest serverUrl method params s)) k
         = random_id s (S k)).
Proof.
  intros Hurl. rewrite (execute_makeRequest_run _ url) by exact Hurl.
  rewrite exchange_fetches, random_id_next. split; [reflexivity|].
  intros k.
  destruct (exchange_random url
              (JSON.stringify
                 (envelope method (random_id s 0)
                    (if JS.truthy params then Some params else None)))
              (with_drawn (S (drawn s)) s)) as [Hr Hd].
  unfold random_id at 1 3. rewrite Hr, Hd. cbn [random drawn with_drawn].
  rewrite Nat.add_succ_r. reflexivity.
Qed.

(** X6. The connect route sends [initialize] first, with the client info of
    the chat example, and then [tools/list] without params, exactly when the
    first call returned an envelope whose [error] is falsy; it sends nothing
    else.  Both requests go to the URL of the request, as POST with the two
    headers of the exchange, and carry the ids drawn for them. *)
Theorem connect_route_requests
  (request : string) (serverUrl : jsval) (url : string) (s : State) :
  connect_inputs request = Some serverUrl ->
  JS.to_string serverUrl = Some url ->
  fetches (trace (snd (ConnectRoute.POST request s)))
  = (fetches (trace s)
       ++ (url,
           post_init
             (JSON.stringify
                (envelope "initialize" (random_id s 0)
                   (Some connect_initialize_params))))
          :: (if initialized
                   (fst (ConnectRoute.makeRequest serverUrl "initialize"
                           connect_initialize_params s))
              then [(url,
                     post_init
                       (JSON.stringify
                          (envelope "tools/list" (random_id s 1) None)))]
              else []))%list.
Proof.
  intros Hin Hurl. rewrite (connect_POST_inputs _ _ _ Hin).
  rewrite try_catch_stateless by (intros; apply stateless_ret).
  rewrite connect_makeRequest_eq.
  destruct (route_makeRequest_fetches serverUrl url "initialize"
              connect_initialize_params s Hurl) as [Hf Hr].
  unfold bind at 1.
  destruct (ExecuteRoute.makeRequest serverUrl "initialize"
              connect_initialize_params s) as [[E|e] s1] eqn:Hm;
    cbn [fst snd] in *.
  2:{ cbn [initialized]. exact Hf. }
  cbn [initialized]. unfold bind at 1, lift at 1.
  destruct (JS.get E "error") as [error|e]; cbn [snd].
  2:{ exact Hf. }
  destruct (JS.truthy error); cbn [negb].
  - match goal with
    | |- context [snd (?c s1)] =>
        assert (stateless c) as Hs by solve_pure; rewrite (Hs s1)
    end.
    exact Hf.
  - rewrite bind_stateless by solve_pure.
    destruct (route_makeRequest_fetches serverUrl url "tools/list"
                JUndefined s1 Hurl) as [Hf' _].
    rewrite Hf', Hf, <- app_assoc. cbn [JS.truthy].
    unfold random_id at 2. rewrite <- (Hr 0%nat) at 1.
    unfold random_id. rewrite Nat.add_0_r. reflexivity.
Qed.

Lemma connect_route_requests_witness :
  fetches (trace (snd (ConnectRoute.POST connect_request
                         (init_state [Some (json_reply sample_envelope);
                                      Some (json_reply tools_reply)]))))
  = [("https://mcp.example/mcp",
      post_init (JSON.stringify
                   (envelope "initialize" 0 (Some connect_initialize_params))));
     ("https://mcp.example/mcp",
      post_init (JSON.stringify (envelope "tools/list" 0 None)))].
Proof.
  apply (connect_route_requests connect_request
           (JStr "https://mcp.example/mcp") "https://mcp.example/mcp"
           (init_state [Some (json_reply sample_envelope);
                        Some (json_reply tools_reply)]));
    reflexivity.
Defined.

(** X7. When the reply to [initialize] decodes to an envelope whose [error]
    has the string [message], the connect route answers with status 500 and
    the text [Failed to connect to MCP server: Error: Initialization failed:
    <message>]; it has consumed that one reply and sent that one request:
    the tools are not asked for. *)
Theorem connect_route_stops_at_failed_initialization
  (request : string) (serverUrl : jsval) (url : string) (s : State)
  (r : Response) (rest : list (option Response)) (E error : jsval)
  (message : string) :
  connect_inputs request = Some serverUrl ->
  JS.to_string serverUrl = Some url ->
  pending s = Some r :: rest ->
  decoded r = Some E ->
  JS.get E "error" = Ok error ->
  JS.truthy error = true ->
  JS.get error "message" = Ok (JStr message) ->
  fst (ConnectRoute.POST request s)
  = Ok (error_answer 500
          ("Failed to connect to MCP server: Error: Initialization failed: "
             ++ message))
  /\ pending (snd (ConnectRoute.POST request s)) = rest
  /\ List.length (fetches (trace (snd (ConnectRoute.POST request s))))
     = S (List.length (fetches (trace s))).
Proof.
  intros Hin Hurl Hp Hd Herr Htruthy Hmsg.
  rewrite (connect_POST_inputs _ _ _ Hin).
  erewrite try_catch_throw.
  2:{ erewrite bind_ok.
      2:{ rewrite connect_makeRequest_eq.
          rewrite (execute_makeRequest_run _ url) by exact Hurl.
          erewrite exchange_decoded by (try exact Hd; exact Hp). reflexivity. }
      rewrite (bind_lift _ _ _ _ Herr). rewrite Htruthy.
      rewrite (bind_lift _ _ _ _ Hmsg). reflexivity. }
  cbn [fst snd ret pending with_pending trace with_events with_drawn].
  repeat split.
  rewrite fetches_app, length_app. simpl. unfold reply_events.
  destruct (is_event_stream (content_type r));
    [destruct (JS.match_data (body r))|]; simpl; lia.
Qed.

Lemma connect_route_stops_at_failed_initialization_witness :
  fst (ConnectRoute.POST connect_request
         (init_state [Some (json_reply (remote_error (-32601) "Method not found"));
                      Some (json_reply tools_reply)]))
  = Ok (error_answer 500
          "Failed to connect to MCP server: Error: Initialization failed: Method not found").
Proof.
  exact (proj1 (connect_route_stops_at_failed_initialization connect_request
                  (JStr "https://mcp.example/mcp") "https://mcp.example/mcp"
                  (init_state
                     [Some (json_reply (remote_error (-32601) "Method not found"));
                      Some (json_reply tools_reply)])
                  (json_reply (remote_error (-32601) "Method not found"))
                  [Some (json_reply tools_reply)]
                  (remote_error (-32601) "Method not found")
                  (JObj [("code", JNum (-32601));
                         ("message", JStr "Method not found")])
                  "Method not found"
                  eq_refl eq_refl eq_refl eq_refl eq_refl eq_refl eq_refl)).
Defined.

Lemma map_m_fails (f : jsval -> M jsval) (t : jsval) (ts : list jsval) :
  In t ts -> fails (f t) -> fails (ConnectRoute.map_m f ts).
Proof.
  intros Hin Hf. induction ts as [|x ts IH]; [contradiction|].
  intros s. cbn [ConnectRoute.map_m]. unfold bind at 1.
  destruct (f x s) as [[y|e] s1] eqn:Hx.
  - destruct Hin as [->|Hin].
    + destruct (Hf s) as [e [s' He]]. congruence.
    + destruct (IH Hin s1) as [e [s' He]]. unfold bind. rewrite He. eauto.
  - eauto.
Qed.

Lemma nameless_fails (tool : jsval) :
  nameless tool = true ->
  fails (name <- lift (JS.get tool "name") ;;
         description <- lift (JS.get tool "description") ;;
         name' <- lift (JS.get tool "name") ;;
         category <- ConnectRoute.getCategoryFromToolName name' ;;
         inputSchema <- lift (JS.get tool "inputSchema") ;;
         ret (JObj [("name", name); ("description", description);
                    ("category", category); ("inputSchema", inputSchema)])).
Proof.
  unfold nameless. intros H s. unfold bind at 1, lift at 1.
  destruct (JS.get tool "name") as [name|e] eqn:Hn; [|eauto].
  unfold bind at 1, lift at 1.
  destruct (JS.get tool "description") as [d|e]; [|eauto].
  unfold bind at 1, lift at 1.
  destruct name; try discriminate H; cbn; eauto.
Qed.

(** X8. When some descriptor of [result.tools] has no name that is a string
    (or an array), the connect route answers with status 500, although both
    replies of the server were successes; the command-line client returns the
    list of the same reply as it is when its descriptors can be printed. *)
Theorem nameless_tool_fails_connect_route
  (request : string) (serverUrl : jsval) (url : string) (s : State)
  (r1 r2 : Response) (rest : list (option Response))
  (E1 error1 E error result : jsval) (ts : list jsval) :
  connect_inputs request = Some serverUrl ->
  JS.to_string serverUrl = Some url ->
  pending s = Some r1 :: Some r2 :: rest ->
  decoded r1 = Some E1 ->
  JS.get E1 "error" = Ok error1 ->
  JS.truthy error1 = false ->
  decoded r2 = Some E ->
  JS.get E "error" = Ok error ->
  JS.truthy error = false ->
  JS.get E "result" = Ok result ->
  JS.get_opt result "tools" = Ok (JArr ts) ->
  existsb nameless ts = true ->
  (exists text,
      fst (ConnectRoute.POST request s)
      = Ok (error_answer 500 ("Failed to connect to MCP server: " ++ text)))
  /\ (forall (this : Basic.AlloyMCPClient) (s' : State)
             (rest' : list (option Response)),
         pending s' = Some r2 :: rest' ->
         Forall (fun t => listable t = true) ts ->
         fst (Basic.listAvailableTools this s') = Ok (JArr ts)).
Proof.
  intros Hin Hurl Hp Hd1 Herr1 Hfalsy1 Hd Herr Hfalsy Hres Htools Hex.
  split.
  - apply existsb_exists in Hex as [t [Ht Hnameless]].
    rewrite (connect_POST_inputs _ _ _ Hin).
    unfold try_catch.
    match goal with
    | |- context [match ?c s with _ => _ end] =>
        assert (exists e s', c s = (Throw e, s')) as [e [s' Hc]]
    end.
    { erewrite bind_ok.
      2:{ rewrite connect_makeRequest_eq.
          rewrite (execute_makeRequest_run _ url) by exact Hurl.
          erewrite exchange_decoded by (try exact Hd1; simpl; exact Hp).
          reflexivity. }
      rewrite (bind_lift _ _ _ _ Herr1). rewrite Hfalsy1.
      erewrite bind_ok.
      2:{ rewrite connect_makeRequest_eq.
          rewrite (execute_makeRequest_run _ url) by exact Hurl.
          erewrite exchange_decoded by (try exact Hd; reflexivity).
          reflexivity. }
      rewrite (bind_lift _ _ _ _ Herr). rewrite Hfalsy.
      rewrite (bind_lift _ _ _ _ Hres).
      rewrite (bind_lift _ _ _ _ Htools).
      cbn [JS.or JS.truthy ConnectRoute.array_map].
      unfold bind.
      match goal with
      | |- context [ConnectRoute.map_m ?f ts ?st] =>
          destruct (map_m_fails f t ts Ht (nameless_fails t Hnameless) st)
            as [e [s' He]]; rewrite He
      end.
      eauto. }
    rewrite Hc. eexists. reflexivity.
  - intros this s' rest' Hp' Hl.
    destruct (basic_listAvailableTools_run this s' r2 rest' E error result
                (JArr ts) Hp' Hd Herr Hfalsy Hres Htools) as [H _].
    exact (H ts eq_refl Hl).
Qed.

Lemma nameless_tool_fails_connect_route_witness :
  exists text,
    fst (ConnectRoute.POST connect_request
           (init_state
              [Some (json_reply sample_envelope);
               Some (json_reply
                       (JObj [("result",
                               JObj [("tools",
                                      JArr [JObj [("description", JStr "a tool")]])])]))]))
    = Ok (error_answer 500 ("Failed to connect to MCP server: " ++ text)).
Proof.
  exact (proj1 (nameless_tool_fails_connect_route connect_request
                  (JStr "https://mcp.example/mcp") "https://mcp.example/mcp"
                  (init_state
                     [Some (json_reply sample_envelope);
                      Some (json_reply
                              (JObj [("result",
                                      JObj [("tools",
                                             JArr [JObj [("description",
                                                          JStr "a tool")]])])]))])
                  (json_reply sample_envelope)
                  (json_reply
                     (JObj [("result",
                             JObj [("tools",
                                    JArr [JObj [("description", JStr "a tool")]])])]))
                  [] sample_envelope JUndefined
                  (JObj [("result",
                          JObj [("tools",
                                 JArr [JObj [("description", JStr "a tool")]])])])
                  JUndefined
                  (JObj [("tools", JArr [JObj [("description", JStr "a tool")]])])
                  [JObj [("description", JStr "a tool")]]
                  eq_refl eq_refl eq_refl eq_refl eq_refl eq_refl eq_refl
                  eq_refl eq_refl eq_refl eq_refl eq_refl)).
Defined.

(** ** The command-line client *)

Lemma swallowed (c : M unit) (note : js_error -> string) (s : State) :
  exists s', try_catch c (fun error => console_log (note error)) s = (Ok tt, s').
Proof.
  unfold try_catch. destruct (c s) as [[[]|e] s']; eexists; reflexivity.
Qed.

Lemma swallowed_connectivity (client : Basic.AlloyMCPClient) (s : State) :
  exists s', Basic.demonstrateConnectivity client s = (Ok tt, s').
Proof. apply swallowed. Qed.

Lemma swallowed_credentials (client : Basic.AlloyMCPClient) (s : State) :
  exists s', Basic.demonstrateCredentials client s = (Ok tt, s').
Proof. apply swallowed. Qed.

Lemma swallowed_discovery (client : Basic.AlloyMCPClient) (s : State) :
  exists s', Basic.demonstrateDiscovery client s = (Ok tt, s').
Proof. apply swallowed. Qed.

(** X9. [main] never throws, and its exit code is decided before the
    demonstrations: it is 1 when the construction of the client, the
    initialization or the listing of the tools throws, and 0 otherwise,
    whatever happens to the calls of the demonstrations. *)
Theorem main_exit_code (env_url : option string) (s : State) :
  fst (Basic.main env_url s)
  = Ok (if throws (fst (startup env_url s)) then 1 else 0).
Proof.
  unfold Basic.main, startup, try_catch.
  destruct (Basic.constructor env_url s) as [[client|e] s1] eqn:Hc.
  2:{ do 2 erewrite (bind_throw (Basic.constructor env_url)) by exact Hc. reflexivity. }
  do 2 erewrite (bind_ok (Basic.constructor env_url)) by exact Hc.
  destruct (Basic.initialize client s1) as [[[]|e] s2] eqn:Hi.
  2:{ do 2 erewrite (bind_throw (Basic.initialize client)) by exact Hi. reflexivity. }
  do 2 erewrite (bind_ok (Basic.initialize client)) by exact Hi.
  destruct (Basic.listAvailableTools client s2) as [[tools|e] s3] eqn:Hl.
  2:{ do 2 erewrite (bind_throw (Basic.listAvailableTools client)) by exact Hl. reflexivity. }
  do 2 erewrite (bind_ok (Basic.listAvailableTools client)) by exact Hl.
  destruct (swallowed_connectivity client s3) as [s4 H4].
  erewrite bind_ok by exact H4.
  destruct (swallowed_credentials client s4) as [s5 H5].
  erewrite bind_ok by exact H5.
  destruct (swallowed_discovery client s5) as [s6 H6].
  erewrite bind_ok by exact H6.
  reflexivity.
Qed.

Lemma basic_executeTool_sends (this : Basic.AlloyMCPClient) (toolName : string)
  (args : jsval) (s : State) :
  sent_bodies (trace (snd (Basic.executeTool this toolName args s)))
  = (sent_bodies (trace s) ++ [tool_call_body (requestId s) toolName args])%list
  /\ requestId (snd (Basic.executeTool this toolName args s))
     = js_succ (requestId s).
Proof.
  rewrite basic_executeTool_state, basic_makeRequest_sends,
    basic_makeRequest_requestId.
  split; reflexivity.
Qed.

(** Two calls in a row inside a [try] whose handler only logs: the second is
    made exactly when the first returns. *)
Lemma two_calls_sent {A B : Type} (c1 : M A) (c2 : M B) (text : A -> string)
  (k2 : B -> M unit) (note : js_error -> string) (s : State) :
  (forall b, stateless (k2 b)) ->
  snd (try_catch (a <- c1 ;; console_log (text a) ;;; b <- c2 ;; k2 b)
         (fun error => console_log (note error)) s)
  = if throws (fst (c1 s)) then snd (c1 s) else snd (c2 (snd (c1 s))).
Proof.
  intros H2.
  rewrite try_catch_stateless by (intros; apply stateless_console_log).
  unfold bind at 1. destruct (c1 s) as [[a|e] s1]; [|reflexivity].
  cbn [fst snd throws]. unfold bind at 1, console_log at 1, ret at 1.
  apply bind_stateless, H2.
Qed.

(** X10. A demonstration stops at its first failure: the second call of
    [demonstrateConnectivity] and of [demonstrateCredentials] is sent exactly
    when the first returned, and [demonstrateDiscovery] calls its tool
    exactly when the listing of the prompts returned.  The requests carry
    consecutive ids. *)
Theorem demonstration_stops_at_first_failure
  (client : Basic.AlloyMCPClient) (s : State) :
  sent_bodies (trace (snd (Basic.demonstrateConnectivity client s)))
  = (sent_bodies (trace s)
       ++ tool_call_body (requestId s) "list_connectors_alloy" (JObj [])
          :: (if throws (fst (Basic.executeTool client "list_connectors_alloy"
                                (JObj []) s))
              then []
              else [tool_call_body (js_succ (requestId s))
                      "get_connector_resources_alloy"
                      (JObj [("connectorId", JStr "slack")])]))%list
  /\ sent_bodies (trace (snd (Basic.demonstrateCredentials client s)))
     = (sent_bodies (trace s)
          ++ tool_call_body (requestId s) "get_credentials_alloy"
               (JObj [("connectorId", JStr "slack")])
             :: (if throws (fst (Basic.executeTool client "get_credentials_alloy"
                                   (JObj [("connectorId", JStr "slack")]) s))
                 then []
                 else [tool_call_body (js_succ (requestId s))
                         "get_credential_metadata_alloy"
                         (JObj [("connectorId", JStr "slack")])]))%list
  /\ sent_bodies (trace (snd (Basic.demonstrateDiscovery client s)))
     = (sent_bodies (trace s)
          ++ JSON.stringify (envelope "prompts/list" (requestId s) None)
             :: (if throws (fst (Basic.listPrompts client s))
                 then []
                 else [tool_call_body (js_succ (requestId s))
                         "discover_action_path_alloy"
                         (JObj [("goal",
                                 JStr "send a message to a Slack channel")])]))%list.
Proof.
  split; [|split].
  - unfold Basic.demonstrateConnectivity.
    rewrite (two_calls_sent _ _ JSON.stringify)
      by (intros; apply stateless_console_log).
    destruct (basic_executeTool_sends client "list_connectors_alloy" (JObj []) s)
      as [Hs Hid].
    destruct (throws _); [exact Hs|].
    destruct (basic_executeTool_sends client "get_connector_resources_alloy"
                (JObj [("connectorId", JStr "slack")])
                (snd (Basic.executeTool client "list_connectors_alloy"
                        (JObj []) s))) as [Hs' _].
    rewrite Hs', Hs, Hid, <- app_assoc. reflexivity.
  - unfold Basic.demonstrateCredentials.
    rewrite (two_calls_sent _ _ JSON.stringify)
      by (intros; apply stateless_console_log).
    destruct (basic_executeTool_sends client "get_credentials_alloy"
                (JObj [("connectorId", JStr "slack")]) s) as [Hs Hid].
    destruct (throws _); [exact Hs|].
    destruct (basic_executeTool_sends client "get_credential_metadata_alloy"
                (JObj [("connectorId", JStr "slack")])
                (snd (Basic.executeTool client "get_credentials_alloy"
                        (JObj [("connectorId", JStr "slack")]) s))) as [Hs' _].
    rewrite Hs', Hs, Hid, <- app_assoc. reflexivity.
  - unfold Basic.demonstrateDiscovery.
    rewrite try_catch_stateless by (intros; apply stateless_console_log).
    assert (sent_bodies (trace (snd (Basic.listPrompts client s)))
            = (sent_bodies (trace s)
                 ++ [JSON.stringify (envelope "prompts/list" (requestId s) None)])%list
            /\ requestId (snd (Basic.listPrompts client s)) = js_succ (requestId s))
      as [Hs Hid].
    { rewrite basic_listPrompts_state, basic_makeRequest_sends,
        basic_makeRequest_requestId. split; reflexivity. }
    unfold bind at 1.
    destruct (Basic.listPrompts client s) as [[prompts|e] s1];
      cbn [fst snd throws] in *; [|exact Hs].
    rewrite bind_stateless by (intros; apply stateless_console_log).
    destruct (basic_executeTool_sends client "discover_action_path_alloy"
                (JObj [("goal", JStr "send a message to a Slack channel")]) s1)
      as [Hs' _].
    rewrite Hs', Hs, Hid, <- app_assoc. reflexivity.
Qed.

Lemma targets_stateless {A : Type} (url : string) (c : M A) :
  stateless c -> targets url c.
Proof. intros Hc s. exists []. rewrite Hc. simpl. rewrite app_nil_r. reflexivity. Qed.

Lemma targets_bind {A B : Type} (url : string) (c : M A) (k : A -> M B) :
  targets url c -> (forall a, targets url (k a)) -> targets url (bind c k).
Proof.
  intros Hc Hk s. unfold bind. destruct (Hc s) as [bodies E].
  destruct (c s) as [[a|e] s1]; simpl in E.
  - destruct (Hk a s1) as [bodies' E'].
    exists (bodies ++ bodies')%list. unfold posts_to in *.
    rewrite E', E, <- app_assoc, map_app. reflexivity.
  - exists bodies. exact E.
Qed.

Lemma targets_try_catch {A : Type} (url : string) (c : M A)
  (h : js_error -> M A) :
  targets url c -> (forall e, stateless (h e)) -> targets url (try_catch c h).
Proof. intros Hc Hh s. rewrite try_catch_stateless by exact Hh. apply Hc. Qed.

Lemma targets_as {A B : Type} (url : string) (c : M A) (d : M B) :
  (forall s, snd (c s) = snd (d s)) -> targets url d -> targets url c.
Proof. intros H Hd s. rewrite H. apply Hd. Qed.

Lemma targets_makeRequest (this : Basic.AlloyMCPClient) (method : string)
  (params : jsval) :
  targets (Basic.serverUrl this) (Basic.makeRequest this method params).
Proof.
  intros s. rewrite basic_makeRequest_run, exchange_fetches.
  eexists [_]. reflexivity.
Qed.

Lemma targets_executeTool (this : Basic.AlloyMCPClient) (toolName : string)
  (args : jsval) :
  targets (Basic.serverUrl this) (Basic.executeTool this toolName args).
Proof.
  eapply targets_as; [apply basic_executeTool_state | apply targets_makeRequest].
Qed.

Lemma targets_initialize (this : Basic.AlloyMCPClient) :
  targets (Basic.serverUrl this) (Basic.initialize this).
Proof.
  eapply targets_as; [apply basic_initialize_state | apply targets_makeRequest].
Qed.

Lemma targets_listAvailableTools (this : Basic.AlloyMCPClient) :
  targets (Basic.serverUrl this) (Basic.listAvailableTools this).
Proof.
  eapply targets_as;
    [apply basic_listAvailableTools_state | apply targets_makeRequest].
Qed.

Lemma targets_listPrompts (this : Basic.AlloyMCPClient) :
  targets (Basic.serverUrl this) (Basic.listPrompts this).
Proof.
  eapply targets_as; [apply basic_listPrompts_state | apply targets_makeRequest].
Qed.

Lemma targets_session (this : Basic.AlloyMCPClient) (ops : list operation) :
  targets (Basic.serverUrl this) (session this ops).
Proof.
  induction ops as [|op ops IH]; cbn [session].
  - apply targets_stateless, stateless_ret.
  - apply targets_bind; [|intros _; exact IH].
    eapply targets_as; [apply perform_state | apply targets_makeRequest].
Qed.

Ltac solve_targets :=
  lazymatch goal with
  | |- targets _ (Basic.executeTool _ _ _) => apply targets_executeTool
  | |- targets _ (Basic.initialize _) => apply targets_initialize
  | |- targets _ (Basic.listAvailableTools _) => apply targets_listAvailableTools
  | |- targets _ (Basic.listPrompts _) => apply targets_listPrompts
  | |- targets _ (try_catch _ _) =>
      apply targets_try_catch;
      [solve_targets | intros; apply stateless_console_log]
  | |- targets _ (bind _ _) =>
      apply targets_bind; [solve_targets | intros; solve_targets]
  | |- _ => apply targets_stateless; solve [solve_stateless]
  end.

Lemma constructor_url (env_url : option string) (s : State)
  (client : Basic.AlloyMCPClient) (s' : State) :
  Basic.constructor env_url s = (Ok client, s') ->
  env_url = Some (Basic.serverUrl client) /\ fetches (trace s') = fetches (trace s).
Proof.
  destruct env_url as [[|c u]|]; cbn; intros H; try discriminate H.
  injection H as <- <-. split; reflexivity.
Qed.

(** X11. The command-line client sends every request to the URL it was
    constructed with, as a POST with the headers [Content-Type:
    application/json] and [Accept: application/json,text/event-stream]: this
    holds for every sequence of operations, and for [main] with the URL of the
    environment. *)
Theorem requests_go_to_the_server_url :
  (forall (this : Basic.AlloyMCPClient) (ops : list operation) (s : State),
      exists bodies,
        fetches (trace (snd (session this ops s)))
        = (fetches (trace s) ++ posts_to (Basic.serverUrl this) bodies)%list)
  /\ (forall (url : string) (s : State),
         exists bodies,
           fetches (trace (snd (Basic.main (Some url) s)))
           = (fetches (trace s) ++ posts_to url bodies)%list).
Proof.
  split.
  - intros this ops s. apply targets_session.
  - intros url s. unfold Basic.main.
    rewrite try_catch_stateless by solve_stateless.
    unfold bind at 1.
    destruct (Basic.constructor (Some url) s) as [[client|e] s1] eqn:Hc.
    + destruct (constructor_url _ _ _ _ Hc) as [Hu Hf].
      injection Hu as ->. rewrite <- Hf.
      match goal with
      | |- context [snd (?c s1)] =>
          assert (targets (Basic.serverUrl client) c) as Ht
      end.
      { unfold Basic.demonstrateConnectivity, Basic.demonstrateCredentials,
          Basic.demonstrateDiscovery.
        solve_targets. }
      apply Ht.
    + exists []. simpl. rewrite app_nil_r.
      destruct url as [|c u]; cbn in Hc; [|discriminate Hc].
      injection Hc as _ <-. reflexivity.
Qed.

(** ** The browser client *)

Lemma fetch_reply (url : string) (init : RequestInit) (s : State) (r : Response)
  (rest : list (option Response)) :
  pending s = Some r :: rest ->
  fetch url init s
  = (Ok r, with_pending rest (with_events [CallFetch url init] s)).
Proof.
  intros Hp. unfold fetch, bind, record. simpl. rewrite Hp. reflexivity.
Qed.

Lemma fetch_fetches (url : string) (init : RequestInit) (s : State) :
  fetches (trace (snd (fetch url init s)))
  = (fetches (trace s) ++ [(url, init)])%list.
Proof.
  unfold fetch, bind, record. simpl.
  destruct (pending s) as [|[r|] rest]; simpl; rewrite fetches_app; reflexivity.
Qed.

Lemma stateless_response_json_fetches (r : Response) (s : State) :
  fetches (trace (snd (response_json r s))) = fetches (trace s).
Proof.
  unfold response_json, bind, record. simpl.
  destruct (JSON.parse (body r)); simpl; rewrite fetches_app; simpl;
    apply app_nil_r.
Qed.

Lemma connect_leaves_connected (this this' : McpClient.MCPClient) (s s' : State) :
  McpClient.connect this s = (Ok this', s') -> McpClient.connected this' = true.
Proof.
  intros H. unfold McpClient.connect in H.
  destruct (McpClient.connected this) eqn:Hthis.
  - injection H as <- _. exact Hthis.
  - unfold try_catch in H.
    match type of H with
    | context [match ?c s with _ => _ end] =>
        assert (ensures (fun c' => McpClient.connected c' = true) c) as He
    end.
    { solve_ensures. reflexivity. }
    match type of H with
    | context [match ?c s with _ => _ end] =>
        destruct (c s) as [[c'|e] s1] eqn:E
    end.
    + injection H as <- _. exact (He s c' s1 E).
    + discriminate H.
Qed.

(** X12. A connected browser client asks the connect route no more: [connect]
    returns at once and [getAvailableTools] returns the tools it holds, with
    no request sent and no reply consumed.  A [connect] that returns leaves a
    connected client, so this holds after every successful [connect]. *)
Theorem browser_client_connects_once (this : McpClient.MCPClient) (s : State) :
  (McpClient.connected this = true ->
   McpClient.connect this s = (Ok this, s)
   /\ McpClient.getAvailableTools this s
      = (Ok (McpClient.availableTools this, this), s))
  /\ (forall (this' : McpClient.MCPClient) (s' : State),
         McpClient.connect this s = (Ok this', s') ->
         McpClient.connected this' = true
         /\ McpClient.connect this' s' = (Ok this', s')
         /\ McpClient.getAvailableTools this' s'
            = (Ok (McpClient.availableTools this', this'), s')).
Proof.
  assert (forall c st, McpClient.connected c = true ->
                       McpClient.connect c st = (Ok c, st)
                       /\ McpClient.getAvailableTools c st
                          = (Ok (McpClient.availableTools c, c), st)) as Hc.
  { intros c st H. unfold McpClient.getAvailableTools, McpClient.connect.
    rewrite H. split; reflexivity. }
  split; [apply Hc|].
  intros this' s' H.
  pose proof (connect_leaves_connected _ _ _ _ H) as Hcon.
  split; [exact Hcon | apply Hc, Hcon].
Qed.

Lemma browser_client_connects_once_witness :
  McpClient.getAvailableTools connected_client (init_state [])
  = (Ok (JArr [], connected_client), init_state []).
Proof.
  exact (proj2 (proj1 (browser_client_connects_once connected_client
                         (init_state [])) eq_refl)).
Defined.

(** X13. A browser client that is not connected refuses to execute a tool,
    without a request.  A connected one sends one request to the execution
    route, with its configuration, the name and the arguments, and never
    throws: it returns [{content, isError}], and for an answer of the route
    that is not 2xx the content is the error [Failed to execute tool: <name>],
    whatever the answer says. *)
Theorem browser_executeTool_contains_failures
  (this : McpClient.MCPClient) (name : string) (args : jsval) (s : State) :
  (McpClient.connected this = false ->
   McpClient.executeTool this name args s
   = (Throw (Error "Not connected to MCP server"), s))
  /\ (McpClient.connected this = true ->
      (exists content isError,
          fst (McpClient.executeTool this name args s)
          = Ok (tool_result content isError))
      /\ fetches (trace (snd (McpClient.executeTool this name args s)))
         = (fetches (trace s)
              ++ [("/api/mcp/execute",
                   json_init (execute_body (McpClient.config this) name args))])%list
      /\ (forall reply rest,
             pending s = Some reply :: rest ->
             ok reply = false ->
             fst (McpClient.executeTool this name args s)
             = Ok (tool_failure ("Failed to execute tool: " ++ name)))).
Proof.
  split.
  - intros H. unfold McpClient.executeTool. rewrite H. reflexivity.
  - intros H. unfold McpClient.executeTool. rewrite H. cbn [negb].
    split; [|split].
    + unfold try_catch.
      match goal with
      | |- context [match ?c s with _ => _ end] =>
          assert (ensures (fun v => exists content isError,
                               v = tool_result content isError) c) as He;
          [solve_ensures; eexists; eexists; reflexivity|];
          destruct (c s) as [[v|e] s1] eqn:E
      end.
      * destruct (He s v s1 E) as [content [isError ->]].
        eexists. eexists. reflexivity.
      * eexists. eexists. reflexivity.
    + rewrite try_catch_stateless by solve_stateless.
      unfold bind at 1.
      pose proof (fetch_fetches "/api/mcp/execute"
                    (json_init (execute_body (McpClient.config this) name args)) s)
        as Hf.
      unfold json_init, execute_body in Hf.
      destruct (fetch _ _ s) as [[r|e] s1]; cbn [snd] in *; [|exact Hf].
      destruct (ok r); cbn [negb]; [|exact Hf].
      unfold bind at 1.
      pose proof (stateless_response_json_fetches r s1) as Hj.
      destruct (response_json r s1) as [[v|e] s2]; cbn [snd] in *;
        [|rewrite Hj; exact Hf].
      rewrite bind_stateless by solve_stateless.
      cbn. rewrite Hj. exact Hf.
    + intros reply rest Hp Hok. unfold try_catch.
      erewrite bind_ok by (apply fetch_reply; exact Hp).
      rewrite Hok. reflexivity.
Qed.

Lemma browser_executeTool_contains_failures_witness :
  McpClient.executeTool (McpClient.constructor chat_config)
    "list_connectors_alloy" (JObj []) (init_state [])
  = (Throw (Error "Not connected to MCP server"), init_state []).
Proof.
  exact (proj1 (browser_executeTool_contains_failures
                  (McpClient.constructor chat_config) "list_connectors_alloy"
                  (JObj []) (init_state [])) eq_refl).
Defined.

(** The names [determineTools] returns, block by block. *)
Lemma determineTools_names (message : string) (availableTools : list string) :
  let lower := JSString.toLowerCase message in
  let pick (b : bool) (name : string) := if b then [name] else [] in
  map McpClient.name (McpClient.determineTools message availableTools)
  = (pick ((JS.includes lower "connector" || JS.includes lower "integration"
            || JS.includes lower "list integrations")
           && McpClient.array_includes availableTools "list_connectors_alloy")
          "list_connectors_alloy"
     ++ pick ((JS.includes lower "credential" || JS.includes lower "auth"
               || JS.includes lower "authentication")
              && match JSString.match_connector message with
                 | Some _ => true
                 | None => false
                 end
              && McpClient.array_includes availableTools "get_credentials_alloy")
             "get_credentials_alloy"
     ++ pick ((JS.includes lower "discover" || JS.includes lower "how to"
               || JS.includes lower "send message")
              && McpClient.array_includes availableTools
                   "discover_action_path_alloy")
             "discover_action_path_alloy"
     ++ pick (JS.includes lower "slack"
              && McpClient.array_includes availableTools
                   "get_connector_resources_alloy")
             "get_connector_resources_alloy")%list.
Proof.
  cbv zeta. unfold McpClient.determineTools.
  destruct (JS.includes _ "connector" || JS.includes _ "integration"
            || JS.includes _ "list integrations");
    destruct (JS.includes _ "credential" || JS.includes _ "auth"
              || JS.includes _ "authentication");
    destruct (JS.includes _ "discover" || JS.includes _ "how to"
              || JS.includes _ "send message");
    destruct (JS.includes _ "slack");
    destruct (JSString.match_connector message);
    destruct (McpClient.array_includes availableTools "list_connectors_alloy");
    destruct (McpClient.array_includes availableTools "get_credentials_alloy");
    destruct (McpClient.array_includes availableTools
                "discover_action_path_alloy");
    destruct (McpClient.array_includes availableTools
                "get_connector_resources_alloy");
    reflexivity.
Qed.

Lemma array_includes_In (xs : list string) (x : string) :
  McpClient.array_includes xs x = true -> In x xs.
Proof.
  intros H. unfold McpClient.array_includes in H.
  apply existsb_exists in H as [y [Hy He]].
  apply String.eqb_eq in He. subst y. exact Hy.
Qed.

(** X14. [determineTools] proposes only tools of the selection it is given,
    each at most once and in a fixed order: the names it returns are a
    subsequence of the four tools it knows, and every one of them is among
    [availableTools]. *)
Theorem determineTools_proposes_selected_tools
  (message : string) (availableTools : list string) :
  subsequence (map McpClient.name
                 (McpClient.determineTools message availableTools))
              known_tools = true
  /\ Forall (fun name => In name availableTools)
            (map McpClient.name
               (McpClient.determineTools message availableTools))
  /\ NoDup (map McpClient.name
              (McpClient.determineTools message availableTools)).
Proof.
  pose proof (determineTools_names message availableTools) as H.
  cbv zeta in H. rewrite H. clear H.
  repeat match goal with
         | |- context [if ?c && McpClient.array_includes availableTools ?n
                       then _ else _] =>
             let Hc := fresh "Hc" in
             destruct (c && McpClient.array_includes availableTools n) eqn:Hc;
             [apply andb_true_iff in Hc as [_ Hc]; apply array_includes_In in Hc
             |clear Hc]
         end;
    cbn [app];
    (split; [reflexivity|]);
    (split; [repeat constructor; assumption|]);
    repeat constructor; cbn [In]; intros Hin;
    repeat (destruct Hin as [Hin|Hin]; [discriminate Hin|]); exact Hin.
Qed.

(** A character that the flag [i] matches with a small letter has that
    letter as its lower-case form. *)
Lemma canonicalize_small_letter (p c : ascii) :
  (97 <=? N_of_ascii p)%N && (N_of_ascii p <=? 122)%N = true ->
  (JSString.canonicalize p =? JSString.canonicalize c)%N = true ->
  JSString.to_lower_char c = p.
Proof.
  intros Hp H. apply N.eqb_eq in H.
  assert (JSString.canonicalize p = (N_of_ascii p - 32)%N) as Hcp.
  { unfold JSString.canonicalize, JS.code_unit.
    destruct (Ascii.eqb_spec p JS.line_separator) as [->|_];
      [discriminate Hp|].
    destruct (Ascii.eqb_spec p JS.paragraph_separator) as [->|_];
      [discriminate Hp|].
    rewrite Hp. reflexivity. }
  rewrite Hcp in H. apply andb_true_iff in Hp as [H1 H2].
  apply N.leb_le in H1, H2.
  assert ((65 <=? JSString.canonicalize c)%N
          && (JSString.canonicalize c <=? 90)%N = true) as Hb.
  { apply andb_true_iff. split; apply N.leb_le; lia. }
  rewrite <- (ascii_N_embedding p).
  assert (N_of_ascii p = JSString.canonicalize c + 32)%N as -> by lia.
  clear - Hb.
  destruct c as [[] [] [] [] [] [] [] []]; try reflexivity; discriminate Hb.
Qed.

Lemma match_ignoring_case_lower (word : string) :
  all_chars (fun p => (97 <=? N_of_ascii p)%N && (N_of_ascii p <=? 122)%N) word
  = true ->
  forall s m rest,
    JSString.match_ignoring_case word s = Some (m, rest) ->
    JSString.toLowerCase m = word.
Proof.
  induction word as [|p word IH]; intros Hw s m rest H.
  - cbn in H. injection H as <- _. reflexivity.
  - cbn [all_chars] in Hw. apply andb_true_iff in Hw as [Hp Hw].
    destruct s as [|c s]; cbn [JSString.match_ignoring_case] in H;
      [discriminate H|].
    destruct (JSString.canonicalize p =? JSString.canonicalize c)%N eqn:E;
      [|discriminate H].
    destruct (JSString.match_ignoring_case word s) as [[m' after]|] eqn:Hm;
      [|discriminate H].
    injection H as <- _. cbn [JSString.toLowerCase].
    rewrite (canonicalize_small_letter p c Hp E), (IH Hw s m' after Hm).
    reflexivity.
Qed.

Lemma first_alternative_lower (before : option ascii) (words : list string)
  (s m : string) :
  Forall (fun word =>
            all_chars (fun p => (97 <=? N_of_ascii p)%N
                                && (N_of_ascii p <=? 122)%N) word = true)
         words ->
  JSString.first_alternative before words s = Some m ->
  In (JSString.toLowerCase m) words.
Proof.
  induction 1 as [|word words Hw _ IH]; cbn [JSString.first_alternative];
    [discriminate|].
  destruct (JSString.match_ignoring_case word s) as [[m' after]|] eqn:Hm.
  - destruct (JSString.word_boundary _ _).
    + intros H. injection H as <-. left. symmetry.
      exact (match_ignoring_case_lower word Hw s m' after Hm).
    + intros H. right. exact (IH H).
  - intros H. right. exact (IH H).
Qed.

Lemma match_connector_lower (message m : string) :
  JSString.match_connector message = Some m ->
  In (JSString.toLowerCase m) JSString.connectors.
Proof.
  unfold JSString.match_connector. generalize (@None ascii) as before.
  induction message as [|c message IH]; intros before;
    cbn [JSString.match_connector_from].
  - destruct (JSString.word_boundary before (JSString.head EmptyString));
      [|discriminate].
    destruct (JSString.first_alternative before JSString.connectors EmptyString)
      as [g|] eqn:Hg; [|discriminate].
    intros H. injection H as <-.
    eapply first_alternative_lower; [|exact Hg].
    repeat constructor.
  - destruct (if JSString.word_boundary before (JSString.head (String c message))
              then JSString.first_alternative before JSString.connectors
                     (String c message)
              else None) as [g|] eqn:Hg.
    + intros H. injection H as <-.
      destruct (JSString.word_boundary _ _); [|discriminate Hg].
      eapply first_alternative_lower; [|exact Hg].
      repeat constructor.
    + apply IH.
Qed.

(** X15. The credentials of a connector are asked for only by name: every
    call of [get_credentials_alloy] that [determineTools] proposes carries as
    [connectorId] one of the words slack, salesforce, hubspot and shopify, in
    small letters, and there is none when the message holds none of them as a
    word. *)
Theorem credentials_call_names_a_connector
  (message : string) (availableTools : list string) :
  (forall call,
      In call (McpClient.determineTools message availableTools) ->
      McpClient.name call = "get_credentials_alloy" ->
      exists connector,
        In connector JSString.connectors
        /\ McpClient.arguments call = JObj [("connectorId", JStr connector)])
  /\ (JSString.match_connector message = None ->
      ~ In "get_credentials_alloy"
           (map McpClient.name
              (McpClient.determineTools message availableTools))).
Proof.
  split.
  - intros call Hin Hname.
    unfold McpClient.determineTools in Hin. cbv zeta in Hin.
    pose proof (match_connector_lower message) as Hm.
    destruct (JSString.match_connector message) as [g|].
    + specialize (Hm g eq_refl).
      repeat match type of Hin with
             | context [if ?c then _ else _] => destruct c
             end;
        cbn [app In] in Hin;
        repeat (destruct Hin as [<-|Hin];
                [cbn in Hname;
                 first [discriminate Hname
                       | eexists; split; [exact Hm|reflexivity]]|]);
        contradiction.
    + repeat match type of Hin with
             | context [if ?c then _ else _] => destruct c
             end;
        cbn [app In] in Hin;
        repeat (destruct Hin as [<-|Hin]; [cbn in Hname; discriminate Hname|]);
        contradiction.
  - intros Hnone. rewrite determineTools_names. cbv zeta. rewrite Hnone.
    rewrite andb_false_r. cbn [andb].
    repeat match goal with
           | |- context [if ?c then _ else _] => destruct c
           end;
      cbn [app In]; intros Hin;
      repeat (destruct Hin as [Hin|Hin]; [discriminate Hin|]); exact Hin.
Qed.

Lemma credentials_call_names_a_connector_witness :
  exists connector,
    In connector JSString.connectors
    /\ JObj [("connectorId", JStr "slack")]
       = JObj [("connectorId", JStr connector)].
Proof.
  apply (proj1 (credentials_call_names_a_connector
                  "Check my Slack credentials" ["get_credentials_alloy"])
           {| McpClient.name := "get_credentials_alloy";
              McpClient.arguments := JObj [("connectorId", JStr "slack")] |}).
  - vm_compute. left. reflexivity.
  - reflexivity.
Defined.

(** ** The browser client, the routes and the server together *)

(** The execution route reads back what the browser client wrote. *)
Lemma execute_inputs_body (config : McpClient.MCPClientConfig) (name : string)
  (args : jsval) :
  JS.is_empty (McpClient.serverUrl config) = false ->
  JS.is_empty name = false ->
  clean args = true ->
  execute_inputs (execute_body config name args)
  = Some (JStr (McpClient.serverUrl config), JStr name, args).
Proof.
  intros Hurl Hname Hargs. unfold execute_inputs, execute_body.
  rewrite parse_stringify by (cbn; rewrite Hargs; reflexivity).
  cbn. rewrite Hurl, Hname. reflexivity.
Qed.

Lemma connect_inputs_body (config : McpClient.MCPClientConfig) :
  JS.is_empty (McpClient.serverUrl config) = false ->
  connect_inputs (connect_body config) = Some (JStr (McpClient.serverUrl config)).
Proof.
  intros Hurl. unfold connect_inputs, connect_body.
  rewrite parse_stringify by reflexivity.
  cbn. rewrite Hurl. reflexivity.
Qed.

Lemma carried_ok (reply : Response) (answer : NextResponse) :
  carries reply (Ok answer) ->
  ok reply = ((200 <=? response_status answer)
              && (response_status answer <=? 299)).
Proof. intros [Hs _]. unfold ok. rewrite Hs. reflexivity. Qed.

(** X16. A tool call of the chat, end to end.  The browser client sends the
    name and the arguments to the execution route; the route sends the server
    one [tools/call] with [{name, arguments}] (and [{}] for falsy arguments)
    to the URL of the configuration, and nothing of the API key; when the
    server's reply decodes to an envelope without error, the browser client
    returns the [content] of the result (the empty array when there is none)
    with [isError: false]. *)
Theorem tool_call_through_the_route
  (this : McpClient.MCPClient) (name : string) (args content : jsval)
  (server browser : State) (r reply : Response)
  (rest rest' : list (option Response)) (E error result : jsval) :
  McpClient.connected this = true ->
  JS.is_empty (McpClient.serverUrl (McpClient.config this)) = false ->
  JS.is_empty name = false ->
  clean args = true ->
  pending server = Some r :: rest ->
  decoded r = Some E ->
  JS.get E "error" = Ok error ->
  JS.truthy error = false ->
  JS.get E "result" = Ok result ->
  JS.get_opt result "content" = Ok content ->
  clean (JS.or content (JArr [])) = true ->
  pending browser = Some reply :: rest' ->
  carries reply
    (fst (ExecuteRoute.POST (execute_body (McpClient.config this) name args)
            server)) ->
  fst (McpClient.executeTool this name args browser)
  = Ok (tool_result (JS.or content (JArr [])) false)
  /\ fetches (trace (snd (ExecuteRoute.POST
                            (execute_body (McpClient.config this) name args)
                            server)))
     = (fetches (trace server)
          ++ [(McpClient.serverUrl (McpClient.config this),
               post_init
                 (JSON.stringify
                    (envelope "tools/call" (random_id server 0)
                       (Some (JObj [("name", JStr name);
                                    ("arguments", JS.or args (JObj []))])))))])%list.
Proof.
  intros Hcon Hurl Hname Hargs Hp Hd Herr Hfalsy Hres Hcontent Hclean Hp' Hcar.
  pose proof (execute_inputs_body _ _ _ Hurl Hname Hargs) as Hin.
  assert (fst (ExecuteRoute.POST (execute_body (McpClient.config this) name args)
                 server)
          = Ok (NextResponse_json
                  (JObj [("content", JS.or content (JArr []))]) 200)) as Hroute.
  { rewrite (execute_POST_run _ _ _ _ _ Hin).
    destruct (execute_makeRequest_decoded
                (JStr (McpClient.serverUrl (McpClient.config this)))
                (McpClient.serverUrl (McpClient.config this)) "tools/call"
                (JObj [("name", JStr name); ("arguments", JS.or args (JObj []))])
                server r rest E eq_refl Hp Hd) as [s' Hrun].
    erewrite try_catch_ok.
    2:{ erewrite bind_ok by exact Hrun.
        rewrite (bind_lift _ _ _ _ Herr). rewrite Hfalsy.
        rewrite (bind_lift _ _ _ _ Hres).
        rewrite (bind_lift _ _ _ _ Hcontent). reflexivity. }
    reflexivity. }
  split.
  - rewrite Hroute in Hcar. pose proof (carried_ok _ _ Hcar) as Hok.
    destruct Hcar as [_ Hbody]. cbn in Hok.
    cbn [response_data NextResponse_json] in Hbody.
    unfold McpClient.executeTool. rewrite Hcon. cbn [negb].
    erewrite try_catch_ok; [reflexivity|].
    erewrite bind_ok by (apply fetch_reply; exact Hp').
    rewrite Hok. cbn [negb].
    unfold response_json, bind, record. cbn [fst snd].
    rewrite Hbody.
    rewrite parse_stringify by (cbn; rewrite Hclean; reflexivity).
    reflexivity.
  - rewrite (execute_POST_state _ _ _ _ _ Hin).
    destruct (route_makeRequest_fetches
                (JStr (McpClient.serverUrl (McpClient.config this)))
                (McpClient.serverUrl (McpClient.config this)) "tools/call"
                (JObj [("name", JStr name); ("arguments", JS.or args (JObj []))])
                server eq_refl) as [Hf _].
    exact Hf.
Qed.

Lemma tool_call_through_the_route_witness :
  fst (McpClient.executeTool connected_client "list_connectors_alloy" (JObj [])
         (init_state
            [Some (carrier (NextResponse_json
                              (JObj [("content", JArr [text_item])]) 200))]))
  = Ok (tool_result (JArr [text_item]) false).
Proof.
  refine (proj1 (tool_call_through_the_route connected_client
                   "list_connectors_alloy" (JObj []) (JArr [text_item])
                   (init_state [Some (json_reply tool_reply)])
                   (init_state
                      [Some (carrier (NextResponse_json
                                        (JObj [("content", JArr [text_item])])
                                        200))])
                   (json_reply tool_reply)
                   (carrier (NextResponse_json
                               (JObj [("content", JArr [text_item])]) 200))
                   [] [] tool_reply JUndefined
                   (JObj [("content", JArr [text_item])])
                   eq_refl eq_refl eq_refl eq_refl eq_refl eq_refl eq_refl
                   eq_refl eq_refl eq_refl eq_refl eq_refl _)).
  vm_compute. split; reflexivity.
Defined.

(** X17. Every failure of the execution route reaches the chat as one text:
    when the answer of the route is not of status 200 (a request without its
    parameters, an error of the server, a reply that cannot be decoded, a
    remote error), the browser client returns the error [Failed to execute
    tool: <name>] with [isError: true]; the text of the route's answer, with
    the message of a remote error in it, is dropped. *)
Theorem route_failures_reach_the_chat_as_one_text
  (this : McpClient.MCPClient) (name : string) (args : jsval)
  (request : string) (server browser : State) (reply : Response)
  (rest' : list (option Response)) :
  McpClient.connected this = true ->
  pending browser = Some reply :: rest' ->
  carries reply (fst (ExecuteRoute.POST request server)) ->
  status_of (fst (ExecuteRoute.POST request server)) <> Some 200 ->
  fst (McpClient.executeTool this name args browser)
  = Ok (tool_failure ("Failed to execute tool: " ++ name)).
Proof.
  intros Hcon Hp' Hcar Hstatus.
  destruct (execute_route_answers request server) as [answer [Hans Hshape]].
  rewrite Hans in Hcar, Hstatus. pose proof (carried_ok _ _ Hcar) as Hok.
  assert (ok reply = false) as Hfalse.
  { rewrite Hok. destruct Hshape as [[c ->]|[->|[text ->]]];
      [exfalso; apply Hstatus; reflexivity | reflexivity | reflexivity]. }
  unfold McpClient.executeTool. rewrite Hcon. cbn [negb]. unfold try_catch.
  erewrite bind_ok by (apply fetch_reply; exact Hp').
  rewrite Hfalse. reflexivity.
Qed.

Lemma route_failures_reach_the_chat_as_one_text_witness :
  fst (McpClient.executeTool connected_client "list_connectors_alloy" (JObj [])
         (init_state
            [Some (carrier
                     (error_answer 500
                        "Failed to execute tool: Error: Tool execution failed: Method not found"))]))
  = Ok (tool_failure "Failed to execute tool: list_connectors_alloy").
Proof.
  refine (route_failures_reach_the_chat_as_one_text connected_client
            "list_connectors_alloy" (JObj []) execute_request
            (init_state
               [Some (json_reply (remote_error (-32601) "Method not found"))])
            (init_state
               [Some (carrier
                        (error_answer 500
                           "Failed to execute tool: Error: Tool execution failed: Method not found"))])
            (carrier
               (error_answer 500
                  "Failed to execute tool: Error: Tool execution failed: Method not found"))
            [] eq_refl eq_refl _ _).
  - vm_compute. split; reflexivity.
  - vm_compute. discriminate.
Defined.

(** X18. The connection of the chat, end to end.  When both replies of the
    server decode to envelopes without error and the tools of the second have
    names that are strings, the browser client ends up connected and holds
    the descriptors the connect route made of them, each with its category;
    when the answer of the route is not of status 200, [connect] throws the
    error [Failed to connect to MCP server]. *)
Theorem connect_through_the_route
  (this : McpClient.MCPClient) (server browser : State)
  (r1 r2 reply : Response) (rest rest' : list (option Response))
  (E1 error1 E error result : jsval) (ts us : list jsval) :
  McpClient.connected this = false ->
  JS.is_empty (McpClient.serverUrl (McpClient.config this)) = false ->
  pending browser = Some reply :: rest' ->
  carries reply
    (fst (ConnectRoute.POST (connect_body (McpClient.config this)) server)) ->
  (pending server = Some r1 :: Some r2 :: rest ->
   decoded r1 = Some E1 ->
   JS.get E1 "error" = Ok error1 ->
   JS.truthy error1 = false ->
   decoded r2 = Some E ->
   JS.get E "error" = Ok error ->
   JS.truthy error = false ->
   JS.get E "result" = Ok result ->
   JS.get_opt result "tools" = Ok (JArr ts) ->
   JS.sequence (map transformed ts) = Some us ->
   clean (JArr us) = true ->
   fst (McpClient.connect this browser)
   = Ok {| McpClient.config := McpClient.config this;
           McpClient.connected := true;
           McpClient.availableTools := JArr us |})
  /\ (status_of
        (fst (ConnectRoute.POST (connect_body (McpClient.config this)) server))
      <> Some 200 ->
      fst (McpClient.connect this browser)
      = Throw (Error "Failed to connect to MCP server")).
Proof.
  intros Hcon Hurl Hp' Hcar. split.
  - intros Hp Hd1 Herr1 Hfalsy1 Hd Herr Hfalsy Hres Htools Hus Hclean.
    pose proof (connect_inputs_body _ Hurl) as Hin.
    destruct (connect_POST_run _ _ _ server r1 r2 rest E1 error1 E error result
                (JArr ts) Hin eq_refl Hp Hd1 Herr1 Hfalsy1 Hd Herr Hfalsy
                Hres Htools) as [_ Hroute].
    rewrite (Hroute ts us eq_refl Hus) in Hcar.
    pose proof (carried_ok _ _ Hcar) as Hok. destruct Hcar as [_ Hbody].
    cbn in Hok. cbn [response_data NextResponse_json] in Hbody.
    unfold McpClient.connect. rewrite Hcon.
    erewrite try_catch_ok; [reflexivity|].
    erewrite bind_ok by (apply fetch_reply; exact Hp').
    rewrite Hok. cbn [negb].
    unfold response_json, bind, record. cbn [fst snd].
    rewrite Hbody.
    rewrite parse_stringify
      by (cbn [clean map fst snd forallb distinct existsb String.eqb Ascii.eqb
                 Bool.eqb negb andb orb] in *; rewrite Hclean; reflexivity).
    reflexivity.
  - intros Hstatus.
    destruct (connect_route_answers (connect_body (McpClient.config this)) server)
      as [answer [Hans Hshape]].
    rewrite Hans in Hcar, Hstatus. pose proof (carried_ok _ _ Hcar) as Hok.
    assert (ok reply = false) as Hfalse.
    { rewrite Hok. destruct Hshape as [[c ->]|[->|[text ->]]];
        [exfalso; apply Hstatus; reflexivity | reflexivity | reflexivity]. }
    unfold McpClient.connect. rewrite Hcon. unfold try_catch.
    erewrite bind_ok by (apply fetch_reply; exact Hp').
    rewrite Hfalse. reflexivity.
Qed.

Lemma connect_through_the_route_witness :
  fst (McpClient.connect (McpClient.constructor chat_config)
         (init_state
            [Some (carrier (NextResponse_json
                              (JObj [("success", JBool true);
                                     ("tools", JArr [routed_tool])]) 200))]))
  = Ok {| McpClient.config := chat_config; McpClient.connected := true;
          McpClient.availableTools := JArr [routed_tool] |}.
Proof.
  refine (proj1 (connect_through_the_route (McpClient.constructor chat_config)
                   (init_state [Some (json_reply sample_envelope);
                                Some (json_reply schema_tools_reply)])
                   (init_state
                      [Some (carrier (NextResponse_json
                                        (JObj [("success", JBool true);
                                               ("tools", JArr [routed_tool])])
                                        200))])
                   (json_reply sample_envelope) (json_reply schema_tools_reply)
                   (carrier (NextResponse_json
                               (JObj [("success", JBool true);
                                      ("tools", JArr [routed_tool])]) 200))
                   [] [] sample_envelope JUndefined schema_tools_reply JUndefined
                   (JObj [("tools", JArr [schema_tool])])
                   [schema_tool] [routed_tool]
                   eq_refl eq_refl eq_refl _)
            eq_refl eq_refl eq_refl eq_refl eq_refl eq_refl eq_refl eq_refl
            eq_refl eq_refl eq_refl).
  vm_compute. split; reflexivity.
Defined.

(** ** The chat page and the tool panel *)

(** X19. Toggling a tool flips its membership in the selection and leaves
    the other tools as they are; a selection without repetitions stays one;
    toggling a tool that is not selected twice gives the selection back. *)
Theorem toggle_flips_one_tool (toolName : string) (prev : list string) :
  (forall x,
      In x (ChatPage.onToggleTool toolName prev)
      <-> (x = toolName /\ ~ In toolName prev) \/ (x <> toolName /\ In x prev))
  /\ (NoDup prev -> NoDup (ChatPage.onToggleTool toolName prev))
  /\ (~ In toolName prev ->
      ChatPage.onToggleTool toolName (ChatPage.onToggleTool toolName prev)
      = prev).
Proof.
  unfold ChatPage.onToggleTool, McpClient.array_includes.
  assert (forall l, existsb (String.eqb toolName) l = true <-> In toolName l)
    as Hex.
  { intros l. rewrite existsb_exists. split.
    - intros [y [Hy He]]. apply String.eqb_eq in He. subst y. exact Hy.
    - intros H. exists toolName. split; [exact H | apply String.eqb_refl]. }
  assert (forall l x,
             In x (filter (fun t => negb (String.eqb t toolName)) l)
             <-> x <> toolName /\ In x l) as Hfilter.
  { intros l x. rewrite filter_In, negb_true_iff, String.eqb_neq. tauto. }
  split; [|split].
  - intros x. destruct (existsb (String.eqb toolName) prev) eqn:E.
    + apply Hex in E. rewrite Hfilter. tauto.
    + assert (~ In toolName prev) as Hn
          by (intros H; apply Hex in H; congruence).
      rewrite in_app_iff. cbn [In].
      destruct (String.eqb_spec x toolName) as [->|Hne]; [tauto|].
      split; [intros [H|[H|[]]]; [tauto | congruence] | tauto].
  - intros Hnd. destruct (existsb (String.eqb toolName) prev) eqn:E.
    + apply NoDup_filter, Hnd.
    + assert (~ In toolName prev) as Hn
          by (intros H; apply Hex in H; congruence).
      apply NoDup_app; [exact Hnd | repeat constructor; intros [] |].
      intros x Hx [<-|[]]. exact (Hn Hx).
  - intros Hn.
    destruct (existsb (String.eqb toolName) prev) eqn:E;
      [apply Hex in E; contradiction|].
    assert (existsb (String.eqb toolName) (prev ++ [toolName]) = true) as ->.
    { apply Hex, in_app_iff. right. left. reflexivity. }
    rewrite filter_app. cbn [filter]. rewrite String.eqb_refl. cbn [negb].
    rewrite app_nil_r. clear E.
    induction prev as [|y prev IH]; [reflexivity|]. cbn [filter].
    destruct (String.eqb_spec y toolName) as [->|Hne].
    + exfalso. apply Hn. left. reflexivity.
    + cbn [negb]. rewrite IH; [reflexivity|].
      intros H. apply Hn. right. exact H.
Qed.

Lemma toggle_flips_one_tool_witness :
  ChatPage.onToggleTool "echo" (ChatPage.onToggleTool "echo" ["list"]) = ["list"].
Proof.
  apply (proj2 (proj2 (toggle_flips_one_tool "echo" ["list"]))).
  simpl. intros [H|[]]. discriminate H.
Defined.

Lemma lookup_push (k key : string) (tool : ToolPanel.Tool)
  (acc : list (string * list ToolPanel.Tool)) :
  ToolPanel.lookup k (ToolPanel.push key tool acc)
  = if String.eqb k key
    then option_map (fun group => (group ++ [tool])%list) (ToolPanel.lookup k acc)
    else ToolPanel.lookup k acc.
Proof.
  induction acc as [|[k' v] acc IH]; cbn [ToolPanel.push ToolPanel.lookup].
  - destruct (String.eqb k key); reflexivity.
  - destruct (String.eqb_spec key k') as [->|Hne]; cbn [ToolPanel.lookup].
    + destruct (String.eqb_spec k k') as [->|Hk]; reflexivity.
    + destruct (String.eqb_spec k k') as [->|Hk].
      * destruct (String.eqb_spec k' key) as [->|_]; [contradiction|reflexivity].
      * exact IH.
Qed.

Lemma keys_push (key : string) (tool : ToolPanel.Tool)
  (acc : list (string * list ToolPanel.Tool)) :
  map fst (ToolPanel.push key tool acc) = map fst acc.
Proof.
  induction acc as [|[k' v] acc IH]; cbn [ToolPanel.push]; [reflexivity|].
  destruct (String.eqb key k'); cbn [map fst]; [|rewrite IH]; reflexivity.
Qed.

Lemma lookup_app (k key : string) (group : list ToolPanel.Tool)
  (acc : list (string * list ToolPanel.Tool)) :
  ToolPanel.lookup k (acc ++ [(key, group)])
  = match ToolPanel.lookup k acc with
    | Some found => Some found
    | None => if String.eqb k key then Some group else None
    end.
Proof.
  induction acc as [|[k' v] acc IH]; cbn [app ToolPanel.lookup]; [reflexivity|].
  destruct (String.eqb k k'); [reflexivity | exact IH].
Qed.

Lemma lookup_none_keys (k : string) (acc : list (string * list ToolPanel.Tool)) :
  ToolPanel.lookup k acc = None <-> ~ In k (map fst acc).
Proof.
  induction acc as [|[k' v] acc IH]; cbn [ToolPanel.lookup map fst In].
  - tauto.
  - destruct (String.eqb_spec k k') as [->|Hne].
    + split; [discriminate | intros H; exfalso; apply H; left; reflexivity].
    + rewrite IH. split; [intros H [E|E]; [congruence | exact (H E)] | tauto].
Qed.

(** The groups after the [reduce], from any groups before it. *)
Lemma reduce_groups (tools : list ToolPanel.Tool) :
  forall acc,
    NoDup (map fst acc) ->
    Forall (fun tool =>
              ToolPanel.inherited (ToolPanel.category_or_general tool) = false)
           tools ->
    exists groups,
      ToolPanel.reduce acc tools = Ok groups
      /\ NoDup (map fst groups)
      /\ forall k,
          ToolPanel.lookup k groups
          = grown (ToolPanel.lookup k acc) (members k tools).
Proof.
  induction tools as [|tool tools IH]; intros acc Hnd Hall.
  - exists acc. split; [reflexivity|]. split; [exact Hnd|].
    intros k. cbn. destruct (ToolPanel.lookup k acc); cbn;
      rewrite ?app_nil_r; reflexivity.
  - inversion Hall as [|t ts Hhead Htail]; subst.
    cbn [ToolPanel.reduce]. unfold ToolPanel.group_step.
    destruct (ToolPanel.lookup (ToolPanel.category_or_general tool) acc)
      as [group|] eqn:Hl.
    + destruct (IH (ToolPanel.push (ToolPanel.category_or_general tool) tool acc))
        as [groups [Hr [Hn Hk]]]; [rewrite keys_push; exact Hnd | exact Htail |].
      exists groups. split; [exact Hr|]. split; [exact Hn|].
      intros k. rewrite Hk, lookup_push. unfold members. cbn [filter].
      rewrite (String.eqb_sym k).
      destruct (String.eqb_spec (ToolPanel.category_or_general tool) k)
        as [<-|Hne].
      * rewrite Hl. cbn. rewrite <- app_assoc. reflexivity.
      * reflexivity.
    + rewrite Hhead.
      destruct (IH (acc ++ [(ToolPanel.category_or_general tool, [tool])])%list)
        as [groups [Hr [Hn Hk]]]; [|exact Htail|].
      { rewrite map_app. apply NoDup_app; [exact Hnd | repeat constructor; intros [] |].
        intros x Hx [<-|[]]. apply lookup_none_keys in Hl. exact (Hl Hx). }
      exists groups. split; [exact Hr|]. split; [exact Hn|].
      intros k. rewrite Hk, lookup_app. unfold members. cbn [filter].
      rewrite (String.eqb_sym k).
      destruct (String.eqb_spec (ToolPanel.category_or_general tool) k)
        as [<-|Hne].
      * rewrite Hl. reflexivity.
      * destruct (ToolPanel.lookup k acc); reflexivity.
Qed.

Lemma reduce_throws (tools : list ToolPanel.Tool) :
  forall acc,
    (forall k, ToolPanel.inherited k = true -> ToolPanel.lookup k acc = None) ->
    existsb (fun tool =>
               ToolPanel.inherited (ToolPanel.category_or_general tool)) tools
    = true ->
    exists message, ToolPanel.reduce acc tools = Throw (TypeError message).
Proof.
  induction tools as [|tool tools IH]; intros acc Hacc Hex; [discriminate Hex|].
  cbn [existsb] in Hex. cbn [ToolPanel.reduce]. unfold ToolPanel.group_step.
  destruct (ToolPanel.inherited (ToolPanel.category_or_general tool)) eqn:Hi.
  - rewrite (Hacc _ Hi). eexists. reflexivity.
  - cbn [orb] in Hex.
    destruct (ToolPanel.lookup (ToolPanel.category_or_general tool) acc)
      as [group|] eqn:Hl.
    + apply IH; [|exact Hex]. intros k Hk. rewrite lookup_push, (Hacc k Hk).
      destruct (String.eqb k (ToolPanel.category_or_general tool)); reflexivity.
    + apply IH; [|exact Hex]. intros k Hk. rewrite lookup_app, (Hacc k Hk).
      destruct (String.eqb_spec k (ToolPanel.category_or_general tool))
        as [->|_]; [congruence | reflexivity].
Qed.

Lemma category_of_owned (name : string) :
  ToolPanel.inherited (category_of name) = false
  /\ JS.is_empty (category_of name) = false.
Proof.
  unfold category_of.
  destruct (JS.includes name "connector" || JS.includes name "credential");
    [split; reflexivity|].
  destruct (JS.includes name "workflow" || JS.includes name "embedded");
    [split; reflexivity|].
  destruct (JS.includes name "discover"); split; reflexivity.
Qed.

(** X20. The panel groups the tools by category: when no category is the
    name of a property that objects inherit, every tool is in exactly the
    group of its category (of [General] when it has none), the groups keep
    the order of the list, and no group is empty.  A category such as
    [constructor] or [toString] makes the grouping throw a TypeError.  The
    categories the connect route assigns are never such names. *)
Theorem tools_are_grouped_by_category (tools : list ToolPanel.Tool) :
  (Forall (fun tool =>
             ToolPanel.inherited (ToolPanel.category_or_general tool) = false)
          tools ->
   exists groups,
     ToolPanel.groupedTools tools = Ok groups
     /\ NoDup (map fst groups)
     /\ forall k,
         ToolPanel.lookup k groups
         = match members k tools with
           | [] => None
           | group => Some group
           end)
  /\ (existsb (fun tool =>
                 ToolPanel.inherited (ToolPanel.category_or_general tool)) tools
      = true ->
      exists message,
        ToolPanel.groupedTools tools = Throw (TypeError message))
  /\ (Forall (fun tool =>
                exists name,
                  ToolPanel.category tool = Some (category_of name)) tools ->
      exists groups, ToolPanel.groupedTools tools = Ok groups).
Proof.
  split; [|split].
  - intros Hall.
    destruct (reduce_groups tools [] (NoDup_nil _) Hall) as [groups [Hr [Hn Hk]]].
    exists groups. split; [exact Hr|]. split; [exact Hn|].
    intros k. rewrite Hk. cbn. destruct (members k tools); reflexivity.
  - intros Hex. apply reduce_throws; [reflexivity | exact Hex].
  - intros Hall.
    destruct (reduce_groups tools [] (NoDup_nil _)) as [groups [Hr _]].
    { apply Forall_impl with (2 := Hall). intros tool [name Hc].
      unfold ToolPanel.category_or_general. rewrite Hc.
      destruct (category_of_owned name) as [Hi He]. rewrite He. exact Hi. }
    exists groups. exact Hr.
Qed.

Lemma tools_are_grouped_by_category_witness :
  exists groups,
    ToolPanel.groupedTools panel_tools = Ok groups
    /\ NoDup (map fst groups)
    /\ forall k,
        ToolPanel.lookup k groups
        = match members k panel_tools with
          | [] => None
          | group => Some group
          end.
Proof.
  apply (proj1 (tools_are_grouped_by_category panel_tools)).
  repeat constructor.
Defined.

Lemma to_lower_char_idempotent (c : ascii) :
  JSString.to_lower_char (JSString.to_lower_char c) = JSString.to_lower_char c.
Proof. destruct c as [[] [] [] [] [] [] [] []]; reflexivity. Qed.

Lemma toLowerCase_idempotent (s : string) :
  JSString.toLowerCase (JSString.toLowerCase s) = JSString.toLowerCase s.
Proof.
  induction s as [|c s IH]; cbn [JSString.toLowerCase]; [reflexivity|].
  rewrite to_lower_char_idempotent, IH. reflexivity.
Qed.

(** X21. The search of the panel ignores the case of the query: a query and
    its lower-case form find the same tools.  The empty query finds every
    tool, and what a query finds is a part of the list, in its order. *)
Theorem search_ignores_case (tools : list ToolPanel.Tool) (searchQuery : string) :
  ToolPanel.filteredTools tools (JSString.toLowerCase searchQuery)
  = ToolPanel.filteredTools tools searchQuery
  /\ ToolPanel.filteredTools tools EmptyString = tools
  /\ exists keep,
      ToolPanel.filteredTools tools searchQuery = filter keep tools.
Proof.
  split; [|split].
  - unfold ToolPanel.filteredTools. rewrite toLowerCase_idempotent.
    destruct searchQuery; reflexivity.
  - reflexivity.
  - unfold ToolPanel.filteredTools. destruct (negb (JS.is_empty searchQuery)).
    + eexists. reflexivity.
    + exists (fun _ => true). induction tools as [|t tools IH]; cbn [filter];
        [|rewrite <- IH]; reflexivity.
Qed.

(** X22. A browser client that is not connected holds no tools: this holds
    of a new client and is kept by [connect], [getAvailableTools] and
    [disconnect]; [disconnect] sends nothing and leaves the client not
    connected. *)
Theorem disconnected_client_holds_no_tools :
  (forall config, settled (McpClient.constructor config))
  /\ (forall this s this' s',
         settled this ->
         McpClient.connect this s = (Ok this', s') -> settled this')
  /\ (forall this s tools this' s',
         settled this ->
         McpClient.getAvailableTools this s = (Ok (tools, this'), s') ->
         settled this' /\ tools = McpClient.availableTools this')
  /\ (forall this s,
         settled this ->
         exists this',
           McpClient.disconnect this s = (Ok this', s)
           /\ McpClient.connected this' = false
           /\ McpClient.availableTools this' = JArr []
           /\ McpClient.config this' = McpClient.config this).
Proof.
  split; [|split; [|split]].
  - intros config _. reflexivity.
  - intros this s this' s' _ H Hcon.
    pose proof (connect_leaves_connected _ _ _ _ H). congruence.
  - intros this s tools this' s' Hs H.
    unfold McpClient.getAvailableTools in H. unfold bind in H.
    destruct (McpClient.connected this) eqn:Hthis; cbn [negb] in H.
    + injection H as <- <- _. split; [exact Hs | reflexivity].
    + destruct (McpClient.connect this s) as [[c|e] s1] eqn:Hc;
        [|discriminate H].
      injection H as <- <- _. split; [|reflexivity].
      intros Hcon.
      pose proof (connect_leaves_connected _ _ _ _ Hc). congruence.
  - intros this s Hs. unfold McpClient.disconnect.
    destruct (McpClient.connected this) eqn:Hthis.
    + eexists. split; [reflexivity|]. repeat split.
    + exists this. split; [reflexivity|]. repeat split; auto.
Qed.

Lemma disconnected_client_holds_no_tools_witness :
  exists this',
    McpClient.disconnect connected_client (init_state [])
    = (Ok this', init_state [])
    /\ McpClient.connected this' = false
    /\ McpClient.availableTools this' = JArr []
    /\ McpClient.config this' = McpClient.config connected_client.
Proof.
  apply (proj2 (proj2 (proj2 disconnected_client_holds_no_tools))).
  intros H. discriminate H.
Defined.
